(** * The KnC work-dispatch engine of driver-knc.c

    A shallow embedding of the queueing, polling and flushing code of
    [driver-knc.c] (BFGMiner's KnCMiner driver), and the properties of it
    that the design document states.

    Conventions.
    - A C [int] is a [Z] kept in range by [int]; [uint16_t], [uint32_t] and
      [size_t] values are reduced by [u16], [u32] and [size_t].
    - A byte is a [Z] in [0, 255]; byte buffers are [list Z].
    - [None] as the result of an operation is a dereference of a null
      pointer in the C code.
    - The uthash table is the list of its elements in order of addition.
      Which of several elements with one key a lookup finds depends on
      the order of the table's bucket chains; that order is a parameter
      ([bkt_order]) of every operation that looks something up.
    - Every call the driver makes into the rest of the miner ([applog],
      [free_work], [submit_nonce], ...) is recorded, in order, as an
      [event]. *)

From Stdlib Require Import ZArith Lia Bool.
From stdpp Require Import base tactics option list numbers.

Local Open Scope Z_scope.

(** ** Machine integers *)

(** Two's complement reduction to a 32-bit [int]. *)
Definition int (x : Z) : Z := (x + 2 ^ 31) mod 2 ^ 32 - 2 ^ 31.
Definition u16 (x : Z) : Z := x mod 2 ^ 16.
Definition u32 (x : Z) : Z := x mod 2 ^ 32.
(** [size_t] is taken to be 64 bits wide. It is only used for the room
    left in the 0x1000 bytes of a transfer, which wraps around if more
    than that was emitted. *)
Definition size_t (x : Z) : Z := x mod 2 ^ 64.

(** ** Constants of the driver *)

Definition KNC_POLL_INTERVAL_US : Z := 10000.

(** [enum knc_request_cmd] *)
Definition KNC_REQ_SUBMIT_WORK : Z := 2.
Definition KNC_REQ_FLUSH_QUEUE : Z := 3.

(** [enum knc_reply_type] *)
Definition KNC_REPLY_NONCE_FOUND : Z := 1.
Definition KNC_REPLY_WORK_DONE : Z := 2.

(** ** Data *)

(** The fields of [struct work] the driver touches: [midstate] (32 bytes),
    [data] (128 bytes) and the [device_id] hash key. *)
Record work := mk_work {
  midstate : list Z;
  data : list Z;
  device_id : Z
}.

Definition set_device_id (w : work) (id : Z) : work :=
  {| midstate := midstate w; data := data w; device_id := id |}.

(** [struct knc_device], without the two bus handles. [workqueue] is the
    doubly-linked list of pending work in list order; [devicework] is the
    uthash table of work on the device, kept as the table's own
    doubly-linked list, which is in order of addition: a null head is the
    empty list. *)
Record knc_device := mk_knc {
  need_flush : bool;
  workqueue : list work;
  workqueue_size : Z;
  workqueue_max : Z;
  next_id : Z;
  devicework : list work
}.

(** The part of [struct thr_info] the driver uses: [cgpu->device_data]
    (null before [knc_init]), [queue_full], and [tv_poll], kept as the
    delay in microseconds from the moment it was last set. *)
Record thr_info := mk_thr {
  device_data : option knc_device;
  queue_full : bool;
  tv_poll : Z
}.

(** One processor of the chain that starts at [thr->cgpu] and is linked by
    [next_proc]: whether [proc->device == proc], and the [asicno] of the
    [struct knc_core] of its first thread. *)
Record cgpu_info := mk_cgpu {
  device_is_self : bool;
  knccore_asicno : Z
}.

Inductive log_prio := LOG_ERR | LOG_WARNING | LOG_NOTICE | LOG_DEBUG.

Inductive log_msg :=
| msg_failed_to_open
| msg_issuing_flush
| msg_abandoning_stale
| msg_rx_overflow
| msg_jobs_accepted (workaccept works_sent max : Z)
| msg_recv (record : list Z)
| msg_unknown_work (proc : nat) (rtype i : Z).

(** Calls out of the driver. A thread is named by the position of its
    processor in the chain. *)
Inductive event :=
| applog (prio : log_prio) (msg : log_msg)
| free_work (w : work)
| spi_txrx (tx : list Z)
| inc_hw_errors2 (mythr : nat) (nonce : option Z)
| submit_nonce (mythr : nat) (w : work) (nonce : Z)
| hashes_done2 (mythr : nat) (hashes : Z).

Definition set_knc (thr : thr_info) (knc : knc_device) : thr_info :=
  {| device_data := Some knc; queue_full := queue_full thr;
     tv_poll := tv_poll thr |}.

Definition set_queue_full (thr : thr_info) (b : bool) : thr_info :=
  {| device_data := device_data thr; queue_full := b;
     tv_poll := tv_poll thr |}.

(** [timer_set_now] is [timer_set_delay_from_now] with no delay. *)
Definition timer_set_delay_from_now (thr : thr_info) (usecs : Z) : thr_info :=
  {| device_data := device_data thr; queue_full := queue_full thr;
     tv_poll := usecs |}.

Definition timer_set_now (thr : thr_info) : thr_info :=
  timer_set_delay_from_now thr 0.

(** ** The SPI buffer and the hash table *)

(** Modelled from the spec: spidevc.h is not among the sources. The
    outgoing buffer is the sequence of bytes emitted since it was cleared;
    [spi_emit_nop] appends the given number of no-op padding bytes, whose
    value [nop] is left open. *)
Definition spi_clear_buf : list Z := [].
Definition spi_emit_buf (spi : list Z) (buf : list Z) : list Z := spi ++ buf.
Definition spi_getbufsz (spi : list Z) : Z := Z.of_nat (length spi).
Definition spi_emit_nop (nop : Z) (spi : list Z) (sz : Z) : list Z :=
  spi ++ replicate (Z.to_nat sz) nop.

(** uthash.h is a library outside the repository. The table is kept as
    the list of its elements in order of addition, which is the order of
    [HASH_ITER] and what [HASH_LAST_ADDED] reads the end of.
    [HASH_ADD_INT] links the new element at the tail of the table and
    does not look for an element with an equal key. [HASH_DEL] unlinks
    the element it is given. *)
Definition HASH_ADD_INT (head : list work) (w : work) : list work :=
  head ++ [w].

Definition HASH_DEL (head : list work) (n : nat) : list work := delete n head.

(** The positions, from [pos] on, of the elements of the table whose key
    is [i], in order of addition. *)
Fixpoint hash_positions (head : list work) (i : Z) (pos : nat) : list nat :=
  match head with
  | [] => []
  | w :: tl =>
      if device_id w =? i then pos :: hash_positions tl i (S pos)
      else hash_positions tl i (S pos)
  end.

(** [HASH_FIND_INT] gives an element with the key, here with its
    position, and none exactly when the table has none. The elements with
    one key lie in one bucket chain and the first that the chain reaches
    is found; the order of a chain depends on the additions and on the
    bucket expansions the table has gone through (a new element is linked
    at the head of its chain, an expansion turns the chains around),
    which the list does not record. [bkt_order head i] stands for that
    order: it says which of the elements with key [i], counted in order
    of addition and taken modulo their number, the chain reaches first.
    Every statement about a lookup is made for every [bkt_order]. *)
Definition HASH_FIND_INT (bkt_order : list work -> Z -> nat)
    (head : list work) (i : Z) : option (nat * work) :=
  let found := hash_positions head i 0 in
  n ← found !! (bkt_order head i `mod` length found)%nat;
  w ← head !! n;
  Some (n, w).

(** [HASH_LAST_ADDED(head, out)] reads [head->hh.tbl]: with a null head
    there is nothing to read. *)
Definition HASH_LAST_ADDED (head : list work) : option work :=
  list.last head.

(** ** The pending queue *)

Section Queue.

(** [stale_work(work, share)] of miner.c: it is not among the sources and
    its answer depends on the state of the chain, so it is a parameter of
    every operation that asks it. *)
Variable stale_work : work -> bool -> bool.

(** [knc_remove_local_queue(knc, work)], with [work] given by its position
    [n] in the queue. *)
Definition knc_remove_local_queue (knc : knc_device) (n : nat)
  : knc_device * list event :=
  match workqueue knc !! n with
  | None => (knc, [])
  | Some w =>
      ({| need_flush := need_flush knc;
          workqueue := delete n (workqueue knc);
          workqueue_size := int (workqueue_size knc - 1);
          workqueue_max := workqueue_max knc;
          next_id := next_id knc;
          devicework := devicework knc |},
       [free_work w])
  end.

(** [DL_FOREACH_SAFE(knc->workqueue, work, tmp)] around a conditional
    [knc_remove_local_queue]: [todo] are the elements still to visit, the
    first of them at position [n] of the queue as it is by then. *)
Fixpoint remove_local_queue_if (cond : work -> bool) (todo : list work)
    (n : nat) (knc : knc_device) : knc_device * list event :=
  match todo with
  | [] => (knc, [])
  | w :: todo' =>
      if cond w then
        let '(knc1, ev1) := knc_remove_local_queue knc n in
        let '(knc2, ev2) := remove_local_queue_if cond todo' n knc1 in
        (knc2, ev1 ++ ev2)
      else remove_local_queue_if cond todo' (S n) knc
  end.

Definition knc_prune_local_queue (thr : thr_info)
  : option (thr_info * list event) :=
  knc ← device_data thr;
  let '(knc1, ev) :=
    remove_local_queue_if (fun w => stale_work w false) (workqueue knc) 0 knc in
  Some (set_queue_full (set_knc thr knc1)
          (workqueue_max knc1 <=? workqueue_size knc1), ev).

(** [DL_APPEND] and the increment of the size, in [knc_queue_append]. *)
Definition queue_append_work (knc : knc_device) (w : work) : knc_device :=
  {| need_flush := need_flush knc;
     workqueue := workqueue knc ++ [w];
     workqueue_size := int (workqueue_size knc + 1);
     workqueue_max := workqueue_max knc;
     next_id := next_id knc;
     devicework := devicework knc |}.

Definition knc_queue_append (thr : thr_info) (w : work)
  : option (bool * thr_info * list event) :=
  knc ← device_data thr;
  '(full, thr1, ev1) ←
    (if workqueue_max knc <=? workqueue_size knc then
       '(thr1, ev1) ← knc_prune_local_queue thr;
       Some (queue_full thr1, thr1, ev1)
     else Some (false, thr, []));
  if (full : bool) then Some (false, thr1, ev1)
  else
    knc1 ← device_data thr1;
    let knc2 := queue_append_work knc1 w in
    let thr2 :=
      set_queue_full (set_knc thr1 knc2)
        (workqueue_max knc2 <=? workqueue_size knc2) in
    if queue_full thr2 then
      '(thr3, ev3) ← knc_prune_local_queue thr2;
      Some (true, thr3, ev1 ++ ev3)
    else Some (true, thr2, ev1).

Definition set_need_flush (knc : knc_device) (b : bool) : knc_device :=
  {| need_flush := b;
     workqueue := workqueue knc;
     workqueue_size := workqueue_size knc;
     workqueue_max := workqueue_max knc;
     next_id := next_id knc;
     devicework := devicework knc |}.

(** [knc_queue_flush]: the only operation that tolerates a null
    [device_data]. *)
Definition knc_queue_flush (thr : thr_info) : option (thr_info * list event) :=
  match device_data thr with
  | None => Some (thr, [])
  | Some knc =>
      let '(knc1, ev) :=
        remove_local_queue_if (fun _ => true) (workqueue knc) 0 knc in
      let thr1 := set_queue_full (set_knc thr knc1) false in
      w ← HASH_LAST_ADDED (devicework knc1);
      if stale_work w true then
        Some (timer_set_now (set_knc thr1 (set_need_flush knc1 true)), ev)
      else Some (thr1, ev)
  end.

End Queue.

(** ** Decoding *)

(** [p[i]] for a [uint8_t *p] into the buffer [b]. *)
Definition byte_at (b : list Z) (i : nat) : Z := nth i b 0 mod 256.

Definition get_u16be (b : list Z) (off : nat) : Z :=
  u16 (Z.lor (Z.shiftl (byte_at b off) 8) (byte_at b (off + 1))).

Definition get_u32be (b : list Z) (off : nat) : Z :=
  u32 (Z.lor (Z.lor (Z.lor (Z.shiftl (byte_at b off) 0x18)
                           (Z.shiftl (byte_at b (off + 1)) 0x10))
                    (Z.shiftl (byte_at b (off + 2)) 8))
             (byte_at b (off + 3))).

(** ** Routing a reply to a processor *)

Section Route.

Variable chain : list cgpu_info.

(** [do { proc = proc->next_proc; } while (proc != proc->device);] over the
    processors [rest] that follow the current one, the first of them at
    position [pos]. Running off the chain reads [proc->device] of a null
    [proc]. *)
Fixpoint skip_to_device (rest : list cgpu_info) (pos : nat) : option nat :=
  match rest with
  | [] => None
  | p :: rest' =>
      if device_is_self p then Some pos else skip_to_device rest' (S pos)
  end.

(** The [while (true)] loop that looks for the device of chip [asicno],
    from the processor at [pos]. *)
Fixpoint find_asic (fuel : nat) (pos : nat) (asicno : Z) : option nat :=
  match fuel with
  | O => None
  | S fuel' =>
      p ← chain !! pos;
      if knccore_asicno p =? asicno then Some pos
      else
        pos' ← skip_to_device (drop (S pos) chain) (S pos);
        find_asic fuel' pos' asicno
  end.

(** The processor that [mythr] belongs to: the device of the chip, then
    [coreno] links further. Each link followed, and the final
    [proc->thr[0]], needs a processor to be there. *)
Definition knc_route (asicno coreno : Z) : option nat :=
  pos ← find_asic (length chain) 0 asicno;
  let proc := (pos + Z.to_nat coreno)%nat in
  if decide (proc < length chain)%nat then Some proc else None.

End Route.

(** ** One poll cycle *)

Section Poll.

Variable stale_work : work -> bool -> bool.
Variable chain : list cgpu_info.
(** The global [opt_debug] and the platform's [le32toh]. *)
Variable opt_debug : bool.
Variable le32toh : Z -> Z.
(** The order of the bucket chains of [knc->devicework] during the
    cycle. All lookups of a cycle come before its additions, and the
    table only loses elements in between, so the table as it is at a
    lookup fixes the chains it walks. *)
Variable bkt_order : list work -> Z -> nat.
Variable nop : Z.

(** The 0x30 bytes that the [DL_FOREACH] body of [knc_poll] stores in [buf]
    for one work: every byte of [buf] is assigned. *)
Definition knc_submit_frame (w : work) (workid : Z) : list Z :=
  [Z.shiftl KNC_REQ_SUBMIT_WORK 4; 0;
   Z.land (Z.shiftr workid 8) 0x7f; Z.land workid 0xff]
  ++ ((fun i => nth (0x1f - i) (midstate w) 0) <$> seq 0 0x20)
  ++ ((fun i => nth (0x4b - i) (data w) 0) <$> seq 0 0xc).

(** [DL_FOREACH(knc->workqueue, work)] of [knc_poll]. *)
Fixpoint knc_submit_loop (todo : list work) (spi : list Z)
    (works_sent workid : Z) : list Z * Z * Z :=
  match todo with
  | [] => (spi, works_sent, workid)
  | w :: todo' =>
      knc_submit_loop todo' (spi_emit_buf spi (knc_submit_frame w workid))
        (int (works_sent + 1)) (int (workid + 1))
  end.

(** The body of the [while (true)] loop of [knc_poll] for the record at
    [rxbuf], from the computation of [rtype] on. *)
Definition knc_poll_record (rx : list Z) (rxbuf : nat) (dw : list work)
  : option (list work * list event) :=
  let rtype := Z.shiftr (byte_at rx rxbuf) 6 in
  let ev_recv :=
    if negb (rtype =? 0) && opt_debug
    then [applog LOG_DEBUG (msg_recv (take 0xc (drop rxbuf rx)))] else [] in
  if negb (rtype =? KNC_REPLY_NONCE_FOUND) && negb (rtype =? KNC_REPLY_WORK_DONE)
  then Some (dw, ev_recv)
  else
    let asicno := Z.shiftr (Z.land (byte_at rx rxbuf) 0x38) 3 in
    let coreno := get_u32be rx (rxbuf + 8) in
    proc ← knc_route chain asicno coreno;
    let i := get_u16be rx (rxbuf + 2) in
    match HASH_FIND_INT bkt_order dw i with
    | None =>
        Some (dw,
              ev_recv ++
              [applog LOG_WARNING (msg_unknown_work proc rtype i);
               inc_hw_errors2 proc
                 (if rtype =? KNC_REPLY_NONCE_FOUND
                  then Some (le32toh (get_u32be rx (rxbuf + 4)))
                  else None)])
    | Some (n, w) =>
        if rtype =? KNC_REPLY_NONCE_FOUND then
          Some (dw,
                ev_recv ++
                [submit_nonce proc w (le32toh (get_u32be rx (rxbuf + 4)))])
        else if rtype =? KNC_REPLY_WORK_DONE then
          Some (HASH_DEL dw n,
                ev_recv ++ [free_work w; hashes_done2 proc 0x100000000])
        else Some (dw, ev_recv)
    end.

(** The [while (true)] loop of [knc_poll]. Each round takes 0xc from
    [spi_req_sz], so [fuel] rounds are enough once 0xc * [fuel] exceeds it
    ([knc_poll_records_fuel]). *)
Fixpoint knc_poll_records (fuel : nat) (rx : list Z) (rxbuf : nat)
    (spi_req_sz : Z) (dw : list work) : option (list work * list event) :=
  match fuel with
  | O => None
  | S fuel' =>
      let rxbuf := (rxbuf + 0xc)%nat in
      let spi_req_sz := size_t (spi_req_sz - 0xc) in
      if spi_req_sz <? 0xc then Some (dw, [])
      else
        '(dw1, ev1) ← knc_poll_record rx rxbuf dw;
        '(dw2, ev2) ← knc_poll_records fuel' rx rxbuf spi_req_sz dw1;
        Some (dw2, ev1 ++ ev2)
  end.

(** [HASH_ITER] over the table, deleting and freeing every element:
    [todo] are the elements still to visit, the first of them the head of
    the table by then. *)
Fixpoint hash_drain (todo : list work) (dw : list work)
  : list work * list event :=
  match todo with
  | [] => (dw, [])
  | w :: todo' =>
      let '(dw', ev) := hash_drain todo' (HASH_DEL dw 0) in
      (dw', free_work w :: ev)
  end.

(** [DL_FOREACH_SAFE(knc->workqueue, work, tmp)] of the acceptance branch:
    [work] is the head of the queue each time, and the loop is left when
    the [uint16_t] count reaches zero. *)
Fixpoint knc_accept_loop (todo : list work) (knc : knc_device)
    (workaccept : Z) : knc_device :=
  match todo with
  | [] => knc
  | w :: todo' =>
      let knc1 :=
        {| need_flush := need_flush knc;
           workqueue := delete 0%nat (workqueue knc);
           workqueue_size := int (workqueue_size knc - 1);
           workqueue_max := workqueue_max knc;
           next_id := int (next_id knc + 1);
           devicework :=
             HASH_ADD_INT (devicework knc)
               (set_device_id w (Z.land (next_id knc) 0x7fff)) |} in
      let workaccept := u16 (workaccept - 1) in
      if workaccept =? 0 then knc1 else knc_accept_loop todo' knc1 workaccept
  end.

Definition set_devicework (knc : knc_device) (dw : list work) : knc_device :=
  {| need_flush := need_flush knc;
     workqueue := workqueue knc;
     workqueue_size := workqueue_size knc;
     workqueue_max := workqueue_max knc;
     next_id := next_id knc;
     devicework := dw |}.

Definition set_workqueue_max (knc : knc_device) (m : Z) : knc_device :=
  {| need_flush := need_flush knc;
     workqueue := workqueue knc;
     workqueue_size := workqueue_size knc;
     workqueue_max := m;
     next_id := next_id knc;
     devicework := devicework knc |}.

(** The outgoing buffer of [knc_poll], from [spi_clear_buf] to the padding.
    [buf] is the local array as the function finds it: nothing is stored
    in it before the flush command is written to [buf[0]] and all of it is
    emitted. *)
Definition knc_poll_tx (buf : list Z) (knc : knc_device) : list Z * Z :=
  let spi := spi_clear_buf in
  let spi :=
    if need_flush knc
    then spi_emit_buf spi (<[0%nat := Z.shiftl KNC_REQ_FLUSH_QUEUE 4]> buf)
    else spi in
  let '(spi, works_sent, _) :=
    knc_submit_loop (workqueue knc) spi 0 (next_id knc) in
  (spi_emit_nop nop spi (size_t (0x1000 - spi_getbufsz spi)), works_sent).

(** [knc_poll]. [txrx] is the device at the other end of [spi_txrx]: from
    the bytes sent, whether the transfer succeeded and the contents of the
    receive buffer afterwards. The result of [spi_txrx] is not looked at. *)
Definition knc_poll (txrx : list Z -> bool * list Z) (buf : list Z)
    (thr : thr_info) : option (thr_info * list event) :=
  '(thr1, ev_prune) ← knc_prune_local_queue stale_work thr;
  knc ← device_data thr1;
  let delay_usecs := KNC_POLL_INTERVAL_US in
  let ev_flush :=
    if need_flush knc then [applog LOG_NOTICE msg_abandoning_stale] else [] in
  let '(tx, works_sent) := knc_poll_tx buf knc in
  let '(_, rx) := txrx tx in
  let ev_ovf :=
    if Z.land (byte_at rx 3) 1 =? 0 then []
    else [applog LOG_DEBUG msg_rx_overflow] in
  let workaccept := get_u16be rx 6 in
  let ev_acc :=
    [applog LOG_DEBUG
       (msg_jobs_accepted workaccept works_sent (workqueue_max knc))] in
  '(dw1, ev_rec) ← knc_poll_records 342 rx 0 0x1000 (devicework knc);
  let knc1 := set_devicework knc dw1 in
  let '(knc2, delay_usecs, ev_drain) :=
    if need_flush knc1 then
      let '(dw2, ev) := hash_drain (devicework knc1) (devicework knc1) in
      (set_devicework (set_need_flush knc1 false) dw2, 0, ev)
    else (knc1, delay_usecs, []) in
  let '(thr2, delay_usecs) :=
    if negb (workaccept =? 0) then
      let '(knc3, delay_usecs) :=
        if workqueue_max knc2 <=? workaccept
        then (set_workqueue_max knc2 workaccept, 0)
        else (knc2, delay_usecs) in
      let knc4 := knc_accept_loop (workqueue knc3) knc3 workaccept in
      (set_queue_full (set_knc thr1 knc4)
         (workqueue_max knc4 <=? workqueue_size knc4), delay_usecs)
    else (set_knc thr1 knc2, delay_usecs) in
  Some (timer_set_delay_from_now thr2 delay_usecs,
        ev_prune ++ ev_flush ++ [spi_txrx tx] ++ ev_ovf ++ ev_acc
        ++ ev_rec ++ ev_drain).

(** [knc_clean_flush]. *)
Definition knc_clean_flush : list event :=
  let flushcmd := Z.shiftl KNC_REQ_FLUSH_QUEUE 4 in
  let spi := spi_clear_buf in
  let spi := spi_emit_buf spi [flushcmd] in
  let spi := spi_emit_nop nop spi (size_t (0x1000 - spi_getbufsz spi)) in
  [applog LOG_DEBUG msg_issuing_flush; spi_txrx spi].

(** [knc_spi_open]: the device node may be missing, or one of the four
    configuration calls may fail, which alone is logged. *)
Inductive spi_open_result := spi_opened | spi_no_device | spi_ioctl_failed.

Definition knc_spi_open (r : spi_open_result) : bool * list event :=
  match r with
  | spi_opened => (true, [])
  | spi_no_device => (false, [])
  | spi_ioctl_failed => (false, [applog LOG_WARNING msg_failed_to_open])
  end.

(** [knc_init] from the allocation of the device on: the scan of the
    chips before it touches no state of the engine and is taken to have
    passed. *)
Definition knc_init (r : spi_open_result) (thr : thr_info)
  : bool * thr_info * list event :=
  let knc :=
    {| need_flush := false; workqueue := []; workqueue_size := 0;
       workqueue_max := 1; next_id := 0; devicework := [] |} in
  let thr1 := set_knc thr knc in
  let '(opened, ev) := knc_spi_open r in
  if opened then (true, timer_set_now thr1, ev ++ knc_clean_flush)
  else (false, thr1, ev).

End Poll.

(** ** Sequences of operations *)

(** The three entry points the miner's queue loop calls, each with the
    answers of its environment: the staleness of work at that moment and,
    for a poll, the device, the contents of the stack and the order of
    the bucket chains of the table by then. *)
Inductive knc_op :=
| op_queue_append (stale_work : work -> bool -> bool) (w : work)
| op_queue_flush (stale_work : work -> bool -> bool)
| op_poll (stale_work : work -> bool -> bool)
    (txrx : list Z -> bool * list Z) (buf : list Z)
    (bkt_order : list work -> Z -> nat).

Section Run.

Variable chain : list cgpu_info.
Variable opt_debug : bool.
Variable le32toh : Z -> Z.
Variable nop : Z.

Definition knc_step (op : knc_op) (thr : thr_info)
  : option (thr_info * list event) :=
  match op with
  | op_queue_append stale_work w =>
      '(_, thr', ev) ← knc_queue_append stale_work thr w; Some (thr', ev)
  | op_queue_flush stale_work => knc_queue_flush stale_work thr
  | op_poll stale_work txrx buf bkt_order =>
      knc_poll stale_work chain opt_debug le32toh bkt_order nop txrx buf thr
  end.

Fixpoint knc_run (ops : list knc_op) (thr : thr_info)
  : option (thr_info * list event) :=
  match ops with
  | [] => Some (thr, [])
  | op :: ops' =>
      '(thr1, ev1) ← knc_step op thr;
      '(thr2, ev2) ← knc_run ops' thr1;
      Some (thr2, ev1 ++ ev2)
  end.

End Run.

(** ** Detection *)

(** What [knc_detect_one] hands to [add_cgpu_slave]: the fields it sets in
    the new [struct cgpu_info]. *)
Record new_cgpu (devpath : Type) := mk_new_cgpu {
  device_path : devpath;
  procs : Z;
  threads : Z
}.

Arguments mk_new_cgpu {devpath} _ _ _.
Arguments device_path {devpath} _.
Arguments procs {devpath} _.
Arguments threads {devpath} _.

(** The answers of the system to one call of [knc_detect_one]: the
    descriptor [open] returns (none for -1), whether the [I2C_SLAVE]
    request fails, the 0x20 bytes of [buf] after the block read (none when
    the read returns -1), and the result of [add_cgpu_slave]. *)
Record detect_io := mk_detect_io {
  io_open : option Z;
  io_ioctl_fails : bool;
  io_read : option (list Z);
  io_add_cgpu : bool
}.

Inductive detect_event (devpath : Type) :=
| sys_open
| sys_ioctl (fd : Z) (i2cslave : Z)
| sys_read (fd : Z)
| sys_close (fd : Z)
| detect_log
| add_cgpu_slave (cgpu : new_cgpu devpath).

Arguments sys_open {devpath}.
Arguments sys_ioctl {devpath} _ _.
Arguments sys_read {devpath} _.
Arguments sys_close {devpath} _.
Arguments detect_log {devpath}.
Arguments add_cgpu_slave {devpath} _.

(** The [for (i = 0; ; ++i)] loop of [knc_detect_one] over [buf], from
    index [i]: left with success at the first byte that is 3, with failure
    once index 0x1f was looked at. [fuel] bounds the rounds; 0x20 of them
    from index 0 always reach one of the two exits
    ([detect_scan_spec]). *)
Fixpoint detect_scan (buf : list Z) (i : nat) (fuel : nat) : bool :=
  match fuel with
  | O => false
  | S fuel' =>
      if nth i buf 0 =? 3 then true
      else if (i =? 0x1f)%nat then false
      else detect_scan buf (S i) fuel'
  end.

Section Detect.

(** Device paths are strings; [strtol] gives the number a path starts with
    and whether characters are left over after it, [sprintf_d] prints a
    number in decimal. Both belong to the C library. *)
Variable devpath : Type.
Variable strtol : devpath -> Z * bool.
Variable sprintf_d : Z -> devpath.

(** [knc_detect_one], with the static [prev_cgpu] passed in and out. *)
Definition knc_detect_one (io : detect_io) (path : devpath)
    (prev_cgpu : option (new_cgpu devpath))
  : bool * option (new_cgpu devpath) * list (detect_event devpath) :=
  let '(i2cslave, leftover) := strtol path in
  if (leftover : bool) then (false, prev_cgpu, [sys_open])
  else
    match io_open io with
    | None => (false, prev_cgpu, [sys_open; detect_log])
    | Some fd =>
        if io_ioctl_fails io then
          (false, prev_cgpu,
           [sys_open; sys_ioctl fd i2cslave; sys_close fd; detect_log])
        else
          match io_read io with
          | None =>
              (false, prev_cgpu,
               [sys_open; sys_ioctl fd i2cslave; sys_read fd; sys_close fd;
                detect_log])
          | Some buf =>
              let ev :=
                [sys_open; sys_ioctl fd i2cslave; sys_read fd; sys_close fd] in
              if detect_scan buf 0 0x20 then
                let cgpu :=
                  {| device_path := path;
                     procs := 192;
                     threads := match prev_cgpu with Some _ => 0 | None => 1 end |} in
                (io_add_cgpu io, Some cgpu, ev ++ [add_cgpu_slave cgpu])
              else (false, prev_cgpu, ev)
          end
    end.

(** The [for (i = first; i <= last; ++i)] loop of [knc_detect_auto]: [n]
    addresses from [i] on, the system answering the call for address [j]
    with [io j]. *)
Fixpoint detect_auto_loop (io : Z -> detect_io) (i : Z) (n : nat)
    (found : Z) (prev_cgpu : option (new_cgpu devpath))
  : Z * option (new_cgpu devpath) * list (detect_event devpath) :=
  match n with
  | O => (found, prev_cgpu, [])
  | S n' =>
      let '(rv, prev1, ev1) := knc_detect_one (io i) (sprintf_d i) prev_cgpu in
      let found1 := if rv then int (found + 1) else found in
      let '(found2, prev2, ev2) :=
        detect_auto_loop io (i + 1) n' found1 prev1 in
      (found2, prev2, ev1 ++ ev2)
  end.

(** [knc_detect_auto]: the addresses 0x20 to 0x26. *)
Definition knc_detect_auto (io : Z -> detect_io)
    (prev_cgpu : option (new_cgpu devpath))
  : Z * option (new_cgpu devpath) * list (detect_event devpath) :=
  let first := 0x20 in
  let last := 0x26 in
  detect_auto_loop io first (Z.to_nat (last - first + 1)) 0 prev_cgpu.

End Detect.

(** ** Vocabulary of the statements *)

(** The identifier after [i] increments of [next_id]. *)
Fixpoint next_id_after (i : nat) (next : Z) : Z :=
  match i with
  | O => next
  | S i' => next_id_after i' (int (next + 1))
  end.

(** [k] decrements of the [int] size. *)
Definition dec_size (k : nat) (size : Z) : Z :=
  Nat.iter k (fun s => int (s - 1)) size.

(** The size field counts the queue, the queue is within the capacity and
    the capacity is a positive 16-bit count: true of the state [knc_init]
    leaves and kept by every operation ([knc_step_wf]). *)
Definition knc_wf (knc : knc_device) : Prop :=
  workqueue_size knc = Z.of_nat (length (workqueue knc))
  /\ workqueue_size knc <= workqueue_max knc
  /\ 1 <= workqueue_max knc <= 0xffff.

Section Pruned.

Variable stale_work : work -> bool -> bool.

Definition is_stale (w : work) : bool := stale_work w false.
Definition not_stale (w : work) : bool := negb (stale_work w false).

(** The device after [knc_prune_local_queue]. *)
Definition pruned (knc : knc_device) : knc_device :=
  {| need_flush := need_flush knc;
     workqueue := List.filter not_stale (workqueue knc);
     workqueue_size :=
       dec_size (length (List.filter is_stale (workqueue knc)))
         (workqueue_size knc);
     workqueue_max := workqueue_max knc;
     next_id := next_id knc;
     devicework := devicework knc |}.

(** What a poll works with: the pending queue after the pruning that
    opens the cycle. *)
Definition pending (knc : knc_device) : list work := workqueue (pruned knc).

(** The queue [knc_queue_append] leaves when it has room for [w] in the
    queue [q]: the new work at the tail and, if that fills the queue, the
    stale work pruned. *)
Definition enqueue_finish (max : Z) (q : list work) (w : work) : list work :=
  if max <=? Z.of_nat (length (q ++ [w]))
  then List.filter not_stale (q ++ [w]) else q ++ [w].

End Pruned.

(** The work [l] as [knc_poll] adds it to the table, the first under the
    identifier [next]. *)
Fixpoint assign_ids (next : Z) (l : list work) : list work :=
  match l with
  | [] => []
  | w :: l' =>
      set_device_id w (Z.land next 0x7fff) :: assign_ids (int (next + 1)) l'
  end.

(** The frames [knc_poll] emits for the work [l], the first under the
    identifier [workid]. *)
Fixpoint submit_frames (workid : Z) (l : list work) : list Z :=
  match l with
  | [] => []
  | w :: l' => knc_submit_frame w workid ++ submit_frames (int (workid + 1)) l'
  end.

(** A cycle raises, or confirms, the capacity when the device reports a
    non-zero count that is not below it. *)
Definition reaches_capacity (knc : knc_device) (workaccept : Z) : bool :=
  negb (workaccept =? 0) && (workqueue_max knc <=? workaccept).

Section PollResult.

Variable stale_work : work -> bool -> bool.

(** The device a poll cycle leaves, from the device it found, the
    accepted count [workaccept] it read and the table [base] its reply
    records left. *)
Definition poll_device (knc : knc_device) (workaccept : Z)
    (base : list work) : knc_device :=
  let knc1 := pruned stale_work knc in
  let moved := (Z.to_nat workaccept `min` length (workqueue knc1))%nat in
  {| need_flush := false;
     workqueue := drop (Z.to_nat workaccept) (workqueue knc1);
     workqueue_size := dec_size moved (workqueue_size knc1);
     workqueue_max :=
       if reaches_capacity knc workaccept then workaccept
       else workqueue_max knc;
     next_id := next_id_after moved (next_id knc);
     devicework :=
       (if need_flush knc then [] else base)
       ++ assign_ids (next_id knc)
            (take (Z.to_nat workaccept) (workqueue knc1)) |}.

Definition poll_delay (knc : knc_device) (workaccept : Z) : Z :=
  if need_flush knc || reaches_capacity knc workaccept then 0
  else KNC_POLL_INTERVAL_US.

Variable nop : Z.
Variable txrx : list Z -> bool * list Z.
Variable buf : list Z.

(** The bytes a poll cycle sends, the bytes it then finds in the receive
    buffer and the accepted count among them. *)
Definition poll_tx (knc : knc_device) : list Z :=
  (knc_poll_tx nop buf (pruned stale_work knc)).1.

Definition poll_rx (knc : knc_device) : list Z := (txrx (poll_tx knc)).2.

Definition poll_workaccept (knc : knc_device) : Z :=
  get_u16be (poll_rx knc) 6.

End PollResult.

Section RecordsOver.

Variable chain : list cgpu_info.
Variable opt_debug : bool.
Variable le32toh : Z -> Z.
Variable bkt_order : list work -> Z -> nat.

(** The reply records at the offsets [offs] of the receive buffer, handled
    one after the other. *)
Fixpoint records_over (rx : list Z) (offs : list nat) (dw : list work)
  : option (list work * list event) :=
  match offs with
  | [] => Some (dw, [])
  | off :: offs' =>
      '(dw1, ev1) ← knc_poll_record chain opt_debug le32toh bkt_order rx off dw;
      '(dw2, ev2) ← records_over rx offs' dw1;
      Some (dw2, ev1 ++ ev2)
  end.

End RecordsOver.

(** A buffer of 0x1000 bytes holds the header and 340 whole records. *)
Definition record_offsets (start : nat) (n : nat) : list nat :=
  (fun j => start + 0xc * j)%nat <$> seq 1 n.

(** The debug line [knc_poll] logs for a record that is not empty. *)
Definition recv_log (opt_debug : bool) (rx : list Z) (rxbuf : nat)
  : list event :=
  if negb (Z.shiftr (byte_at rx rxbuf) 6 =? 0) && opt_debug
  then [applog LOG_DEBUG (msg_recv (take 0xc (drop rxbuf rx)))] else [].

(** A record of the receive buffer is routable when it is not a
    nonce-found or work-done record, or the chain has the processor it
    names. *)
Definition routable (chain : list cgpu_info) (rx : list Z) (rxbuf : nat)
  : Prop :=
  let rtype := Z.shiftr (byte_at rx rxbuf) 6 in
  rtype = KNC_REPLY_NONCE_FOUND \/ rtype = KNC_REPLY_WORK_DONE ->
  is_Some (knc_route chain (Z.shiftr (Z.land (byte_at rx rxbuf) 0x38) 3)
             (get_u32be rx (rxbuf + 8))).

(** The work a trace hands to [free_work], in order. *)
Definition freed (ev : list event) : list work :=
  omap (fun e => match e with free_work w => Some w | _ => None end) ev.

(** A work without its place in the device table. *)
Definition clear_id (w : work) : work := set_device_id w 0.

(** Every identifier of the table fits in 15 bits. *)
Definition ids_in_range (dw : list work) : Prop :=
  Forall (fun w => 0 <= device_id w < 2 ^ 15) dw.

(** The devices a detection trace hands to [add_cgpu_slave], and the
    descriptors it closes, in order. *)
Definition created {devpath : Type} (ev : list (detect_event devpath))
  : list (new_cgpu devpath) :=
  omap (fun e => match e with add_cgpu_slave c => Some c | _ => None end) ev.

Definition closed {devpath : Type} (ev : list (detect_event devpath))
  : list Z :=
  omap (fun e => match e with sys_close fd => Some fd | _ => None end) ev.

(** A chip is looked for at the head of the chain and at every processor
    that is its own device. *)
Definition chip_start (chain : list cgpu_info) (pos : nat) : Prop :=
  pos = 0%nat
  \/ exists p, chain !! pos = Some p /\ device_is_self p = true.

(** The system answers a detection call well: the descriptor opens, the
    slave address is accepted, the block is read with a 3 among its 0x20
    bytes, and the device is added. *)
Definition detect_io_ok (io : detect_io) : bool :=
  match io_open io, io_read io with
  | Some _, Some buf =>
      negb (io_ioctl_fails io) && detect_scan buf 0 0x20 && io_add_cgpu io
  | _, _ => false
  end.

(** The thread counts of [k] devices created in a row: one thread for
    the first device ever created, none for the others. *)
Definition thread_counts (had_prev : bool) (k : nat) : list Z :=
  if had_prev then replicate k 0
  else match k with O => [] | S k' => 1 :: replicate k' 0 end.

(** ** Sample data *)

Definition ex_work (n : Z) : work :=
  mk_work (replicate 32 n) (replicate 128 n) 0.

Definition ex_never_stale : work -> bool -> bool := fun _ _ => false.

(** Work whose midstate starts with 7 is stale. *)
Definition ex_stale_7 : work -> bool -> bool :=
  fun w _ => nth 0 (midstate w) 0 =? 7.

(** The bucket chains of a table that has not been expanded: every
    element was linked at the head of its chain, so of the elements with
    one key the one added last is reached first. *)
Definition ex_newest_first : list work -> Z -> nat :=
  fun head i => pred (length (hash_positions head i 0)).

(** The bucket chains after an expansion has turned them around: of the
    elements with one key the one added first is reached first. *)
Definition ex_oldest_first : list work -> Z -> nat := fun _ _ => 0%nat.

(** Two chips of two cores each. *)
Definition ex_chain : list cgpu_info :=
  [mk_cgpu true 0; mk_cgpu false 0; mk_cgpu true 1; mk_cgpu false 1].

(** A receive buffer of 0x1000 bytes: the header with the accepted count,
    the given records, and empty records after them. *)
Definition ex_rx (workaccept : Z) (records : list Z) : list Z :=
  [0; 0; 0; 0; 0; 0; workaccept / 256; workaccept mod 256; 0; 0; 0; 0]
  ++ records ++ replicate (0x1000 - 0xc - length records) 0.

(** A device that answers [rx] whatever it is sent. *)
Definition ex_device (ok : bool) (rx : list Z) : list Z -> bool * list Z :=
  fun _ => (ok, rx).

(** The local array of [knc_poll] as a call may find it. *)
Definition ex_buf : list Z := replicate 0x30 0xaa.

(** The thread as [knc_init] leaves it. *)
Definition ex_thr_init : thr_info :=
  (knc_init 0 spi_opened (mk_thr None false 0)).1.2.

Definition ex_knc_init : knc_device := mk_knc false [] 0 1 0 [].

(** One work enqueued and accepted with a count of 3, another enqueued and
    flushed away, and an idle poll. *)
Definition ex_ops : list knc_op :=
  [op_queue_append ex_never_stale (ex_work 1);
   op_poll ex_never_stale (ex_device true (ex_rx 3 [])) ex_buf
     ex_newest_first;
   op_queue_append ex_never_stale (ex_work 2);
   op_queue_flush ex_never_stale;
   op_poll ex_never_stale (ex_device true (ex_rx 0 [])) ex_buf
     ex_newest_first].

(** A device about to wrap its identifiers: four works pending, one of
    them stale under [ex_stale_7], and one work on the device. *)
Definition ex_knc_wrap : knc_device :=
  mk_knc false [ex_work 1; ex_work 7; ex_work 2; ex_work 3] 4 4 0x7fff
    [set_device_id (ex_work 9) 5].

(** A device with a flush pending, one work on the device and one
    pending. *)
Definition ex_knc_flush : knc_device :=
  mk_knc true [ex_work 2] 1 1 1 [ex_work 1].

(** A device whose identifiers have wrapped around to that of a work that
    is still on the device. *)
Definition ex_knc_collide : knc_device :=
  mk_knc false [ex_work 2] 1 1 0x8000 [ex_work 1].

(** A poll of [ex_chain] by a device that answers [rx], with the thread
    and the trace it leaves. *)
Definition ex_poll (stale_work : work -> bool -> bool) (rx : list Z)
    (knc : knc_device) : option (thr_info * list event) :=
  knc_poll stale_work ex_chain false id ex_newest_first 0
    (ex_device true rx) ex_buf (mk_thr (Some knc) true 0).

Definition ex_thr_of (r : option (thr_info * list event)) : thr_info :=
  default (mk_thr None false 0) (fst <$> r).

Definition ex_ev_of (r : option (thr_info * list event)) : list event :=
  default [] (snd <$> r).

(** The device accepts two works and reports the end of the work under
    identifier 5. *)
Definition ex_rx_done_5 : list Z :=
  ex_rx 2 [0x80; 0; 0; 5; 0; 0; 0; 0; 0; 0; 0; 0].

(** The numbers [start], [start + 1], ... as bytes. *)
Definition seq_Z (start : Z) (len : nat) : list Z :=
  (fun i => start + Z.of_nat i) <$> seq 0 len.

(** Detection with numbers for device paths. The system has devices at
    the addresses 0x21 and 0x23 and cannot select any other. *)
Definition ex_strtol (path : Z) : Z * bool := (path, false).

Definition ex_detect_io (i : Z) : detect_io :=
  if (i =? 0x21) || (i =? 0x23)
  then mk_detect_io (Some 5) false (Some (replicate 0x1f 0 ++ [3])) true
  else mk_detect_io (Some 5) true None true.

(** * Properties *)

(** ** Machine integers *)

Lemma int_id (x : Z) : - 2 ^ 31 <= x < 2 ^ 31 -> int x = x.
Proof. intros H. unfold int. rewrite Z.mod_small; lia. Qed.

Lemma int_mod_15 (x : Z) : int x mod 2 ^ 15 = x mod 2 ^ 15.
Proof.
  unfold int.
  pose proof (Z.div_mod (x + 2 ^ 31) (2 ^ 32) ltac:(lia)) as E.
  replace ((x + 2 ^ 31) mod 2 ^ 32 - 2 ^ 31)
    with (x + (- ((x + 2 ^ 31) / 2 ^ 32) * 2 ^ 17) * 2 ^ 15) by lia.
  apply Z.mod_add. lia.
Qed.

Lemma land_7fff (x : Z) : Z.land x 0x7fff = x mod 2 ^ 15.
Proof. change 0x7fff with (Z.ones 15). apply Z.land_ones. lia. Qed.

Lemma u16_range (x : Z) : 0 <= u16 x < 2 ^ 16.
Proof. unfold u16. apply Z.mod_pos_bound. lia. Qed.

Lemma next_id_after_mod (i : nat) (next : Z) :
  next_id_after i next mod 2 ^ 15 = (next + Z.of_nat i) mod 2 ^ 15.
Proof.
  revert next. induction i as [|i IH]; intros next; simpl next_id_after.
  - f_equal. lia.
  - rewrite IH. rewrite <- Z.add_mod_idemp_l by lia.
    rewrite int_mod_15. rewrite Z.add_mod_idemp_l by lia. f_equal. lia.
Qed.

(** ** The pending queue *)

Lemma dec_size_S (k : nat) (size : Z) :
  dec_size (S k) size = dec_size k (int (size - 1)).
Proof. unfold dec_size. by rewrite Nat.iter_succ_r. Qed.

Lemma dec_size_small (k : nat) (size : Z) :
  Z.of_nat k <= size < 2 ^ 31 -> dec_size k size = size - Z.of_nat k.
Proof.
  unfold dec_size. induction k as [|k IH]; intros H; simpl.
  - lia.
  - rewrite IH by lia. rewrite int_id; lia.
Qed.

Section QueueFacts.

Variable cond : work -> bool.

Lemma remove_local_queue_if_spec (todo : list work) :
  forall (n : nat) (knc : knc_device),
    drop n (workqueue knc) = todo ->
    remove_local_queue_if cond todo n knc =
    ({| need_flush := need_flush knc;
        workqueue :=
          take n (workqueue knc) ++ List.filter (fun w => negb (cond w)) todo;
        workqueue_size :=
          dec_size (length (List.filter cond todo)) (workqueue_size knc);
        workqueue_max := workqueue_max knc;
        next_id := next_id knc;
        devicework := devicework knc |},
     free_work <$> List.filter cond todo).
Proof.
  induction todo as [|w todo IH]; intros n knc Hdrop.
  - simpl. rewrite app_nil_r.
    rewrite take_ge; [by destruct knc|].
    apply (f_equal length) in Hdrop. rewrite length_drop in Hdrop.
    simpl in Hdrop. lia.
  - assert (Hn : workqueue knc !! n = Some w).
    { rewrite <- (Nat.add_0_r n), <- lookup_drop, Hdrop. done. }
    assert (Htl : drop (S n) (workqueue knc) = todo).
    { rewrite (drop_S _ _ _ Hn) in Hdrop. congruence. }
    assert (Hlen : length (take n (workqueue knc)) = n).
    { apply length_take_le. apply lookup_lt_Some in Hn. lia. }
    cbn [remove_local_queue_if List.filter]. destruct (cond w) eqn:Hc.
    + cbn [negb length fmap list_fmap].
      unfold knc_remove_local_queue. rewrite Hn.
      rewrite delete_take_drop, Htl.
      rewrite IH; cbn [workqueue workqueue_size need_flush workqueue_max
                         next_id devicework].
      * f_equal. f_equal.
        -- rewrite take_app_length' by done. done.
        -- by rewrite dec_size_S.
      * by rewrite drop_app_length'.
    + cbn [negb]. rewrite IH by done. f_equal. f_equal.
      rewrite (take_S_r _ _ w) by done. by rewrite <- app_assoc.
Qed.

End QueueFacts.

Section PruneFacts.

Variable stale_work : work -> bool -> bool.

Local Abbreviation is_stale := (is_stale stale_work).
Local Abbreviation not_stale := (not_stale stale_work).
Local Abbreviation pruned := (pruned stale_work).

Lemma knc_prune_local_queue_eq (thr : thr_info) (knc : knc_device) :
  device_data thr = Some knc ->
  knc_prune_local_queue stale_work thr =
  Some (set_queue_full (set_knc thr (pruned knc))
          (workqueue_max knc <=? workqueue_size (pruned knc)),
        free_work <$> List.filter is_stale (workqueue knc)).
Proof.
  intros Hk. unfold knc_prune_local_queue. rewrite Hk. simpl.
  rewrite (remove_local_queue_if_spec (fun w => stale_work w false)) by done.
  simpl. reflexivity.
Qed.

Lemma filter_split_length (l : list work) :
  (length (List.filter is_stale l) + length (List.filter not_stale l)
   = length l)%nat.
Proof.
  induction l as [|w l IH]; [done|].
  unfold is_stale, not_stale in *. simpl.
  destruct (stale_work w false); simpl; lia.
Qed.

Lemma pruned_size (knc : knc_device) :
  knc_wf knc ->
  workqueue_size (pruned knc) = Z.of_nat (length (workqueue (pruned knc))).
Proof.
  intros (Hsz & Hle & Hmax). simpl.
  pose proof (filter_split_length (workqueue knc)).
  rewrite dec_size_small; lia.
Qed.

Lemma pruned_wf (knc : knc_device) : knc_wf knc -> knc_wf (pruned knc).
Proof.
  intros Hwf. pose proof (pruned_size knc Hwf) as Hs.
  destruct Hwf as (Hsz & Hle & Hmax).
  split; [done|]. split; [|done].
  rewrite Hs. simpl.
  pose proof (filter_split_length (workqueue knc)). lia.
Qed.

(** Pruning that removes nothing leaves the queue as it was. *)
Lemma filter_not_stale_full (l : list work) :
  length (List.filter not_stale l) = length l -> List.filter not_stale l = l.
Proof.
  induction l as [|w l IH]; [done|]. simpl.
  pose proof (List.filter_length_le not_stale l).
  destruct (not_stale w); simpl; intros; [f_equal; apply IH|]; lia.
Qed.

(** The second half of [knc_queue_append], from [DL_APPEND] on. *)
Lemma queue_append_tail (thr : thr_info) (knc : knc_device) (w : work)
    (ev : list event) :
  device_data thr = Some knc ->
  knc_wf knc ->
  workqueue_size knc < workqueue_max knc ->
  exists thr' ev' knc',
    (let knc2 := queue_append_work knc w in
     let thr2 :=
       set_queue_full (set_knc thr knc2)
         (workqueue_max knc2 <=? workqueue_size knc2) in
     if queue_full thr2 then
       '(thr3, ev3) ← knc_prune_local_queue stale_work thr2;
       Some (true, thr3, ev ++ ev3)
     else Some (true, thr2, ev)) = Some (true, thr', ev')
    /\ device_data thr' = Some knc'
    /\ workqueue knc' =
       enqueue_finish stale_work (workqueue_max knc) (workqueue knc) w
    /\ workqueue_max knc' = workqueue_max knc
    /\ need_flush knc' = need_flush knc
    /\ devicework knc' = devicework knc
    /\ next_id knc' = next_id knc
    /\ knc_wf knc'.
Proof.
  intros Hk (Hsz & Hle & Hmax) Hlt.
  assert (Hwf2 : knc_wf (queue_append_work knc w)).
  { unfold knc_wf. simpl. rewrite length_app. simpl.
    rewrite int_id by lia. lia. }
  assert (Hs2 : workqueue_size (queue_append_work knc w)
                = Z.of_nat (length (workqueue knc ++ [w]))).
  { apply Hwf2. }
  cbv zeta. unfold enqueue_finish. rewrite <- Hs2.
  cbn [queue_full set_queue_full workqueue_max queue_append_work].
  destruct (workqueue_max knc <=? _) eqn:Hfull.
  - rewrite (knc_prune_local_queue_eq _ (queue_append_work knc w)) by done.
    cbn [mbind option_bind].
    eexists _, _, _. split; [reflexivity|].
    split; [reflexivity|]. split_and!; try done.
    apply (pruned_wf _ Hwf2).
  - eexists _, _, _. split; [reflexivity|].
    split; [reflexivity|]. split_and!; done.
Qed.

End PruneFacts.

(** ** Enqueueing *)

(** [knc_queue_append] on a well-formed device, in full. *)
Lemma knc_queue_append_room (stale_work : work -> bool -> bool)
    (thr : thr_info) (knc : knc_device) (w : work) :
  device_data thr = Some knc ->
  knc_wf knc ->
  let q := workqueue knc in
  let q0 :=
    if workqueue_max knc <=? workqueue_size knc
    then List.filter (not_stale stale_work) q else q in
  let room := Z.of_nat (length q0) <? workqueue_max knc in
  exists thr' ev knc',
    knc_queue_append stale_work thr w = Some (room, thr', ev)
    /\ device_data thr' = Some knc'
    /\ workqueue knc' =
       (if room then enqueue_finish stale_work (workqueue_max knc) q0 w
        else q)
    /\ workqueue_max knc' = workqueue_max knc
    /\ knc_wf knc'.
Proof.
  intros Hk Hwf q q0 room. subst q q0 room.
  pose proof Hwf as (Hsz & Hle & Hmax).
  unfold knc_queue_append. rewrite Hk. cbn [mbind option_bind].
  destruct (workqueue_max knc <=? workqueue_size knc) eqn:Hcap.
  - apply Z.leb_le in Hcap. rewrite (knc_prune_local_queue_eq _ _ _ Hk). cbn [mbind option_bind].
    cbn [queue_full set_queue_full].
    pose proof (pruned_wf stale_work knc Hwf) as Hwfp.
    pose proof (pruned_size stale_work knc Hwf) as Hsp.
    rewrite Hsp. cbn [workqueue pruned].
    destruct (workqueue_max knc <=? _) eqn:Hfull.
    + apply Z.leb_le in Hfull.
      assert (Hroom : (Z.of_nat (length (List.filter (not_stale stale_work)
                (workqueue knc))) <? workqueue_max knc) = false)
        by (apply Z.ltb_ge; lia).
      rewrite Hroom.
      eexists _, _, _. split; [reflexivity|]. split; [reflexivity|].
      split_and!; try done. cbn [workqueue pruned].
      apply filter_not_stale_full.
      pose proof (List.filter_length_le (not_stale stale_work) (workqueue knc)).
      lia.
    + apply Z.leb_gt in Hfull.
      assert (Hroom : (Z.of_nat (length (List.filter (not_stale stale_work)
                (workqueue knc))) <? workqueue_max knc) = true)
        by (apply Z.ltb_lt; lia).
      rewrite Hroom.
      cbn [device_data set_queue_full set_knc mbind option_bind].
      destruct (queue_append_tail stale_work
                  (set_queue_full (set_knc thr (pruned stale_work knc)) false)
                  (pruned stale_work knc) w
                  (free_work <$> List.filter (is_stale stale_work)
                     (workqueue knc)))
        as (thr' & ev' & knc' & Heq & Hd & Hq & Hm & _ & _ & _ & Hwf');
        [done|done|cbn [workqueue pruned] in Hsp; cbn [workqueue_max pruned];
                   lia|].
      exists thr', ev', knc'. split; [exact Heq|]. by split_and!.
  - apply Z.leb_gt in Hcap.
    assert (Hroom : (Z.of_nat (length (workqueue knc)) <? workqueue_max knc)
                    = true) by (apply Z.ltb_lt; lia).
    rewrite Hroom. cbn [mbind option_bind].
    destruct (queue_append_tail stale_work thr knc w [])
      as (thr' & ev' & knc' & Heq & Hd & Hq & Hm & _ & _ & _ & Hwf');
      [done|done|lia|].
    exists thr', ev', knc'. rewrite Hk. cbn [mbind option_bind].
    split; [exact Heq|]. by split_and!.
Qed.

(** ** The loops of a poll cycle *)

Lemma knc_accept_loop_spec (todo : list work) :
  forall (knc : knc_device) (k : Z),
    workqueue knc = todo ->
    1 <= k < 2 ^ 16 ->
    let moved := (Z.to_nat k `min` length todo)%nat in
    knc_accept_loop todo knc k =
    {| need_flush := need_flush knc;
       workqueue := drop (Z.to_nat k) todo;
       workqueue_size := dec_size moved (workqueue_size knc);
       workqueue_max := workqueue_max knc;
       next_id := next_id_after moved (next_id knc);
       devicework :=
         devicework knc ++ assign_ids (next_id knc) (take (Z.to_nat k) todo) |}.
Proof.
  induction todo as [|w todo IH]; intros knc k Hq Hk moved; subst moved.
  - rewrite Nat.min_0_r, drop_nil, take_nil. simpl. rewrite app_nil_r.
    destruct knc; simpl in *; congruence.
  - cbn [knc_accept_loop].
    assert (Hu : u16 (k - 1) = k - 1) by (unfold u16; rewrite Z.mod_small; lia).
    rewrite Hu, Hq. cbn [delete list_delete].
    replace (Z.to_nat k) with (S (Z.to_nat (k - 1))) by lia.
    cbn [drop take length assign_ids]. rewrite <- Nat.succ_min_distr.
    destruct (k - 1 =? 0) eqn:Hz.
    + apply Z.eqb_eq in Hz. rewrite Hz. simpl.
      rewrite drop_0. reflexivity.
    + apply Z.eqb_neq in Hz. rewrite IH; [|done|lia].
      cbn [need_flush workqueue_size workqueue_max next_id devicework].
      rewrite dec_size_S. cbn [next_id_after].
      unfold HASH_ADD_INT. rewrite <- app_assoc. reflexivity.
Qed.

Lemma assign_ids_imap (l : list work) :
  forall next : Z,
    assign_ids next l =
    imap (fun i w => set_device_id w ((next + Z.of_nat i) mod 2 ^ 15)) l.
Proof.
  induction l as [|w l IH]; intros next; [done|].
  cbn [assign_ids]. rewrite imap_cons, IH, land_7fff. f_equal.
  - f_equal. f_equal. lia.
  - apply imap_ext. intros i x _. simpl. f_equal.
    rewrite <- Z.add_mod_idemp_l by lia. rewrite int_mod_15.
    rewrite Z.add_mod_idemp_l by lia. f_equal. lia.
Qed.

Lemma knc_submit_loop_spec (todo : list work) :
  forall (spi : list Z) (works_sent workid : Z),
    (knc_submit_loop todo spi works_sent workid).1.1
    = spi ++ submit_frames workid todo.
Proof.
  induction todo as [|w todo IH]; intros spi ws wid; simpl.
  - by rewrite app_nil_r.
  - rewrite IH. unfold spi_emit_buf. by rewrite <- app_assoc.
Qed.

Lemma hash_drain_spec (todo rest : list work) :
  hash_drain todo (todo ++ rest) = (rest, free_work <$> todo).
Proof.
  induction todo as [|w todo IH]; [done|].
  simpl. unfold HASH_DEL. simpl. by rewrite IH.
Qed.

(** ** Routing *)

Section RouteFacts.

Variable chain : list cgpu_info.

Lemma skip_to_device_bound (rest : list cgpu_info) :
  forall pos pos' : nat,
    skip_to_device rest pos = Some pos' -> (pos <= pos')%nat.
Proof.
  induction rest as [|p rest IH]; intros pos pos'; simpl; [done|].
  destruct (device_is_self p); [intros [= ->]; lia|].
  intros H. apply IH in H. lia.
Qed.

(** The search for the chip moves forward along the chain at every round,
    so as many rounds as the chain has processors are enough: allowing
    more changes nothing. *)
Lemma find_asic_fuel (asicno : Z) (fuel : nat) :
  forall pos fuel' : nat,
    (length chain <= pos + fuel)%nat ->
    (fuel <= fuel')%nat ->
    find_asic chain fuel' pos asicno = find_asic chain fuel pos asicno.
Proof.
  induction fuel as [|fuel IH]; intros pos fuel' Hlen Hle.
  - destruct fuel' as [|fuel']; [done|]. simpl.
    rewrite lookup_ge_None_2 by lia. done.
  - destruct fuel' as [|fuel']; [lia|]. simpl.
    destruct (chain !! pos) as [p|]; [|done]. cbn [mbind option_bind].
    destruct (knccore_asicno p =? asicno); [done|].
    destruct (skip_to_device _ _) as [pos'|] eqn:E; [|done].
    cbn [mbind option_bind]. apply skip_to_device_bound in E.
    apply IH; lia.
Qed.

(** [knc_route] allows the search that many rounds. *)
Lemma find_asic_enough (asicno : Z) (fuel : nat) :
  (length chain <= fuel)%nat ->
  find_asic chain fuel 0 asicno = find_asic chain (length chain) 0 asicno.
Proof. intros H. apply find_asic_fuel; lia. Qed.

End RouteFacts.

(** ** Reply records *)

Section RecordFacts.

Variable chain : list cgpu_info.
Variable opt_debug : bool.
Variable le32toh : Z -> Z.
Variable bkt_order : list work -> Z -> nat.

Local Abbreviation record' := (knc_poll_record chain opt_debug le32toh bkt_order).
Local Abbreviation records' := (knc_poll_records chain opt_debug le32toh bkt_order).
Local Abbreviation over' := (records_over chain opt_debug le32toh bkt_order).

Lemma hash_positions_elem (head : list work) (i : Z) :
  forall pos n : nat,
    n ∈ hash_positions head i pos
    <-> exists (m : nat) (w : work),
          n = (pos + m)%nat /\ head !! m = Some w /\ device_id w = i.
Proof.
  induction head as [|x tl IH]; intros pos n; cbn [hash_positions].
  - split; [intros H; by apply elem_of_nil in H|].
    by intros (m & w & _ & H & _).
  - destruct (device_id x =? i) eqn:E.
    + apply Z.eqb_eq in E. rewrite elem_of_cons, IH. split.
      * intros [->|(m & w & -> & Hm & Hw)].
        -- exists 0%nat, x. split; [lia|done].
        -- exists (S m), w. split; [lia|done].
      * intros (m & w & -> & Hm & Hw). destruct m as [|m].
        -- left. lia.
        -- right. exists m, w. split; [lia|done].
    + apply Z.eqb_neq in E. rewrite IH. split.
      * intros (m & w & -> & Hm & Hw). exists (S m), w. split; [lia|done].
      * intros (m & w & -> & Hm & Hw). destruct m as [|m].
        -- simpl in Hm. injection Hm as ->. done.
        -- exists m, w. split; [lia|done].
Qed.

(** With two elements under one key, the order of the bucket chain
    decides which of them a lookup finds. *)
Lemma HASH_FIND_INT_order (a b : work) :
  device_id a = device_id b ->
  HASH_FIND_INT ex_newest_first [a; b] (device_id a) = Some (1%nat, b)
  /\ HASH_FIND_INT ex_oldest_first [a; b] (device_id a) = Some (0%nat, a).
Proof.
  intros E. unfold HASH_FIND_INT, ex_newest_first, ex_oldest_first.
  cbn [hash_positions]. rewrite <- E, Z.eqb_refl. split; reflexivity.
Qed.

(** Whatever the order of the bucket chains, what a lookup finds is an
    element of the table with the key sought. *)
Lemma HASH_FIND_INT_Some (dw : list work) (i : Z) (n : nat) (w : work) :
  HASH_FIND_INT bkt_order dw i = Some (n, w) ->
  dw !! n = Some w /\ device_id w = i.
Proof.
  unfold HASH_FIND_INT.
  destruct (hash_positions dw i 0 !! _) as [m|] eqn:Em; [|done].
  cbn [mbind option_bind].
  destruct (dw !! m) as [x|] eqn:Ex; [|done].
  cbn [mbind option_bind]. intros [= <- <-]. split; [done|].
  apply list_elem_of_lookup_2, hash_positions_elem in Em
    as (k & y & -> & Hk & Hy).
  simpl in Ex. rewrite Hk in Ex. by injection Ex as <-.
Qed.

(** Whatever the order of the bucket chains, a lookup finds nothing
    exactly when no element of the table has the key. *)
Lemma HASH_FIND_INT_None (dw : list work) (i : Z) :
  HASH_FIND_INT bkt_order dw i = None
  <-> forall w, w ∈ dw -> device_id w <> i.
Proof.
  split.
  - intros Hnone w Hw Hid.
    apply list_elem_of_lookup_1 in Hw as [m Hm].
    assert (Hin : m ∈ hash_positions dw i 0)
      by (apply hash_positions_elem; by exists m, w).
    assert (Hlen : (0 < length (hash_positions dw i 0))%nat)
      by (destruct (hash_positions dw i 0);
          [by apply elem_of_nil in Hin|simpl; lia]).
    unfold HASH_FIND_INT in Hnone.
    destruct (lookup_lt_is_Some_2 (hash_positions dw i 0)
                (bkt_order dw i `mod` length (hash_positions dw i 0))%nat)
      as [n Hn]; [apply Nat.mod_upper_bound; lia|].
    rewrite Hn in Hnone. cbn [mbind option_bind] in Hnone.
    apply list_elem_of_lookup_2, hash_positions_elem in Hn
      as (k & y & -> & Hk & _).
    simpl in Hnone. by rewrite Hk in Hnone.
  - intros Hno. destruct (HASH_FIND_INT bkt_order dw i) as [[n w]|] eqn:E;
      [|done].
    apply HASH_FIND_INT_Some in E as [E1 E2].
    exfalso. apply (Hno w); [|done]. by eapply list_elem_of_lookup_2.
Qed.

(** A reply record takes at most one element out of the table. *)
Lemma knc_poll_record_sublist (rx : list Z) (off : nat) (dw dw' : list work)
    (ev : list event) :
  record' rx off dw = Some (dw', ev) -> dw' `sublist_of` dw.
Proof.
  unfold knc_poll_record.
  destruct (negb _ && negb _); [by intros [= <- <-]|].
  destruct (knc_route _ _ _) as [proc|]; [|done]. cbn [mbind option_bind].
  destruct (HASH_FIND_INT _ _ _) as [[n w]|]; [|by intros [= <- <-]].
  destruct (_ =? KNC_REPLY_NONCE_FOUND); [by intros [= <- <-]|].
  destruct (_ =? KNC_REPLY_WORK_DONE); intros [= <- <-]; [|done].
  unfold HASH_DEL. apply sublist_delete.
Qed.

Lemma records_over_sublist (rx : list Z) (offs : list nat) :
  forall (dw dw' : list work) (ev : list event),
    over' rx offs dw = Some (dw', ev) -> dw' `sublist_of` dw.
Proof.
  induction offs as [|off offs IH]; intros dw dw' ev; simpl.
  - by intros [= <- <-].
  - destruct (record' rx off dw) as [[dw1 ev1]|] eqn:E1; [|done].
    cbn [mbind option_bind].
    destruct (over' rx offs dw1) as [[dw2 ev2]|] eqn:E2; [|done].
    intros [= <- <-]. etrans; [by eapply IH|by eapply knc_poll_record_sublist].
Qed.

(** With enough rounds allowed, the loop of [knc_poll] handles the whole
    records of what is left of the buffer and then breaks. *)
Lemma knc_poll_records_unroll (rx : list Z) (n : nat) :
  forall (fuel : nat) (rxbuf : nat) (spi_req_sz r : Z) (dw : list work),
    spi_req_sz = 0xc * (Z.of_nat n + 1) + r ->
    0 <= r < 0xc ->
    spi_req_sz < 2 ^ 64 ->
    (n < fuel)%nat ->
    records' fuel rx rxbuf spi_req_sz dw
    = over' rx (record_offsets rxbuf n) dw.
Proof.
  induction n as [|n IH]; intros fuel rxbuf sz r dw Hsz Hr Hlt Hfuel;
    (destruct fuel as [|fuel]; [lia|]); cbn [knc_poll_records].
  - assert (E : size_t (sz - 0xc) = r)
      by (unfold size_t; rewrite Z.mod_small; lia).
    rewrite E. assert ((r <? 0xc) = true) as -> by (apply Z.ltb_lt; lia).
    reflexivity.
  - assert (E : size_t (sz - 0xc) = 0xc * (Z.of_nat n + 1) + r)
      by (unfold size_t; rewrite Z.mod_small; lia).
    rewrite E.
    assert ((0xc * (Z.of_nat n + 1) + r <? 0xc) = false) as ->
      by (apply Z.ltb_ge; lia).
    unfold record_offsets. cbn [seq fmap list_fmap records_over].
    replace (rxbuf + 0xc * 1)%nat with (rxbuf + 0xc)%nat by lia.
    destruct (record' rx (rxbuf + 0xc) dw) as [[dw1 ev1]|]; [|done].
    cbn [mbind option_bind].
    rewrite (IH fuel (rxbuf + 0xc)%nat _ r dw1) by lia.
    assert (record_offsets (rxbuf + 0xc) n
            = (fun j => (rxbuf + 0xc * j)%nat) <$> seq 2 n) as ->;
      [|reflexivity].
    unfold record_offsets.
    rewrite <- (fmap_S_seq 1), <- list_fmap_compose.
    apply list_fmap_ext. intros i x _. simpl. lia.
Qed.

Lemma knc_poll_record_is_Some (rx : list Z) (rxbuf : nat) (dw : list work) :
  routable chain rx rxbuf -> is_Some (record' rx rxbuf dw).
Proof.
  unfold routable, knc_poll_record. intros Hr.
  destruct (_ =? KNC_REPLY_NONCE_FOUND) eqn:E1;
    [apply Z.eqb_eq in E1|
     destruct (_ =? KNC_REPLY_WORK_DONE) eqn:E2;
     [apply Z.eqb_eq in E2|by eexists]];
    cbn [negb andb];
    (destruct Hr as [proc ->]; [by auto|]); cbn [mbind option_bind];
    destruct (HASH_FIND_INT _ _ _) as [[n w]|]; by eexists.
Qed.

Lemma records_over_is_Some (rx : list Z) (offs : list nat) :
  forall dw : list work,
    (forall off, off ∈ offs -> routable chain rx off) ->
    is_Some (over' rx offs dw).
Proof.
  induction offs as [|off offs IH]; intros dw Hr; simpl; [by eexists|].
  destruct (knc_poll_record_is_Some rx off dw) as [[dw1 ev1] ->];
    [apply Hr; left|].
  cbn [mbind option_bind].
  destruct (IH dw1) as [[dw2 ev2] ->];
    [intros o Ho; apply Hr; by right|].
  by eexists.
Qed.

(** The loop of [knc_poll] as it is entered. *)
Lemma knc_poll_records_all (rx : list Z) (dw : list work) :
  records' 342%nat rx 0%nat 0x1000 dw = over' rx (record_offsets 0 340) dw.
Proof. apply (knc_poll_records_unroll rx 340 342 0 0x1000 4); lia. Qed.

Lemma knc_poll_records_sublist (rx : list Z) (dw dw' : list work)
    (ev : list event) :
  records' 342%nat rx 0%nat 0x1000 dw = Some (dw', ev) -> dw' `sublist_of` dw.
Proof. rewrite knc_poll_records_all. apply records_over_sublist. Qed.

End RecordFacts.

(** ** The poll cycle as a whole *)

Section PollFacts.

Variable stale_work : work -> bool -> bool.
Variable chain : list cgpu_info.
Variable opt_debug : bool.
Variable le32toh : Z -> Z.
Variable bkt_order : list work -> Z -> nat.
Variable nop : Z.
Variable txrx : list Z -> bool * list Z.
Variable buf : list Z.

Local Abbreviation knc_poll' :=
  (knc_poll stale_work chain opt_debug le32toh bkt_order nop txrx buf).
Local Abbreviation records' :=
  (knc_poll_records chain opt_debug le32toh bkt_order).
Local Abbreviation tx_of := (poll_tx stale_work nop buf).
Local Abbreviation rx_of := (poll_rx stale_work nop txrx buf).
Local Abbreviation workaccept_of := (poll_workaccept stale_work nop txrx buf).

(** [knc_poll] fails exactly when the routing of a reply record does, and
    otherwise leaves [poll_device], the flag [queue_full] set from it, and
    the timer at [poll_delay]. *)
Lemma knc_poll_eq (thr : thr_info) (knc : knc_device) :
  device_data thr = Some knc ->
  knc_poll' thr =
  '(base, ev_rec) ← records' 342%nat (rx_of knc) 0%nat 0x1000 (devicework knc);
  let knc' := poll_device stale_work knc (workaccept_of knc) base in
  Some ({| device_data := Some knc';
           queue_full := workqueue_max knc' <=? workqueue_size knc';
           tv_poll := poll_delay knc (workaccept_of knc) |},
        (free_work <$> List.filter (is_stale stale_work) (workqueue knc))
        ++ (if need_flush knc then [applog LOG_NOTICE msg_abandoning_stale]
            else [])
        ++ [spi_txrx (tx_of knc)]
        ++ (if Z.land (byte_at (rx_of knc) 3) 1 =? 0 then []
            else [applog LOG_DEBUG msg_rx_overflow])
        ++ [applog LOG_DEBUG
              (msg_jobs_accepted (workaccept_of knc)
                 (knc_poll_tx nop buf (pruned stale_work knc)).2
                 (workqueue_max knc))]
        ++ ev_rec
        ++ (if need_flush knc then free_work <$> base else [])).
Proof.
  intros Hk. unfold knc_poll.
  rewrite (knc_prune_local_queue_eq _ _ _ Hk). cbn [mbind option_bind].
  cbn [device_data set_queue_full set_knc mbind option_bind].
  unfold poll_workaccept, poll_rx, poll_tx.
  destruct (knc_poll_tx nop buf (pruned stale_work knc)) as [tx ws] eqn:Htx.
  cbn [fst snd]. destruct (txrx tx) as [ok rx] eqn:Hrx. cbn [fst snd].
  cbn [devicework pruned need_flush].
  destruct (records' _ rx _ _ (devicework knc)) as [[base ev_rec]|];
    [|reflexivity].
  cbn [mbind option_bind].
  pose proof (u16_range (Z.lor (Z.shiftl (byte_at rx 6) 8)
                           (byte_at rx (6 + 1)))) as Hrange.
  fold (get_u16be rx 6) in Hrange.
  set (k := get_u16be rx 6) in *.
  pose proof (hash_drain_spec base []) as Hdrain.
  rewrite app_nil_r in Hdrain.
  unfold poll_device, poll_delay, reaches_capacity.
  destruct knc as [nf q sz mx nid dw].
  cbn [need_flush set_devicework set_need_flush pruned devicework].
  destruct nf; [rewrite Hdrain|];
    cbn [need_flush set_devicework set_need_flush pruned devicework
         workqueue_max set_workqueue_max orb];
    (destruct (k =? 0) eqn:Hz; cbn [negb andb];
     [apply Z.eqb_eq in Hz; rewrite Hz; cbn [Z.to_nat drop take Nat.min];
      rewrite drop_0; cbn [assign_ids dec_size Nat.iter nat_rect next_id_after];
      rewrite ?app_nil_r; reflexivity
     |apply Z.eqb_neq in Hz;
      destruct (mx <=? k) eqn:Hmax;
      cbn [workqueue set_workqueue_max set_devicework set_need_flush pruned];
      (rewrite knc_accept_loop_spec; [|reflexivity|lia]);
      reflexivity]).
Qed.

(** A poll cycle on an initialised device runs to its end when every
    record of the receive buffer is routable. *)
Lemma knc_poll_returns (thr : thr_info) (knc : knc_device) :
  device_data thr = Some knc ->
  (forall off, off ∈ record_offsets 0 340 -> routable chain (rx_of knc) off) ->
  is_Some (knc_poll' thr).
Proof.
  intros Hk Hr. rewrite (knc_poll_eq _ _ Hk), knc_poll_records_all.
  destruct (records_over_is_Some chain opt_debug le32toh bkt_order _ _
              (devicework knc) Hr) as [[base ev_rec] ->].
  by eexists.
Qed.

End PollFacts.

(** ** Flushing *)

Lemma filter_all (l : list work) : List.filter (fun _ => true) l = l.
Proof. induction l; simpl; congruence. Qed.

Lemma filter_none (l : list work) :
  List.filter (fun w => negb ((fun _ => true) w)) l = [].
Proof. induction l as [|x l IH]; [done|]. exact IH. Qed.

(** On a device, [knc_queue_flush] empties the pending queue and then
    reads the last element added to the table. *)
Lemma knc_queue_flush_eq (stale_work : work -> bool -> bool)
    (thr : thr_info) (knc : knc_device) :
  device_data thr = Some knc ->
  knc_queue_flush stale_work thr =
  w ← HASH_LAST_ADDED (devicework knc);
  let knc1 :=
    {| need_flush := need_flush knc;
       workqueue := [];
       workqueue_size :=
         dec_size (length (workqueue knc)) (workqueue_size knc);
       workqueue_max := workqueue_max knc;
       next_id := next_id knc;
       devicework := devicework knc |} in
  Some (if stale_work w true
        then {| device_data := Some (set_need_flush knc1 true);
                queue_full := false; tv_poll := 0 |}
        else {| device_data := Some knc1;
                queue_full := false; tv_poll := tv_poll thr |},
        free_work <$> workqueue knc).
Proof.
  intros Hk. unfold knc_queue_flush. rewrite Hk.
  rewrite (remove_local_queue_if_spec (fun _ => true)) by done.
  rewrite filter_all, filter_none. cbn [take app devicework].
  destruct (HASH_LAST_ADDED (devicework knc)) as [w|]; [|reflexivity].
  cbn [mbind option_bind]. destruct (stale_work w true); reflexivity.
Qed.

(** ** The invariant *)

Section Invariant.

Variable chain : list cgpu_info.
Variable opt_debug : bool.
Variable le32toh : Z -> Z.
Variable nop : Z.

Lemma poll_device_wf (stale_work : work -> bool -> bool)
    (knc : knc_device) (k : Z) (base : list work) :
  knc_wf knc -> 0 <= k < 2 ^ 16 -> knc_wf (poll_device stale_work knc k base).
Proof.
  intros Hwf Hk.
  pose proof (pruned_wf stale_work knc Hwf) as (Hsz & Hle & Hmax).
  cbn [workqueue_max pruned] in Hle, Hmax.
  unfold knc_wf, poll_device.
  cbn [workqueue workqueue_size workqueue_max].
  rewrite length_drop.
  rewrite dec_size_small by lia.
  unfold reaches_capacity.
  destruct (k =? 0) eqn:Hz; cbn [negb andb];
    [|destruct (workqueue_max knc <=? k) eqn:Hm;
      [apply Z.leb_le in Hm|]]; lia.
Qed.

Lemma knc_step_wf (op : knc_op) (thr thr' : thr_info) (knc : knc_device)
    (ev : list event) :
  device_data thr = Some knc ->
  knc_wf knc ->
  knc_step chain opt_debug le32toh nop op thr = Some (thr', ev) ->
  exists knc',
    device_data thr' = Some knc' /\ knc_wf knc'
    /\ workqueue_max knc <= workqueue_max knc'.
Proof.
  intros Hk Hwf. destruct op as [stale w|stale|stale txrx buf order]; simpl.
  - destruct (knc_queue_append_room stale thr knc w Hk Hwf)
      as (thr1 & ev1 & knc1 & -> & Hd & _ & Hm & Hwf1).
    cbn [mbind option_bind]. intros [= <- <-]. exists knc1.
    split_and!; [done|done|lia].
  - rewrite (knc_queue_flush_eq _ _ _ Hk).
    destruct (HASH_LAST_ADDED _) as [w|]; [|done]. cbn [mbind option_bind].
    destruct Hwf as (Hsz & Hle & Hmax).
    assert (Hd : dec_size (length (workqueue knc)) (workqueue_size knc) = 0)
      by (rewrite dec_size_small; lia).
    destruct (stale w true); intros [= <- <-]; eexists;
      (split; [reflexivity|]); unfold knc_wf; simpl; rewrite Hd; lia.
  - rewrite (knc_poll_eq _ _ _ _ _ _ _ _ _ _ Hk).
    destruct (knc_poll_records _ _ _ _ _ _ _ _ _) as [[base ev_rec]|]; [|done].
    cbn [mbind option_bind]. intros [= <- <-].
    pose proof (u16_range (Z.lor
      (Z.shiftl (byte_at (poll_rx stale nop txrx buf knc) 6) 8)
      (byte_at (poll_rx stale nop txrx buf knc) (6 + 1)))) as Hrange.
    fold (get_u16be (poll_rx stale nop txrx buf knc) 6) in Hrange.
    fold (poll_workaccept stale nop txrx buf knc) in Hrange.
    eexists. split; [reflexivity|]. split; [by apply poll_device_wf|].
    unfold poll_device, reaches_capacity. cbn [workqueue_max].
    destruct (negb _); cbn [andb]; [|lia].
    destruct (workqueue_max knc <=? _) eqn:Hm; [apply Z.leb_le in Hm|]; lia.
Qed.

Lemma knc_run_wf (ops : list knc_op) :
  forall (thr thr' : thr_info) (knc : knc_device) (ev : list event),
    device_data thr = Some knc ->
    knc_wf knc ->
    knc_run chain opt_debug le32toh nop ops thr = Some (thr', ev) ->
    exists knc',
      device_data thr' = Some knc' /\ knc_wf knc'
      /\ workqueue_max knc <= workqueue_max knc'.
Proof.
  induction ops as [|op ops IH]; intros thr thr' knc ev Hk Hwf; simpl.
  - intros [= <- <-]. exists knc. split_and!; [done|done|lia].
  - destruct (knc_step _ _ _ _ op thr) as [[thr1 ev1]|] eqn:E1; [|done].
    cbn [mbind option_bind].
    destruct (knc_run _ _ _ _ ops thr1) as [[thr2 ev2]|] eqn:E2; [|done].
    intros [= <- <-].
    destruct (knc_step_wf _ _ _ _ _ Hk Hwf E1) as (knc1 & Hk1 & Hwf1 & Hm1).
    destruct (IH _ _ _ _ Hk1 Hwf1 E2) as (knc2 & Hk2 & Hwf2 & Hm2).
    exists knc2. split_and!; [done|done|lia].
Qed.

Lemma knc_init_wf (r : spi_open_result) (thr : thr_info) :
  exists knc,
    device_data (knc_init nop r thr).1.2 = Some knc
    /\ knc_wf knc /\ workqueue_max knc = 1.
Proof.
  eexists. unfold knc_init.
  destruct (knc_spi_open r) as [[] ev]; cbn; (split; [reflexivity|]);
    unfold knc_wf; simpl; lia.
Qed.

End Invariant.

(** * The statements of the design document *)

(** ** The delay of the next poll (C1) *)

Section Delay.

Variable stale_work : work -> bool -> bool.
Variable chain : list cgpu_info.
Variable opt_debug : bool.
Variable le32toh : Z -> Z.
Variable bkt_order : list work -> Z -> nat.
Variable nop : Z.
Variable txrx : list Z -> bool * list Z.
Variable buf : list Z.

(** C1, as amended. A poll cycle leaves the timer at no delay or at the
    steady-state interval, and at no delay exactly when a flush was pending
    or the accepted count is non-zero and not below the capacity. When the
    accepted count equals the capacity, the capacity stays as it is and
    the next poll is immediate all the same: growth is not needed. *)
Theorem knc_poll_delay (thr thr' : thr_info) (knc : knc_device)
    (ev : list event) :
  device_data thr = Some knc ->
  1 <= workqueue_max knc ->
  knc_poll stale_work chain opt_debug le32toh bkt_order nop txrx buf thr
  = Some (thr', ev) ->
  let workaccept := poll_workaccept stale_work nop txrx buf knc in
  (tv_poll thr' = 0 \/ tv_poll thr' = KNC_POLL_INTERVAL_US)
  /\ (tv_poll thr' = 0 <->
      need_flush knc = true
      \/ (workaccept <> 0 /\ workqueue_max knc <= workaccept))
  /\ (workaccept = workqueue_max knc ->
      exists knc',
        device_data thr' = Some knc'
        /\ workqueue_max knc' = workqueue_max knc
        /\ tv_poll thr' = 0).
Proof.
  intros Hk Hmax. rewrite (knc_poll_eq _ _ _ _ _ _ _ _ _ _ Hk).
  destruct (knc_poll_records _ _ _ _ _ _ _ _ _) as [[base ev_rec]|]; [|done].
  cbn [mbind option_bind]. intros [= <- <-]. cbn [tv_poll device_data].
  unfold poll_device, poll_delay, reaches_capacity, KNC_POLL_INTERVAL_US.
  cbn [workqueue_max].
  set (k := poll_workaccept stale_work nop txrx buf knc).
  assert (Hex : forall (d m : Z) (x : knc_device),
             m = workqueue_max knc -> d = 0 -> workqueue_max x = m ->
             exists knc', Some x = Some knc'
                          /\ workqueue_max knc' = workqueue_max knc /\ d = 0).
  { intros d m x -> -> Hx. by exists x. }
  destruct (need_flush knc); cbn [orb];
    (destruct (k =? 0) eqn:Hz;
     [apply Z.eqb_eq in Hz|apply Z.eqb_neq in Hz]); cbn [negb andb];
    (destruct (workqueue_max knc <=? k) eqn:Hm;
     [apply Z.leb_le in Hm|apply Z.leb_gt in Hm]);
    split_and!;
    try (left; reflexivity); try (right; reflexivity);
    try (split; [intros; (by left) || (right; lia)|reflexivity]);
    try (split; [discriminate|intros [?|[? ?]]; [discriminate|lia]]);
    try (intros E; lia);
    intros E; eapply Hex; cbn [workqueue_max]; lia || reflexivity.
Qed.

End Delay.

(** A device of capacity 1 with one work pending; the device accepts it.
    The capacity stays 1 and the next poll is immediate. *)
Lemma knc_poll_delay_witness :
  let knc := mk_knc false [ex_work 1] 1 1 0 [] in
  let device := ex_device true (ex_rx 1 []) in
  let thr' := mk_thr (Some (mk_knc false [] 0 1 1 [ex_work 1])) false 0 in
  poll_workaccept ex_never_stale 0 device ex_buf knc = workqueue_max knc
  /\ exists knc',
       device_data thr' = Some knc'
       /\ workqueue_max knc' = workqueue_max knc
       /\ tv_poll thr' = 0.
Proof.
  split; [reflexivity|].
  refine (proj2 (proj2
    (knc_poll_delay ex_never_stale ex_chain false id ex_newest_first 0
       (ex_device true (ex_rx 1 [])) ex_buf
       (mk_thr (Some (mk_knc false [ex_work 1] 1 1 0 [])) true 0)
       (mk_thr (Some (mk_knc false [] 0 1 1 [ex_work 1])) false 0)
       (mk_knc false [ex_work 1] 1 1 0 [])
       (default []
          (snd <$> knc_poll ex_never_stale ex_chain false id ex_newest_first 0
                     (ex_device true (ex_rx 1 [])) ex_buf
                     (mk_thr (Some (mk_knc false [ex_work 1] 1 1 0 []))
                        true 0)))
       _ _ _)) _).
  - reflexivity.
  - simpl. lia.
  - vm_compute. reflexivity.
  - reflexivity.
Defined.

(** C1 as stated fails: with capacity 1 and one work accepted, no flush
    pending, the capacity is unchanged and yet the timer is not left at
    the steady-state interval. *)
Lemma knc_poll_delay_counterexample :
  let knc := mk_knc false [ex_work 1] 1 1 0 [] in
  let device := ex_device true (ex_rx 1 []) in
  exists thr' ev knc',
    knc_poll ex_never_stale ex_chain false id ex_newest_first 0 device ex_buf
      (mk_thr (Some knc) true 0) = Some (thr', ev)
    /\ need_flush knc = false
    /\ poll_workaccept ex_never_stale 0 device ex_buf knc = workqueue_max knc
    /\ device_data thr' = Some knc'
    /\ workqueue_max knc' = workqueue_max knc
    /\ tv_poll thr' <> KNC_POLL_INTERVAL_US.
Proof.
  eexists _, _, _. split; [vm_compute; reflexivity|].
  split_and!; try reflexivity. vm_compute. discriminate.
Qed.

(** ** The result of the bus exchange (C2) *)

(** C2, as amended. [knc_poll] does not look at the result of the
    exchange: whatever the receive buffer holds afterwards is decoded,
    routed and acted on exactly as after a successful exchange that left
    the same bytes. *)
Theorem knc_poll_ignores_txrx_result (stale_work : work -> bool -> bool)
    (chain : list cgpu_info) (opt_debug : bool) (le32toh : Z -> Z)
    (bkt_order : list work -> Z -> nat) (nop : Z)
    (txrx : list Z -> bool * list Z) (buf : list Z) (thr : thr_info) :
  knc_poll stale_work chain opt_debug le32toh bkt_order nop txrx buf thr
  = knc_poll stale_work chain opt_debug le32toh bkt_order nop
      (fun tx => (true, (txrx tx).2)) buf thr.
Proof.
  unfold knc_poll.
  destruct (knc_prune_local_queue stale_work thr) as [[thr1 ev1]|];
    [|reflexivity].
  cbn [mbind option_bind].
  destruct (device_data thr1) as [knc|]; [|reflexivity].
  cbn [mbind option_bind].
  destruct (knc_poll_tx nop buf knc) as [tx ws].
  destruct (txrx tx) as [ok rx]. reflexivity.
Qed.

(** C2 as stated fails: the exchange fails while the receive buffer holds
    an accepted count of 1 and a work-done record for identifier 0. The
    record is handled, the pending work moves to the table, [next_id]
    advances, and the next poll is immediate. *)
Lemma knc_poll_failed_exchange_counterexample :
  let knc := mk_knc false [ex_work 2] 1 1 1 [set_device_id (ex_work 1) 0] in
  let rx := ex_rx 1 [0x80; 0; 0; 0; 0; 0; 0; 0; 0; 0; 0; 0] in
  exists thr' ev,
    knc_poll ex_never_stale ex_chain false id ex_newest_first 0
      (ex_device false rx) ex_buf
      (mk_thr (Some knc) true 0) = Some (thr', ev)
    /\ device_data thr'
       = Some (mk_knc false [] 0 1 2 [set_device_id (ex_work 2) 1])
    /\ tv_poll thr' = 0
    /\ hashes_done2 0 0x100000000 ∈ ev.
Proof.
  eexists _, _. split; [vm_compute; reflexivity|].
  split_and!; try reflexivity.
  repeat first [apply list_elem_of_here | apply list_elem_of_further].
Qed.

(** ** The capacity (C7) *)

Lemma knc_queue_append_max (stale_work : work -> bool -> bool)
    (thr thr' : thr_info) (knc : knc_device) (w : work) (b : bool)
    (ev : list event) :
  device_data thr = Some knc ->
  knc_queue_append stale_work thr w = Some (b, thr', ev) ->
  exists knc',
    device_data thr' = Some knc' /\ workqueue_max knc' = workqueue_max knc.
Proof.
  intros Hk. unfold knc_queue_append. rewrite Hk. cbn [mbind option_bind].
  assert (Htail : forall thr1 knc1 ev1,
    device_data thr1 = Some knc1 ->
    workqueue_max knc1 = workqueue_max knc ->
    (knc1 ← device_data thr1;
     let knc2 := queue_append_work knc1 w in
     let thr2 :=
       set_queue_full (set_knc thr1 knc2)
         (workqueue_max knc2 <=? workqueue_size knc2) in
     if queue_full thr2 then
       '(thr3, ev3) ← knc_prune_local_queue stale_work thr2;
       Some (true, thr3, ev1 ++ ev3)
     else Some (true, thr2, ev1)) = Some (b, thr', ev) ->
    exists knc',
      device_data thr' = Some knc' /\ workqueue_max knc' = workqueue_max knc).
  { intros thr1 knc1 ev1 Hk1 Hm1. rewrite Hk1. cbn [mbind option_bind].
    cbv zeta. cbn [queue_full set_queue_full].
    destruct (_ <=? _).
    - rewrite (knc_prune_local_queue_eq _ _ (queue_append_work knc1 w))
        by done.
      cbn [mbind option_bind]. intros [= <- <- <-]. by eexists.
    - intros [= <- <- <-]. by eexists. }
  destruct (workqueue_max knc <=? workqueue_size knc).
  - rewrite (knc_prune_local_queue_eq _ _ _ Hk). cbn [mbind option_bind].
    cbn [queue_full set_queue_full].
    destruct (workqueue_max knc <=? _).
    + intros [= <- <- <-]. by eexists.
    + apply (Htail _ (pruned stale_work knc)); done.
  - cbn [mbind option_bind]. apply (Htail _ knc); done.
Qed.

Section Capacity.

Variable chain : list cgpu_info.
Variable opt_debug : bool.
Variable le32toh : Z -> Z.
Variable nop : Z.

Lemma knc_step_max (op : knc_op) (thr thr' : thr_info) (knc : knc_device)
    (ev : list event) :
  device_data thr = Some knc ->
  knc_step chain opt_debug le32toh nop op thr = Some (thr', ev) ->
  exists knc',
    device_data thr' = Some knc' /\ workqueue_max knc <= workqueue_max knc'.
Proof.
  intros Hk. destruct op as [stale w|stale|stale txrx buf order]; simpl.
  - destruct (knc_queue_append stale thr w) as [[[b thr1] ev1]|] eqn:E;
      [|done].
    cbn [mbind option_bind]. intros [= <- <-].
    destruct (knc_queue_append_max _ _ _ _ _ _ _ Hk E) as (knc' & Hd & Hm).
    exists knc'. split; [done|lia].
  - rewrite (knc_queue_flush_eq _ _ _ Hk).
    destruct (HASH_LAST_ADDED _) as [w|]; [|done]. cbn [mbind option_bind].
    destruct (stale w true); intros [= <- <-]; eexists;
      (split; [reflexivity|]); simpl; lia.
  - rewrite (knc_poll_eq _ _ _ _ _ _ _ _ _ _ Hk).
    destruct (knc_poll_records _ _ _ _ _ _ _ _ _) as [[base ev_rec]|]; [|done].
    cbn [mbind option_bind]. intros [= <- <-].
    eexists. split; [reflexivity|].
    unfold poll_device, reaches_capacity. cbn [workqueue_max].
    destruct (negb _); cbn [andb]; [|lia].
    destruct (workqueue_max knc <=? _) eqn:Hm; [apply Z.leb_le in Hm|]; lia.
Qed.

(** C7. [knc_init] leaves the capacity at 1, and over any sequence of
    enqueue, flush and poll operations that runs to its end the capacity
    at the end is not below the capacity at the start. *)
Theorem workqueue_max_monotone :
  (forall (r : spi_open_result) (thr : thr_info),
     exists knc,
       device_data (knc_init nop r thr).1.2 = Some knc
       /\ workqueue_max knc = 1)
  /\ (forall (ops : list knc_op) (thr thr' : thr_info) (knc : knc_device)
        (ev : list event),
        device_data thr = Some knc ->
        knc_run chain opt_debug le32toh nop ops thr = Some (thr', ev) ->
        exists knc',
          device_data thr' = Some knc'
          /\ workqueue_max knc <= workqueue_max knc').
Proof.
  split.
  - intros r thr. destruct (knc_init_wf nop r thr) as (knc & Hd & _ & Hm).
    by exists knc.
  - induction ops as [|op ops IH]; intros thr thr' knc ev Hk; simpl.
    + intros [= <- <-]. exists knc. split; [done|lia].
    + destruct (knc_step _ _ _ _ op thr) as [[thr1 ev1]|] eqn:E1; [|done].
      cbn [mbind option_bind].
      destruct (knc_run _ _ _ _ ops thr1) as [[thr2 ev2]|] eqn:E2; [|done].
      intros [= <- <-].
      destruct (knc_step_max _ _ _ _ _ Hk E1) as (knc1 & Hk1 & Hm1).
      destruct (IH _ _ _ _ Hk1 E2) as (knc2 & Hk2 & Hm2).
      exists knc2. split; [done|lia].
Qed.

End Capacity.

(** From [knc_init] through [ex_ops] the capacity goes from 1 to 3. *)
Lemma workqueue_max_monotone_witness :
  let thr' := mk_thr (Some (mk_knc false [] 0 3 1 [ex_work 1])) false 10000 in
  device_data ex_thr_init = Some ex_knc_init
  /\ exists knc',
       device_data thr' = Some knc'
       /\ workqueue_max ex_knc_init <= workqueue_max knc'.
Proof.
  split; [reflexivity|].
  refine (proj2 (workqueue_max_monotone ex_chain false id 0)
            ex_ops ex_thr_init
            (mk_thr (Some (mk_knc false [] 0 3 1 [ex_work 1])) false 10000)
            ex_knc_init
            (default [] (snd <$> knc_run ex_chain false id 0 ex_ops
                                   ex_thr_init))
            _ _).
  - reflexivity.
  - vm_compute. reflexivity.
Defined.

(** ** Flushing with nothing on the device (C10) *)

(** C10. On an initialised device [knc_queue_flush] always reads the last
    element added to the table. With an empty table that is a read
    through a null pointer; with an element there it returns, having
    emptied the pending queue and raised [need_flush] if that element is
    stale. So it returns exactly when the table is not empty. *)
Theorem knc_queue_flush_needs_devicework (stale_work : work -> bool -> bool)
    (thr : thr_info) (knc : knc_device) :
  device_data thr = Some knc ->
  (devicework knc = [] -> knc_queue_flush stale_work thr = None)
  /\ (forall (dw : list work) (w : work),
        devicework knc = dw ++ [w] ->
        exists thr' knc',
          knc_queue_flush stale_work thr
          = Some (thr', free_work <$> workqueue knc)
          /\ device_data thr' = Some knc'
          /\ workqueue knc' = []
          /\ need_flush knc' = stale_work w true || need_flush knc)
  /\ (is_Some (knc_queue_flush stale_work thr) <-> devicework knc <> []).
Proof.
  intros Hk. rewrite (knc_queue_flush_eq _ _ _ Hk). unfold HASH_LAST_ADDED.
  split_and!.
  - intros ->. reflexivity.
  - intros dw w ->. rewrite last_snoc. cbn [mbind option_bind].
    destruct (stale_work w true); eexists _, _;
      (split; [reflexivity|]); split_and!; reflexivity.
  - destruct (devicework knc) as [|x dw] using rev_ind.
    + split; [intros [? [=]]|done].
    + rewrite last_snoc. cbn [mbind option_bind]. split; [|by eexists].
      intros _ E. by apply app_nil in E as [_ [=]].
Qed.

(** Flushing right after [knc_init], before any work was accepted. *)
Lemma knc_queue_flush_needs_devicework_witness :
  device_data ex_thr_init = Some ex_knc_init
  /\ devicework ex_knc_init = []
  /\ knc_queue_flush ex_never_stale ex_thr_init = None.
Proof.
  split; [reflexivity|]. split; [reflexivity|].
  apply (proj1 (knc_queue_flush_needs_devicework ex_never_stale
                  ex_thr_init ex_knc_init eq_refl)).
  reflexivity.
Defined.

(** Flushing again after a poll that carried a flush and drained the
    table, nothing having been accepted since. *)
Lemma knc_queue_flush_after_drain :
  exists thr' ev knc',
    knc_poll ex_never_stale ex_chain false id ex_newest_first 0
      (ex_device true (ex_rx 0 []))
      ex_buf (mk_thr (Some ex_knc_flush) true 0) = Some (thr', ev)
    /\ device_data thr' = Some knc'
    /\ devicework knc' = []
    /\ knc_queue_flush ex_never_stale thr' = None.
Proof.
  eexists _, _, _. split; [vm_compute; reflexivity|].
  split_and!; reflexivity.
Qed.

(** ** Identifiers on the wire *)

Lemma land_shiftl_low (a x : Z) : Z.land (Z.shiftl a 8) (Z.land x (Z.ones 8)) = 0.
Proof.
  apply Z.bits_inj'. intros n Hn.
  rewrite !Z.land_spec, Z.bits_0.
  destruct (Z.ltb_spec n 8).
  - rewrite Z.shiftl_spec_low by lia. reflexivity.
  - rewrite Z.ones_spec_high by lia. by rewrite !andb_false_r.
Qed.

(** Bytes 2 and 3 of a submission frame, read as the device reads a
    16-bit big-endian field, are the identifier modulo 2^15. *)
Lemma knc_submit_frame_id (w : work) (workid : Z) :
  get_u16be (knc_submit_frame w workid) 2 = workid mod 2 ^ 15.
Proof.
  unfold get_u16be, byte_at, knc_submit_frame. cbn [app nth Nat.add].
  change 0x7f with (Z.ones 7). change 0xff with (Z.ones 8).
  pose proof (land_shiftl_low (Z.land (Z.shiftr workid 8) (Z.ones 7)) workid)
    as Hdisj.
  rewrite (Z.land_ones (Z.shiftr workid 8)) in * by lia.
  rewrite Z.shiftr_div_pow2 in * by lia.
  pose proof (Z.mod_pos_bound (workid / 2 ^ 8) (2 ^ 7) ltac:(lia)) as H7.
  rewrite (Z.mod_small (_ mod 2 ^ 7) 256) by lia.
  pose proof (Z.land_ones workid 8 ltac:(lia)) as E8.
  pose proof (Z.mod_pos_bound workid (2 ^ 8) ltac:(lia)) as H8.
  rewrite (Z.mod_small (Z.land workid (Z.ones 8)) 256) by (rewrite E8; lia).
  rewrite <- Z.add_nocarry_lor by exact Hdisj.
  rewrite E8, Z.shiftl_mul_pow2 by lia.
  change (2 ^ 15) with (2 ^ 8 * 2 ^ 7).
  rewrite Z.rem_mul_r by lia.
  unfold u16. rewrite Z.mod_small; lia.
Qed.

Lemma submit_frames_concat (l : list work) :
  forall workid : Z,
    submit_frames workid l
    = concat (imap (fun i w => knc_submit_frame w (next_id_after i workid)) l).
Proof.
  induction l as [|w l IH]; intros workid; [done|].
  cbn [submit_frames]. rewrite imap_cons. cbn [concat next_id_after].
  by rewrite IH.
Qed.

(** The bytes [knc_poll] sends: the flush frame if a flush is pending, the
    submission frames of the pending work, and the padding. *)
Lemma knc_poll_tx_eq (nop : Z) (buf : list Z) (knc : knc_device) :
  (knc_poll_tx nop buf knc).1 =
  let frames :=
    (if need_flush knc then <[0%nat := Z.shiftl KNC_REQ_FLUSH_QUEUE 4]> buf
     else [])
    ++ submit_frames (next_id knc) (workqueue knc) in
  frames
  ++ replicate (Z.to_nat (size_t (0x1000 - Z.of_nat (length frames)))) nop.
Proof.
  unfold knc_poll_tx.
  pose proof (knc_submit_loop_spec (workqueue knc)
    (if need_flush knc
     then spi_emit_buf spi_clear_buf
            (<[0%nat := Z.shiftl KNC_REQ_FLUSH_QUEUE 4]> buf)
     else spi_clear_buf) 0 (next_id knc)) as E.
  destruct (knc_submit_loop _ _ _ _) as [[spi ws] wid].
  cbn [fst snd] in *. subst spi.
  unfold spi_emit_nop, spi_getbufsz, spi_emit_buf, spi_clear_buf.
  destruct (need_flush knc); reflexivity.
Qed.

(** The frames of the pending work lie in the bytes sent in queue order,
    behind the flush frame if there is one. *)
Lemma poll_tx_frames (stale_work : work -> bool -> bool) (nop : Z)
    (buf : list Z) (knc : knc_device) :
  exists pad : list Z,
    poll_tx stale_work nop buf knc
    = (if need_flush knc then <[0%nat := Z.shiftl KNC_REQ_FLUSH_QUEUE 4]> buf
       else [])
      ++ concat (imap (fun i w =>
                         knc_submit_frame w (next_id_after i (next_id knc)))
                   (pending stale_work knc))
      ++ pad.
Proof.
  unfold poll_tx. rewrite knc_poll_tx_eq. cbv zeta.
  cbn [next_id workqueue pruned need_flush].
  rewrite submit_frames_concat, <- app_assoc. eexists. reflexivity.
Qed.

(** ** What a poll cycle moves to the device table (C3, C4, C6) *)

Section Acceptance.

Variable stale_work : work -> bool -> bool.
Variable chain : list cgpu_info.
Variable opt_debug : bool.
Variable le32toh : Z -> Z.
Variable bkt_order : list work -> Z -> nat.
Variable nop : Z.
Variable txrx : list Z -> bool * list Z.
Variable buf : list Z.

(** C6. Of the work pending in a poll cycle, the first [workaccept] in
    queue order (all of it if there is less) leave the queue and are
    added to the table, in that order, behind what was there and was not
    deleted. The one at position [i] is in the table with its midstate
    and data and with [(next_id + i) mod 2^15] stored in its [device_id],
    one more modulo 2^15 than the one before it, and that is the
    identifier in bytes 2 and 3 of the frame sent for it, the frames
    being sent in queue order. *)
Theorem knc_poll_fifo_prefix (thr thr' : thr_info) (knc : knc_device)
    (ev : list event) :
  device_data thr = Some knc ->
  knc_poll stale_work chain opt_debug le32toh bkt_order nop txrx buf thr
  = Some (thr', ev) ->
  let q := pending stale_work knc in
  let k := Z.to_nat (poll_workaccept stale_work nop txrx buf knc) in
  let next := next_id knc in
  exists (knc' : knc_device) (base : list work) (pre pad : list Z),
    device_data thr' = Some knc'
    /\ workqueue knc' = drop k q
    /\ devicework knc'
       = base ++ imap (fun i w =>
                         set_device_id w ((next + Z.of_nat i) mod 2 ^ 15))
                   (take k q)
    /\ base `sublist_of` devicework knc
    /\ (forall (i : nat) (w : work),
          take k q !! i = Some w ->
          exists w' : work,
            devicework knc' !! (length base + i)%nat = Some w'
            /\ device_id w' = (next + Z.of_nat i) mod 2 ^ 15
            /\ midstate w' = midstate w
            /\ data w' = data w)
    /\ device_id <$> drop (length base) (devicework knc')
       = (fun i : nat => (next + Z.of_nat i) mod 2 ^ 15)
         <$> seq 0 (k `min` length q)
    /\ spi_txrx
         (pre ++ concat (imap (fun i w =>
                                 knc_submit_frame w (next_id_after i next)) q)
          ++ pad) ∈ ev
    /\ forall (i : nat) (w : work),
         q !! i = Some w ->
         get_u16be (knc_submit_frame w (next_id_after i next)) 2
         = (next + Z.of_nat i) mod 2 ^ 15.
Proof.
  intros Hk. rewrite (knc_poll_eq _ _ _ _ _ _ _ _ _ _ Hk).
  destruct (knc_poll_records _ _ _ _ _ _ _ _ _) as [[base ev_rec]|] eqn:Hrec;
    [|done].
  cbn [mbind option_bind]. intros [= <- <-].
  apply knc_poll_records_sublist in Hrec.
  destruct (poll_tx_frames stale_work nop buf knc) as [pad Etx].
  eexists _, (if need_flush knc then [] else base), _, pad.
  split; [reflexivity|]. split; [reflexivity|].
  cbn [devicework poll_device]. rewrite assign_ids_imap.
  set (B := if need_flush knc then [] else base).
  split; [reflexivity|].
  split; [subst B; destruct (need_flush knc); [apply sublist_nil_l|done]|].
  split; [|split; [|split]].
  - intros i w Hi. eexists. split.
    + rewrite lookup_app_r by lia.
      replace (length B + i - length B)%nat with i by lia.
      rewrite list_lookup_imap.
      change (workqueue (pruned stale_work knc)) with (pending stale_work knc).
      rewrite Hi. reflexivity.
    + done.
  - rewrite drop_app_length. apply list_eq. intros i.
    rewrite !list_lookup_fmap, list_lookup_imap.
    change (workqueue (pruned stale_work knc)) with (pending stale_work knc).
    set (moved := take _ (pending stale_work knc)).
    assert (Hlen : length moved
                   = (Z.to_nat (poll_workaccept stale_work nop txrx buf knc)
                      `min` length (pending stale_work knc))%nat)
      by (subst moved; apply length_take).
    rewrite <- Hlen.
    destruct (moved !! i) as [w|] eqn:Hi.
    + apply lookup_lt_Some in Hi as Hlt.
      rewrite lookup_seq_lt by done. reflexivity.
    + apply lookup_ge_None in Hi.
      rewrite lookup_seq_ge by done. reflexivity.
  - rewrite !elem_of_app. right. right. rewrite Etx.
    apply list_elem_of_here.
  - intros i w _. rewrite knc_submit_frame_id. apply next_id_after_mod.
Qed.


End Acceptance.

(** C3, as amended. The loop that moves accepted work to the table looks
    for no element with the same identifier: it evicts nothing, every
    element of the table stays and the new ones follow it. So afterwards
    no two elements share an identifier exactly when none did before, the
    new identifiers differ from one another and none of them was in the
    table. *)
Theorem knc_accept_loop_no_eviction (bkt_order : list work -> Z -> nat)
    (knc : knc_device) (workaccept : Z) :
  1 <= workaccept < 2 ^ 16 ->
  let knc' := knc_accept_loop (workqueue knc) knc workaccept in
  let added :=
    assign_ids (next_id knc) (take (Z.to_nat workaccept) (workqueue knc)) in
  devicework knc' = devicework knc ++ added
  /\ (NoDup (device_id <$> devicework knc') <->
      NoDup (device_id <$> devicework knc)
      /\ NoDup (device_id <$> added)
      /\ forall w, w ∈ added ->
                   HASH_FIND_INT bkt_order (devicework knc) (device_id w)
                   = None).
Proof.
  intros Hk knc' added. subst knc'.
  pose proof (knc_accept_loop_spec _ knc workaccept eq_refl Hk) as Eloop.
  cbv zeta in Eloop. rewrite Eloop. cbn [devicework]. fold added.
  split; [reflexivity|].
  rewrite fmap_app, list.NoDup_app. split.
  - intros (H1 & H2 & H3). split_and!; [done|done|].
    intros w Hw. apply HASH_FIND_INT_None. intros v Hv E.
    apply (H2 (device_id v)); [by apply list_elem_of_fmap_2|].
    rewrite E. by apply list_elem_of_fmap_2.
  - intros (H1 & H2 & H3). split_and!; [done| |done].
    intros id Hold Hnew.
    apply list_elem_of_fmap in Hold as (v & -> & Hv).
    apply list_elem_of_fmap in Hnew as (w & E & Hw).
    specialize (H3 w Hw). rewrite HASH_FIND_INT_None in H3.
    by apply (H3 v Hv).
Qed.

(** Identifier 0 is on the device when the counter wraps around to it:
    the table ends with both works under identifier 0. *)
Lemma knc_accept_loop_no_eviction_witness :
  1 <= 1 < 2 ^ 16
  /\ devicework (knc_accept_loop (workqueue ex_knc_collide) ex_knc_collide 1)
     = devicework ex_knc_collide ++ [set_device_id (ex_work 2) 0].
Proof.
  split; [lia|].
  apply (proj1 (knc_accept_loop_no_eviction ex_newest_first ex_knc_collide 1
                  ltac:(lia))).
Defined.

(** C3 as stated fails: a poll cycle in which the device accepts the
    pending work when its identifier, 0x8000 & 0x7fff = 0, is that of a
    work still in the table. Both are in the table afterwards and nothing
    is logged as a warning. *)
Lemma knc_poll_collision_counterexample :
  exists thr' ev knc',
    knc_poll ex_never_stale ex_chain false id ex_newest_first 0
      (ex_device true (ex_rx 1 []))
      ex_buf (mk_thr (Some ex_knc_collide) true 0) = Some (thr', ev)
    /\ device_data thr' = Some knc'
    /\ devicework knc' = [ex_work 1; set_device_id (ex_work 2) 0]
    /\ ~ NoDup (device_id <$> devicework knc')
    /\ forall msg, applog LOG_WARNING msg ∉ ev.
Proof.
  eexists _, _, _. split; [vm_compute; reflexivity|].
  split; [reflexivity|]. split; [reflexivity|]. split.
  - cbn. intros H. apply list.NoDup_cons in H as [H _]. apply H.
    apply list_elem_of_here.
  - intros msg H. apply list_elem_of_In in H.
    destruct H as [H|[H|[]]]; discriminate H.
Qed.



(** Three works pending once the stale one is pruned, two accepted, the
    counter at 0x7fff: the first two move to the table under 0x7fff and
    0, the third stays. *)
Lemma knc_poll_fifo_prefix_witness :
  let thr' :=
    mk_thr (Some (mk_knc false [ex_work 3] 1 4 0x8001
                    [set_device_id (ex_work 9) 5;
                     set_device_id (ex_work 1) 0x7fff;
                     set_device_id (ex_work 2) 0])) false 10000 in
  pending ex_stale_7 ex_knc_wrap = [ex_work 1; ex_work 2; ex_work 3]
  /\ exists knc' base,
       device_data thr' = Some knc'
       /\ workqueue knc' = [ex_work 3]
       /\ devicework knc'
          = base ++ [set_device_id (ex_work 1) 0x7fff;
                     set_device_id (ex_work 2) 0]
       /\ device_id <$> drop (length base) (devicework knc') = [0x7fff; 0]
       /\ exists w' : work,
            devicework knc' !! (length base + 1)%nat = Some w'
            /\ device_id w' = 0
            /\ midstate w' = replicate 32 2
            /\ data w' = replicate 128 2.
Proof.
  split; [reflexivity|].
  assert (Hrun :
    knc_poll ex_stale_7 ex_chain false id ex_newest_first 0
      (ex_device true (ex_rx 2 [])) ex_buf (mk_thr (Some ex_knc_wrap) true 0)
    = Some (mk_thr (Some (mk_knc false [ex_work 3] 1 4 0x8001
                            [set_device_id (ex_work 9) 5;
                             set_device_id (ex_work 1) 0x7fff;
                             set_device_id (ex_work 2) 0])) false 10000,
            default []
              (snd <$> knc_poll ex_stale_7 ex_chain false id ex_newest_first 0
                         (ex_device true (ex_rx 2 [])) ex_buf
                         (mk_thr (Some ex_knc_wrap) true 0))))
    by (vm_compute; reflexivity).
  destruct (knc_poll_fifo_prefix _ _ _ _ _ _ _ _
              (mk_thr (Some ex_knc_wrap) true 0) _ ex_knc_wrap _
              eq_refl Hrun)
    as (knc' & base & pre & pad & Hd & Hq & Hdw & _ & Hat & Hids & _).
  exists knc', base. split; [exact Hd|]. split; [exact Hq|].
  split; [exact Hdw|]. split; [exact Hids|].
  exact (Hat 1%nat (ex_work 2) eq_refl).
Defined.

(** ** The flush command on the wire (C5) *)

(** With a flush pending, [knc_poll] sends the whole local array after
    storing the command in its first byte: 0x30 bytes, of which all but
    the first are whatever the array held. The first submission frame
    follows them. *)
Lemma knc_poll_flush_frame (stale_work : work -> bool -> bool) (nop : Z)
    (buf : list Z) (knc : knc_device) :
  need_flush knc = true ->
  length buf = 0x30%nat ->
  exists rest : list Z,
    poll_tx stale_work nop buf knc
    = [Z.shiftl KNC_REQ_FLUSH_QUEUE 4] ++ drop 1 buf
      ++ submit_frames (next_id knc) (pending stale_work knc) ++ rest.
Proof.
  intros Hnf Hlen. unfold poll_tx. rewrite knc_poll_tx_eq. cbv zeta.
  cbn [need_flush pruned next_id workqueue]. rewrite Hnf.
  destruct buf as [|b buf]; [done|]. cbn [insert list_insert drop].
  eexists. cbn [app]. rewrite <- !app_assoc. reflexivity.
Qed.

(** C5, on the code. [knc_clean_flush] sends the one command byte and
    then padding. [knc_poll], with a flush pending and its array holding
    0xaa, sends the command byte, 47 bytes of 0xaa and then the first
    submission frame: what lies between the command and the frame is not
    padding. *)
Lemma knc_poll_flush_frame_bytes :
  knc_clean_flush 0
  = [applog LOG_DEBUG msg_issuing_flush; spi_txrx (0x30 :: replicate 0xfff 0)]
  /\ take 0x31 (poll_tx ex_never_stale 0 ex_buf ex_knc_flush)
     = [0x30] ++ replicate 47 0xaa ++ [0x20]
  /\ poll_tx ex_never_stale 0 ex_buf ex_knc_flush !! 1%nat <> Some 0.
Proof. split_and!; [vm_compute; reflexivity..|vm_compute; discriminate]. Qed.

(** ** Reply records about work on the device (C9) *)

Section KnownWork.

Variable chain : list cgpu_info.
Variable opt_debug : bool.
Variable le32toh : Z -> Z.
Variable bkt_order : list work -> Z -> nat.

(** C9. A reply record whose identifier is found in the table and whose
    processor is found in the chain: a nonce-found record hands the work
    and the nonce to [submit_nonce] and leaves the table as it is; a
    work-done record takes the work out of the table, frees it and
    reports 2^32 hashes done. Apart from debug logging nothing else
    happens, and no record other than a work-done one changes the
    table. *)
Theorem knc_poll_record_known (rx : list Z) (rxbuf : nat) (dw : list work)
    (n : nat) (w : work) (proc : nat) :
  let rtype := Z.shiftr (byte_at rx rxbuf) 6 in
  let asicno := Z.shiftr (Z.land (byte_at rx rxbuf) 0x38) 3 in
  let record := knc_poll_record chain opt_debug le32toh bkt_order rx rxbuf dw in
  let log := recv_log opt_debug rx rxbuf in
  HASH_FIND_INT bkt_order dw (get_u16be rx (rxbuf + 2)) = Some (n, w) ->
  knc_route chain asicno (get_u32be rx (rxbuf + 8)) = Some proc ->
  (dw !! n = Some w /\ device_id w = get_u16be rx (rxbuf + 2))
  /\ (forall e, e ∈ log -> exists msg, e = applog LOG_DEBUG msg)
  /\ (rtype = KNC_REPLY_NONCE_FOUND ->
      record
      = Some (dw,
              log ++ [submit_nonce proc w
                        (le32toh (get_u32be rx (rxbuf + 4)))]))
  /\ (rtype = KNC_REPLY_WORK_DONE ->
      record
      = Some (delete n dw,
              log ++ [free_work w; hashes_done2 proc 0x100000000]))
  /\ (rtype <> KNC_REPLY_WORK_DONE ->
      forall dw' ev, record = Some (dw', ev) -> dw' = dw).
Proof.
  intros rtype asicno record log Hfind Hroute. subst record.
  split; [by apply (HASH_FIND_INT_Some bkt_order)|].
  split.
  { intros e He. subst log. unfold recv_log in He. destruct (negb _ && _).
    - apply list_elem_of_singleton in He. by eexists.
    - by apply elem_of_nil in He. }
  unfold knc_poll_record. fold rtype. fold asicno.
  rewrite Hroute, Hfind. cbn [mbind option_bind].
  subst log. unfold recv_log. fold rtype.
  split_and!.
  - intros ->. reflexivity.
  - intros ->. reflexivity.
  - intros Hnd dw' ev.
    destruct (negb (rtype =? KNC_REPLY_NONCE_FOUND)
              && negb (rtype =? KNC_REPLY_WORK_DONE));
      [by intros [= <- <-]|].
    destruct (rtype =? KNC_REPLY_NONCE_FOUND); [by intros [= <- <-]|].
    destruct (rtype =? KNC_REPLY_WORK_DONE) eqn:E; [|by intros [= <- <-]].
    apply Z.eqb_eq in E. done.
Qed.

End KnownWork.

(** A nonce for the work under identifier 0, from core 1 of chip 0, and
    then the end of that work. *)
Lemma knc_poll_record_known_witness :
  let dw := [ex_work 1] in
  let nonce_found := [0x40; 0; 0; 0; 1; 2; 3; 4; 0; 0; 0; 1] in
  let work_done := [0x80; 0; 0; 0; 0; 0; 0; 0; 0; 0; 0; 1] in
  knc_poll_record ex_chain false id ex_newest_first (ex_rx 0 nonce_found) 12 dw
  = Some (dw, [submit_nonce 1 (ex_work 1) 0x01020304])
  /\ knc_poll_record ex_chain false id ex_newest_first (ex_rx 0 work_done) 12 dw
     = Some ([], [free_work (ex_work 1); hashes_done2 1 0x100000000]).
Proof.
  split.
  - apply (proj1 (proj2 (proj2
      (knc_poll_record_known ex_chain false id ex_newest_first
         (ex_rx 0 [0x40; 0; 0; 0; 1; 2; 3; 4; 0; 0; 0; 1]) 12
         [ex_work 1] 0 (ex_work 1) 1 eq_refl eq_refl)))).
    reflexivity.
  - apply (proj1 (proj2 (proj2 (proj2
      (knc_poll_record_known ex_chain false id ex_newest_first
         (ex_rx 0 [0x80; 0; 0; 0; 0; 0; 0; 0; 0; 0; 0; 1]) 12
         [ex_work 1] 0 (ex_work 1) 1 eq_refl eq_refl))))).
    reflexivity.
Defined.

(** ** Enqueueing at the capacity *)

(** C8, as amended. On a well-formed device [knc_queue_append] returns a
    plain boolean and never fails. Below capacity it has room at once; at
    capacity it prunes the stale work first and has room if that freed
    space. With room it returns true, having put the work at the tail and
    then, when that filled the queue, pruned the stale work once more, the
    new work included. Without room it returns false and the queue is as
    it was. The capacity is never touched. *)
Theorem knc_queue_append_spec (stale_work : work -> bool -> bool)
    (thr : thr_info) (knc : knc_device) (w : work) :
  device_data thr = Some knc ->
  knc_wf knc ->
  let q := workqueue knc in
  let q0 :=
    if workqueue_max knc <=? workqueue_size knc
    then List.filter (not_stale stale_work) q else q in
  let room := Z.of_nat (length q0) <? workqueue_max knc in
  exists thr' ev knc',
    knc_queue_append stale_work thr w = Some (room, thr', ev)
    /\ device_data thr' = Some knc'
    /\ workqueue knc' =
       (if room then enqueue_finish stale_work (workqueue_max knc) q0 w
        else q)
    /\ workqueue_max knc' = workqueue_max knc
    /\ knc_wf knc'.
Proof. exact (knc_queue_append_room stale_work thr knc w). Qed.

(** A queue at its capacity of 2 with its first work stale: pruning makes
    room, the new work is put at the tail and the queue is full again. *)
Lemma knc_queue_append_spec_witness :
  let knc := mk_knc false [ex_work 7; ex_work 2] 2 2 0 [] in
  knc_wf knc
  /\ exists thr' ev knc',
       knc_queue_append ex_stale_7 (mk_thr (Some knc) true 0) (ex_work 3)
       = Some (true, thr', ev)
       /\ device_data thr' = Some knc'
       /\ workqueue knc' = [ex_work 2; ex_work 3]
       /\ workqueue_max knc' = 2
       /\ knc_wf knc'.
Proof.
  assert (Hwf : knc_wf (mk_knc false [ex_work 7; ex_work 2] 2 2 0 []))
    by (unfold knc_wf; simpl; lia).
  split; [exact Hwf|].
  exact (knc_queue_append_spec ex_stale_7
           (mk_thr (Some (mk_knc false [ex_work 7; ex_work 2] 2 2 0 []))
              true 0)
           (mk_knc false [ex_work 7; ex_work 2] 2 2 0 []) (ex_work 3)
           eq_refl Hwf).
Defined.

(** C8 as stated fails: a stale work enqueued right after [knc_init],
    with the queue below its capacity. The call returns true, and the
    work is not in the queue: putting it there filled the queue, and the
    pruning that follows freed it. *)
Lemma knc_queue_append_counterexample :
  exists thr' ev knc',
    workqueue_size ex_knc_init < workqueue_max ex_knc_init
    /\ knc_queue_append ex_stale_7 ex_thr_init (ex_work 7)
       = Some (true, thr', ev)
    /\ device_data thr' = Some knc'
    /\ workqueue knc' = []
    /\ workqueue knc' <> workqueue ex_knc_init ++ [ex_work 7]
    /\ ev = [free_work (ex_work 7)].
Proof.
  eexists _, _, _. split; [simpl; lia|].
  split; [vm_compute; reflexivity|].
  split_and!; try reflexivity. discriminate.
Qed.

(** * Further properties of the code *)

(** ** Work is neither lost nor freed twice *)

Lemma freed_app (ev1 ev2 : list event) :
  freed (ev1 ++ ev2) = freed ev1 ++ freed ev2.
Proof. apply omap_app. Qed.

Lemma freed_applog (prio : log_prio) (msg : log_msg) (ev : list event) :
  freed (applog prio msg :: ev) = freed ev.
Proof. reflexivity. Qed.

Lemma freed_spi_txrx (tx : list Z) (ev : list event) :
  freed (spi_txrx tx :: ev) = freed ev.
Proof. reflexivity. Qed.

Lemma freed_free_work (l : list work) : freed (free_work <$> l) = l.
Proof.
  unfold freed. induction l as [|w l IH]; [done|]. cbn. by rewrite IH.
Qed.

Lemma filter_stale_split (stale_work : work -> bool -> bool) (l : list work) :
  List.filter (not_stale stale_work) l ++ List.filter (is_stale stale_work) l
  ≡ₚ l.
Proof.
  induction l as [|w l IH]; [done|].
  unfold not_stale, is_stale in *. simpl.
  destruct (stale_work w false); simpl.
  - rewrite <- Permutation_middle. by constructor.
  - by constructor.
Qed.

(** Everything [knc_queue_append] does to the thread, whether or not the
    device is well-formed. *)
Lemma knc_queue_append_frame (stale_work : work -> bool -> bool)
    (thr thr' : thr_info) (knc : knc_device) (w : work) (b : bool)
    (ev : list event) :
  device_data thr = Some knc ->
  knc_queue_append stale_work thr w = Some (b, thr', ev) ->
  exists knc',
    device_data thr' = Some knc'
    /\ workqueue_max knc' = workqueue_max knc
    /\ devicework knc' = devicework knc
    /\ need_flush knc' = need_flush knc
    /\ next_id knc' = next_id knc
    /\ tv_poll thr' = tv_poll thr
    /\ (b = false -> queue_full thr' = true)
    /\ (b = true ->
        queue_full thr' = (workqueue_max knc' <=? workqueue_size knc'))
    /\ workqueue knc' ++ freed ev
       ≡ₚ workqueue knc ++ (if b then [w] else []).
Proof.
  intros Hk. unfold knc_queue_append. rewrite Hk. cbn [mbind option_bind].
  assert (Htail : forall thr1 knc1 ev1,
    device_data thr1 = Some knc1 ->
    workqueue_max knc1 = workqueue_max knc ->
    devicework knc1 = devicework knc ->
    need_flush knc1 = need_flush knc ->
    next_id knc1 = next_id knc ->
    tv_poll thr1 = tv_poll thr ->
    workqueue knc1 ++ freed ev1 ≡ₚ workqueue knc ->
    (knc1 ← device_data thr1;
     let knc2 := queue_append_work knc1 w in
     let thr2 :=
       set_queue_full (set_knc thr1 knc2)
         (workqueue_max knc2 <=? workqueue_size knc2) in
     if queue_full thr2 then
       '(thr3, ev3) ← knc_prune_local_queue stale_work thr2;
       Some (true, thr3, ev1 ++ ev3)
     else Some (true, thr2, ev1)) = Some (b, thr', ev) ->
    exists knc',
      device_data thr' = Some knc'
      /\ workqueue_max knc' = workqueue_max knc
      /\ devicework knc' = devicework knc
      /\ need_flush knc' = need_flush knc
      /\ next_id knc' = next_id knc
      /\ tv_poll thr' = tv_poll thr
      /\ (b = false -> queue_full thr' = true)
      /\ (b = true ->
          queue_full thr' = (workqueue_max knc' <=? workqueue_size knc'))
      /\ workqueue knc' ++ freed ev
         ≡ₚ workqueue knc ++ (if b then [w] else [])).
  { intros thr1 knc1 ev1 Hk1 Hm1 Hd1 Hn1 Hi1 Ht1 Hq1.
    rewrite Hk1. cbn [mbind option_bind].
    cbv zeta. cbn [queue_full set_queue_full].
    destruct (_ <=? _) eqn:Hfull.
    - rewrite (knc_prune_local_queue_eq _ _ (queue_append_work knc1 w))
        by done.
      cbn [mbind option_bind]. intros [= <- <- <-]. eexists.
      split; [reflexivity|]. split_and!; try done.
      cbn [workqueue pruned queue_append_work].
      rewrite freed_app, freed_free_work.
      rewrite (app_assoc (List.filter _ _)), (Permutation_app_comm _ (freed ev1)).
      rewrite <- app_assoc, filter_stale_split.
      rewrite app_assoc, (Permutation_app_comm (freed ev1)), Hq1. done.
    - intros [= <- <- <-]. eexists.
      split; [reflexivity|]. split_and!; try done.
      cbn [workqueue queue_append_work].
      rewrite <- app_assoc, (Permutation_app_comm [w]), app_assoc, Hq1.
      done. }
  destruct (workqueue_max knc <=? workqueue_size knc).
  - rewrite (knc_prune_local_queue_eq _ _ _ Hk). cbn [mbind option_bind].
    cbn [queue_full set_queue_full].
    destruct (workqueue_max knc <=? _) eqn:Hfull.
    + intros [= <- <- <-]. eexists. split; [reflexivity|].
      split_and!; try done.
      cbn [workqueue pruned]. rewrite freed_free_work, app_nil_r.
      apply filter_stale_split.
    + apply (Htail _ (pruned stale_work knc)); try done.
      cbn [workqueue pruned]. rewrite freed_free_work.
      apply filter_stale_split.
  - cbn [mbind option_bind]. apply (Htail _ knc); try done.
    cbn [freed omap]. by rewrite app_nil_r.
Qed.

Lemma clear_id_assign_ids (l : list work) :
  forall next : Z, clear_id <$> assign_ids next l = clear_id <$> l.
Proof.
  induction l as [|w l IH]; intros next; [done|].
  cbn [assign_ids fmap list_fmap]. f_equal. apply IH.
Qed.

Section Conservation.

Variable chain : list cgpu_info.
Variable opt_debug : bool.
Variable le32toh : Z -> Z.
Variable bkt_order : list work -> Z -> nat.

(** A reply record frees what it takes out of the table and nothing
    else. *)
Lemma knc_poll_record_conserves (rx : list Z) (off : nat)
    (dw dw' : list work) (ev : list event) :
  knc_poll_record chain opt_debug le32toh bkt_order rx off dw = Some (dw', ev) ->
  dw' ++ freed ev ≡ₚ dw.
Proof.
  unfold knc_poll_record.
  set (log := if negb _ && opt_debug then _ else []).
  assert (Hlog : freed log = []) by (subst log; by destruct (negb _ && _)).
  destruct (negb _ && negb _);
    [intros [= <- <-]; by rewrite Hlog, app_nil_r|].
  destruct (knc_route _ _ _) as [proc|]; [|done]. cbn [mbind option_bind].
  destruct (HASH_FIND_INT _ _ _) as [[n w]|] eqn:Hfind;
    [|intros [= <- <-]; by rewrite freed_app, Hlog, app_nil_r].
  apply HASH_FIND_INT_Some in Hfind as [Hn _].
  destruct (_ =? KNC_REPLY_NONCE_FOUND);
    [intros [= <- <-]; by rewrite freed_app, Hlog, app_nil_r|].
  destruct (_ =? KNC_REPLY_WORK_DONE); intros [= <- <-];
    rewrite ?freed_app, Hlog; cbn; [|by rewrite app_nil_r].
  unfold HASH_DEL.
  etrans; [|symmetry; apply (delete_Permutation dw n w Hn)].
  symmetry. apply Permutation_cons_append.
Qed.

Lemma records_over_conserves (rx : list Z) (offs : list nat) :
  forall (dw dw' : list work) (ev : list event),
    records_over chain opt_debug le32toh bkt_order rx offs dw = Some (dw', ev) ->
    dw' ++ freed ev ≡ₚ dw.
Proof.
  induction offs as [|off offs IH]; intros dw dw' ev; simpl.
  - intros [= <- <-]. by rewrite app_nil_r.
  - destruct (knc_poll_record _ _ _ _ rx off dw) as [[dw1 ev1]|] eqn:E1;
      [|done].
    cbn [mbind option_bind].
    destruct (records_over _ _ _ _ rx offs dw1) as [[dw2 ev2]|] eqn:E2; [|done].
    intros [= <- <-]. apply IH in E2. apply knc_poll_record_conserves in E1.
    rewrite freed_app, <- E1, <- E2. solve_Permutation.
Qed.

End Conservation.

(** X3. [knc_queue_append] keeps account of the work: what is pending
    afterwards together with what it freed is what was pending before,
    with the new work when it returned true and without it when it
    returned false. The device table, [need_flush], [next_id] and the poll
    timer are not touched, and a false result leaves [queue_full] set. *)
Theorem knc_queue_append_conserves (stale_work : work -> bool -> bool)
    (thr thr' : thr_info) (knc : knc_device) (w : work) (b : bool)
    (ev : list event) :
  device_data thr = Some knc ->
  knc_queue_append stale_work thr w = Some (b, thr', ev) ->
  exists knc',
    device_data thr' = Some knc'
    /\ workqueue knc' ++ freed ev ≡ₚ workqueue knc ++ (if b then [w] else [])
    /\ devicework knc' = devicework knc
    /\ need_flush knc' = need_flush knc
    /\ next_id knc' = next_id knc
    /\ tv_poll thr' = tv_poll thr
    /\ (b = false -> queue_full thr' = true).
Proof.
  intros Hk Hrun.
  destruct (knc_queue_append_frame _ _ _ _ _ _ _ Hk Hrun)
    as (knc' & Hd & _ & Hdw & Hnf & Hid & Ht & Hf & _ & Hq).
  exists knc'. by split_and!.
Qed.

(** A stale work enqueued after [knc_init]: the call returns true and the
    work is accounted for among the freed. *)
Lemma knc_queue_append_conserves_witness :
  exists knc',
    device_data ex_thr_init = Some knc'
    /\ workqueue knc' ++ [ex_work 7] ≡ₚ workqueue ex_knc_init ++ [ex_work 7].
Proof.
  destruct (knc_queue_append_conserves ex_stale_7 ex_thr_init ex_thr_init
              ex_knc_init (ex_work 7) true [free_work (ex_work 7)]
              eq_refl eq_refl)
    as (knc' & Hd & Hq & _).
  exists knc'. split; [exact Hd|exact Hq].
Defined.

Section PollConservation.

Variable stale_work : work -> bool -> bool.
Variable chain : list cgpu_info.
Variable opt_debug : bool.
Variable le32toh : Z -> Z.
Variable bkt_order : list work -> Z -> nat.
Variable nop : Z.
Variable txrx : list Z -> bool * list Z.
Variable buf : list Z.

(** X4. A poll cycle keeps account of the work: the work pending and the
    work in the device table afterwards, together with the work the cycle
    freed, are the work that was pending and in the table before, each
    once, whatever the receive buffer held. Only the identifiers of the
    work that moved to the table have changed. *)
Theorem knc_poll_conserves (thr thr' : thr_info) (knc : knc_device)
    (ev : list event) :
  device_data thr = Some knc ->
  knc_poll stale_work chain opt_debug le32toh bkt_order nop txrx buf thr
  = Some (thr', ev) ->
  exists knc',
    device_data thr' = Some knc'
    /\ clear_id <$> (workqueue knc' ++ devicework knc' ++ freed ev)
       ≡ₚ clear_id <$> (workqueue knc ++ devicework knc).
Proof.
  intros Hk. rewrite (knc_poll_eq _ _ _ _ _ _ _ _ _ _ Hk).
  rewrite knc_poll_records_all.
  destruct (records_over _ _ _ _ _ _ _) as [[base ev_rec]|] eqn:Hrec; [|done].
  cbn [mbind option_bind]. intros [= <- <-].
  apply records_over_conserves in Hrec.
  eexists. split; [reflexivity|].
  cbn [workqueue devicework poll_device].
  set (k := Z.to_nat (poll_workaccept stale_work nop txrx buf knc)).
  rewrite !freed_app, freed_free_work.
  assert (Hq : workqueue knc
               ≡ₚ take k (workqueue (pruned stale_work knc))
                  ++ drop k (workqueue (pruned stale_work knc))
                  ++ List.filter (is_stale stale_work) (workqueue knc)).
  { rewrite app_assoc, take_drop. cbn [workqueue pruned].
    by rewrite filter_stale_split. }
  rewrite Hq at 2. rewrite <- Hrec.
  rewrite !fmap_app, clear_id_assign_ids.
  assert (Hov : forall c : bool,
            freed (if c then [] else [applog LOG_DEBUG msg_rx_overflow]) = [])
    by (by intros []).
  rewrite freed_spi_txrx, freed_app, Hov, freed_applog, freed_app.
  destruct (need_flush knc);
    rewrite ?freed_applog, ?freed_free_work, ?fmap_app;
    cbn [freed omap app fmap list_fmap]; rewrite ?app_nil_r;
    solve_Permutation.
Qed.

End PollConservation.

(** Of four works pending and one in the table, one is stale, two are
    accepted and the one in the table is reported done: two are freed, one
    stays pending, two are in the table. *)
Lemma knc_poll_conserves_witness :
  let r := ex_poll ex_stale_7 ex_rx_done_5 ex_knc_wrap in
  freed (ex_ev_of r) = [ex_work 7; set_device_id (ex_work 9) 5]
  /\ exists knc',
       device_data (ex_thr_of r) = Some knc'
       /\ clear_id <$> (workqueue knc' ++ devicework knc'
                        ++ freed (ex_ev_of r))
          ≡ₚ clear_id <$> (workqueue ex_knc_wrap ++ devicework ex_knc_wrap).
Proof.
  split; [vm_compute; reflexivity|].
  assert (Hrun : ex_poll ex_stale_7 ex_rx_done_5 ex_knc_wrap
                 = Some (ex_thr_of (ex_poll ex_stale_7 ex_rx_done_5
                                      ex_knc_wrap),
                         ex_ev_of (ex_poll ex_stale_7 ex_rx_done_5
                                     ex_knc_wrap)))
    by (vm_compute; reflexivity).
  exact (knc_poll_conserves ex_stale_7 ex_chain false id ex_newest_first 0
           (ex_device true ex_rx_done_5) ex_buf
           (mk_thr (Some ex_knc_wrap) true 0) _ ex_knc_wrap _ eq_refl Hrun).
Defined.

(** ** Invariants of the engine *)

Section Invariants.

Variable chain : list cgpu_info.
Variable opt_debug : bool.
Variable le32toh : Z -> Z.
Variable nop : Z.

(** X1. From [knc_init] on, through any enqueue, flush and poll
    operations that run to their end, the size field counts the pending
    queue, the pending queue holds no more work than the capacity, and
    the capacity is between 1 and 0xffff. *)
Theorem knc_run_queue_bounded (r : spi_open_result) (thr0 thr' : thr_info)
    (ops : list knc_op) (ev : list event) :
  knc_run chain opt_debug le32toh nop ops (knc_init nop r thr0).1.2
  = Some (thr', ev) ->
  exists knc',
    device_data thr' = Some knc'
    /\ workqueue_size knc' = Z.of_nat (length (workqueue knc'))
    /\ Z.of_nat (length (workqueue knc')) <= workqueue_max knc'
    /\ 1 <= workqueue_max knc' <= 0xffff.
Proof.
  intros Hrun.
  destruct (knc_init_wf nop r thr0) as (knc & Hk & Hwf & _).
  destruct (knc_run_wf _ _ _ _ _ _ _ _ _ Hk Hwf Hrun)
    as (knc' & Hk' & (Hsz & Hle & Hmax) & _).
  exists knc'. split_and!; [done|done|lia|lia|lia].
Qed.

(** X2. After any one enqueue, flush or poll on a well-formed device, the
    flag [queue_full] is set exactly when the pending queue holds as much
    work as the capacity. *)
Theorem knc_step_queue_full (op : knc_op) (thr thr' : thr_info)
    (knc : knc_device) (ev : list event) :
  device_data thr = Some knc ->
  knc_wf knc ->
  knc_step chain opt_debug le32toh nop op thr = Some (thr', ev) ->
  exists knc',
    device_data thr' = Some knc'
    /\ (queue_full thr' = true <->
        workqueue_max knc' <= Z.of_nat (length (workqueue knc'))).
Proof.
  intros Hk Hwf Hstep.
  destruct (knc_step_wf _ _ _ _ _ _ _ _ _ Hk Hwf Hstep)
    as (knc' & Hk' & (Hsz' & Hle' & Hmax') & _).
  exists knc'. split; [done|]. rewrite <- Hsz'.
  assert (queue_full thr' = (workqueue_max knc' <=? workqueue_size knc'))
    as ->; [|apply Z.leb_le].
  destruct op as [stale w|stale|stale txrx buf order]; simpl in Hstep.
  - destruct (knc_queue_append stale thr w) as [[[b thr1] ev1]|] eqn:E;
      [|done].
    cbn [mbind option_bind] in Hstep. injection Hstep as <- <-.
    destruct (knc_queue_append_frame _ _ _ _ _ _ _ Hk E)
      as (knc1 & Hk1 & _ & _ & _ & _ & _ & Hfalse & Htrue & _).
    assert (knc1 = knc') as -> by congruence.
    destruct b; [by apply Htrue|]. rewrite Hfalse by done.
    destruct (knc_queue_append_room stale thr knc w Hk Hwf)
      as (thr2 & ev2 & knc2 & E2 & Hk2 & Hq2 & _).
    rewrite E in E2. injection E2 as Hroom <- <-.
    assert (knc2 = knc') as -> by congruence.
    rewrite <- Hroom in Hq2. symmetry. apply Z.leb_le.
    destruct Hwf as (Hsz & Hle & Hmax).
    rewrite Hsz', Hq2.
    destruct (workqueue_max knc <=? workqueue_size knc) eqn:Hcap.
    + apply Z.leb_le in Hcap.
      destruct (knc_queue_append_frame _ _ _ _ _ _ _ Hk E)
        as (knc3 & Hk3 & Hm3 & _).
      assert (knc3 = knc') as -> by congruence. lia.
    + symmetry in Hroom. apply Z.ltb_ge in Hroom.
      apply Z.leb_gt in Hcap. lia.
  - rewrite (knc_queue_flush_eq _ _ _ Hk) in Hstep.
    destruct (HASH_LAST_ADDED _) as [w|]; [|done].
    cbn [mbind option_bind] in Hstep.
    assert (queue_full thr' = false) as ->
      by (destruct (stale w true); by injection Hstep as <- <-).
    assert (workqueue knc' = []) as Hq.
    { destruct (stale w true); injection Hstep as <- <-;
        cbn in Hk'; by injection Hk' as <-. }
    rewrite Hq in Hsz'. symmetry. apply Z.leb_gt. simpl in Hsz'. lia.
  - rewrite (knc_poll_eq _ _ _ _ _ _ _ _ _ _ Hk) in Hstep.
    destruct (knc_poll_records _ _ _ _ _ _ _ _ _) as [[base ev_rec]|]; [|done].
    cbn [mbind option_bind] in Hstep. injection Hstep as <- <-.
    cbn in Hk'. injection Hk' as <-. reflexivity.
Qed.

End Invariants.

(** After [knc_init] and [ex_ops] the queue is empty under a capacity of
    3. *)
Lemma knc_run_queue_bounded_witness :
  let thr' := mk_thr (Some (mk_knc false [] 0 3 1 [ex_work 1])) false 10000 in
  exists knc',
    device_data thr' = Some knc'
    /\ workqueue_size knc' = Z.of_nat (length (workqueue knc'))
    /\ Z.of_nat (length (workqueue knc')) <= workqueue_max knc'
    /\ 1 <= workqueue_max knc' <= 0xffff.
Proof.
  assert (Hrun :
    knc_run ex_chain false id 0 ex_ops
      (knc_init 0 spi_opened (mk_thr None false 0)).1.2
    = Some (mk_thr (Some (mk_knc false [] 0 3 1 [ex_work 1])) false 10000,
            ex_ev_of (knc_run ex_chain false id 0 ex_ops ex_thr_init)))
    by (vm_compute; reflexivity).
  exact (knc_run_queue_bounded ex_chain false id 0 spi_opened
           (mk_thr None false 0) _ ex_ops _ Hrun).
Defined.

(** One work enqueued under the capacity of 1 that [knc_init] leaves: the
    queue is full and the flag says so. *)
Lemma knc_step_queue_full_witness :
  let thr' := mk_thr (Some (mk_knc false [ex_work 1] 1 1 0 [])) true 0 in
  knc_wf ex_knc_init
  /\ exists knc',
       device_data thr' = Some knc'
       /\ (queue_full thr' = true <->
           workqueue_max knc' <= Z.of_nat (length (workqueue knc'))).
Proof.
  assert (Hwf : knc_wf ex_knc_init) by (unfold knc_wf; simpl; lia).
  split; [exact Hwf|].
  exact (knc_step_queue_full ex_chain false id 0
           (op_queue_append ex_never_stale (ex_work 1)) ex_thr_init
           (mk_thr (Some (mk_knc false [ex_work 1] 1 1 0 [])) true 0)
           ex_knc_init [] eq_refl Hwf eq_refl).
Defined.

(** ** Flushing twice *)

(** X5. A flush that returns frees exactly the pending work, in queue
    order, and leaves the device table as it was; flushing again at once,
    with the same answers about staleness, changes nothing and frees
    nothing. *)
Theorem knc_queue_flush_idempotent (stale_work : work -> bool -> bool)
    (thr thr1 : thr_info) (ev : list event) :
  knc_queue_flush stale_work thr = Some (thr1, ev) ->
  knc_queue_flush stale_work thr1 = Some (thr1, [])
  /\ forall knc,
       device_data thr = Some knc ->
       ev = free_work <$> workqueue knc
       /\ exists knc1,
            device_data thr1 = Some knc1
            /\ workqueue knc1 = []
            /\ devicework knc1 = devicework knc.
Proof.
  destruct (device_data thr) as [knc|] eqn:Hk.
  - rewrite (knc_queue_flush_eq _ _ _ Hk).
    destruct (HASH_LAST_ADDED (devicework knc)) as [w|] eqn:Hlast; [|done].
    cbn [mbind option_bind]. intros [= <- <-]. split.
    + destruct (stale_work w true) eqn:Hst;
        (erewrite knc_queue_flush_eq by reflexivity);
        cbn [devicework set_need_flush]; rewrite Hlast;
        cbn [mbind option_bind]; rewrite Hst; reflexivity.
    + intros knc0 [= <-]. split; [reflexivity|].
      destruct (stale_work w true); eexists; by split_and!.
  - unfold knc_queue_flush. rewrite Hk. intros [= <- <-].
    rewrite Hk. split; [reflexivity|]. intros knc [=].
Qed.

(** A flush with one work pending and one on the device, and the flush
    after it. *)
Lemma knc_queue_flush_idempotent_witness :
  let thr := mk_thr (Some (mk_knc false [ex_work 2] 1 1 1 [ex_work 1])) true 7 in
  let thr1 := mk_thr (Some (mk_knc false [] 0 1 1 [ex_work 1])) false 7 in
  knc_queue_flush ex_never_stale thr = Some (thr1, [free_work (ex_work 2)])
  /\ knc_queue_flush ex_never_stale thr1 = Some (thr1, []).
Proof.
  split; [reflexivity|].
  apply (proj1 (knc_queue_flush_idempotent ex_never_stale
                  (mk_thr (Some (mk_knc false [ex_work 2] 1 1 1 [ex_work 1]))
                     true 7)
                  (mk_thr (Some (mk_knc false [] 0 1 1 [ex_work 1])) false 7)
                  [free_work (ex_work 2)] eq_refl)).
Defined.

(** ** Identifiers in the device table *)

Lemma Forall_sublist_of {A : Type} (P : A -> Prop) (l1 l2 : list A) :
  l1 `sublist_of` l2 -> Forall P l2 -> Forall P l1.
Proof.
  induction 1 as [|x l1 l2 _ IH|x l1 l2 _ IH]; intros H; [done| |].
  - apply list.Forall_cons in H as [Hx H]. constructor; [done|by apply IH].
  - apply list.Forall_cons in H as [_ H]. by apply IH.
Qed.

Lemma assign_ids_in_range (l : list work) :
  forall next : Z, ids_in_range (assign_ids next l).
Proof.
  induction l as [|w l IH]; intros next; [constructor|].
  constructor; [|apply IH]. cbn [device_id set_device_id].
  rewrite land_7fff. apply Z.mod_pos_bound. lia.
Qed.

Section Identifiers.

Variable chain : list cgpu_info.
Variable opt_debug : bool.
Variable le32toh : Z -> Z.
Variable nop : Z.

Lemma knc_step_ids_in_range (op : knc_op) (thr thr' : thr_info)
    (knc : knc_device) (ev : list event) :
  device_data thr = Some knc ->
  ids_in_range (devicework knc) ->
  knc_step chain opt_debug le32toh nop op thr = Some (thr', ev) ->
  exists knc',
    device_data thr' = Some knc' /\ ids_in_range (devicework knc').
Proof.
  intros Hk Hin. destruct op as [stale w|stale|stale txrx buf order]; simpl.
  - destruct (knc_queue_append stale thr w) as [[[b thr1] ev1]|] eqn:E;
      [|done].
    cbn [mbind option_bind]. intros [= <- <-].
    destruct (knc_queue_append_frame _ _ _ _ _ _ _ Hk E)
      as (knc1 & Hk1 & _ & Hdw & _).
    exists knc1. by rewrite Hdw.
  - rewrite (knc_queue_flush_eq _ _ _ Hk).
    destruct (HASH_LAST_ADDED _) as [w|]; [|done]. cbn [mbind option_bind].
    destruct (stale w true); intros [= <- <-]; eexists;
      (split; [reflexivity|]); done.
  - rewrite (knc_poll_eq _ _ _ _ _ _ _ _ _ _ Hk).
    destruct (knc_poll_records _ _ _ _ _ _ _ _ _) as [[base ev_rec]|] eqn:Hrec;
      [|done].
    cbn [mbind option_bind]. intros [= <- <-].
    apply knc_poll_records_sublist in Hrec.
    eexists. split; [reflexivity|]. cbn [devicework poll_device].
    apply Forall_app_2; [|apply assign_ids_in_range].
    destruct (need_flush knc); [constructor|].
    by apply (Forall_sublist_of _ _ _ Hrec).
Qed.

(** X6. From [knc_init] on, through any operations that run to their end,
    every identifier in the device table is below 2^15; so no element of
    the table is found for the identifier of a reply record that has its
    top bit set. *)
Theorem knc_run_ids_in_range (r : spi_open_result) (thr0 thr' : thr_info)
    (ops : list knc_op) (ev : list event) :
  knc_run chain opt_debug le32toh nop ops (knc_init nop r thr0).1.2
  = Some (thr', ev) ->
  exists knc',
    device_data thr' = Some knc'
    /\ (forall w, w ∈ devicework knc' -> 0 <= device_id w < 2 ^ 15)
    /\ (forall bkt_order i,
          2 ^ 15 <= i -> HASH_FIND_INT bkt_order (devicework knc') i = None).
Proof.
  assert (Hrun : forall ops thr thr' knc ev,
    device_data thr = Some knc ->
    ids_in_range (devicework knc) ->
    knc_run chain opt_debug le32toh nop ops thr = Some (thr', ev) ->
    exists knc',
      device_data thr' = Some knc' /\ ids_in_range (devicework knc')).
  { clear. induction ops as [|op ops IH]; intros thr thr' knc ev Hk Hin; simpl.
    - intros [= <- <-]. by exists knc.
    - destruct (knc_step _ _ _ _ op thr) as [[thr1 ev1]|] eqn:E1; [|done].
      cbn [mbind option_bind].
      destruct (knc_run _ _ _ _ ops thr1) as [[thr2 ev2]|] eqn:E2; [|done].
      intros [= <- <-].
      destruct (knc_step_ids_in_range _ _ _ _ _ Hk Hin E1)
        as (knc1 & Hk1 & Hin1).
      by apply (IH _ _ _ _ Hk1 Hin1 E2). }
  intros H.
  destruct (knc_init_wf nop r thr0) as (knc & Hk & _ & _).
  assert (Hnil : devicework knc = []).
  { unfold knc_init in Hk. destruct (knc_spi_open r) as [[] ?];
      cbn in Hk; by injection Hk as <-. }
  destruct (Hrun _ _ _ _ _ Hk ltac:(rewrite Hnil; constructor) H)
    as (knc' & Hk' & Hin').
  exists knc'. split; [done|].
  unfold ids_in_range in Hin'. rewrite list.Forall_forall in Hin'.
  split; [exact Hin'|]. intros bkt_order i Hi. apply HASH_FIND_INT_None.
  intros w Hw Hid. specialize (Hin' w Hw). lia.
Qed.

End Identifiers.

(** After [knc_init] and [ex_ops] the one work in the table has
    identifier 0. *)
Lemma knc_run_ids_in_range_witness :
  let thr' := mk_thr (Some (mk_knc false [] 0 3 1 [ex_work 1])) false 10000 in
  exists knc',
    device_data thr' = Some knc'
    /\ (forall w, w ∈ devicework knc' -> 0 <= device_id w < 2 ^ 15)
    /\ (forall bkt_order i,
          2 ^ 15 <= i -> HASH_FIND_INT bkt_order (devicework knc') i = None).
Proof.
  assert (Hrun :
    knc_run ex_chain false id 0 ex_ops
      (knc_init 0 spi_opened (mk_thr None false 0)).1.2
    = Some (mk_thr (Some (mk_knc false [] 0 3 1 [ex_work 1])) false 10000,
            ex_ev_of (knc_run ex_chain false id 0 ex_ops ex_thr_init)))
    by (vm_compute; reflexivity).
  exact (knc_run_ids_in_range ex_chain false id 0 spi_opened
           (mk_thr None false 0) _ ex_ops _ Hrun).
Defined.

(** ** Where a reply record is routed *)

Section RouteSound.

Variable chain : list cgpu_info.

Lemma skip_to_device_spec (rest : list cgpu_info) :
  forall o r : nat,
    skip_to_device rest o = Some r ->
    exists (i : nat) (dev : cgpu_info),
      r = (o + i)%nat /\ rest !! i = Some dev /\ device_is_self dev = true
      /\ forall (j : nat) (d : cgpu_info),
           (j < i)%nat -> rest !! j = Some d -> device_is_self d = false.
Proof.
  induction rest as [|p rest IH]; intros o r; simpl; [done|].
  destruct (device_is_self p) eqn:Hp.
  - intros [= <-]. exists 0%nat, p. split_and!; [lia|done|done|lia].
  - intros H. apply IH in H as (i & dev & -> & Hi & Hdev & Hbefore).
    exists (S i), dev. split_and!; [lia|done|done|].
    intros [|j] d Hj; simpl; [by intros [= <-]|].
    apply Hbefore. lia.
Qed.

Lemma find_asic_sound (asicno : Z) (fuel : nat) :
  forall pos r : nat,
    find_asic chain fuel pos asicno = Some r ->
    (pos <= r)%nat
    /\ (exists dev, chain !! r = Some dev /\ knccore_asicno dev = asicno)
    /\ (r = pos
        \/ exists dev, chain !! r = Some dev /\ device_is_self dev = true)
    /\ forall (j : nat) (d : cgpu_info),
         (pos <= j < r)%nat -> chain !! j = Some d ->
         j = pos \/ device_is_self d = true ->
         knccore_asicno d <> asicno.
Proof.
  induction fuel as [|fuel IH]; intros pos r; simpl; [done|].
  destruct (chain !! pos) as [p|] eqn:Hp; [|done]. cbn [mbind option_bind].
  destruct (knccore_asicno p =? asicno) eqn:Ha.
  - intros [= <-]. apply Z.eqb_eq in Ha.
    split_and!; [lia|by exists p|by left|lia].
  - apply Z.eqb_neq in Ha.
    destruct (skip_to_device _ _) as [pos'|] eqn:Hskip; [|done].
    cbn [mbind option_bind]. intros Hfind.
    apply skip_to_device_spec in Hskip
      as (i & dev & -> & Hi & Hdev & Hbefore).
    rewrite lookup_drop in Hi.
    apply IH in Hfind as (Hle & Hfound & Hstart & Hfirst).
    split_and!; [lia|done| |].
    + right. destruct Hstart as [->|Hstart]; [by exists dev|done].
    + intros j d Hj Hd Hjs.
      destruct (decide (j = pos)) as [->|Hne]; [congruence|].
      destruct (decide (j < S pos + i)%nat) as [Hlt|Hge].
      * destruct Hjs as [?|Hself]; [done|].
        assert (device_is_self d = false); [|congruence].
        apply (Hbefore (j - S pos)%nat); [lia|].
        rewrite lookup_drop. by replace (S pos + (j - S pos))%nat with j by lia.
      * apply (Hfirst j d); [lia|done|].
        destruct Hjs as [?|?]; [lia|by right].
Qed.

Lemma find_asic_none (asicno : Z) (fuel : nat) :
  forall pos : nat,
    (forall d, d ∈ chain -> knccore_asicno d <> asicno) ->
    find_asic chain fuel pos asicno = None.
Proof.
  induction fuel as [|fuel IH]; intros pos Hno; simpl; [done|].
  destruct (chain !! pos) as [p|] eqn:Hp; [|done]. cbn [mbind option_bind].
  assert ((knccore_asicno p =? asicno) = false) as ->.
  { apply Z.eqb_neq, Hno. by eapply list_elem_of_lookup_2. }
  destruct (skip_to_device _ _); [|done]. cbn [mbind option_bind].
  by apply IH.
Qed.

(** X9. When the walk over the processor chain finds a processor for a
    reply record, it is the one [coreno] links behind the first chip
    start (the head of the chain or a processor that is its own device)
    whose chip number is [asicno]. The core offset is only checked
    against the end of the chain, not against the end of the chip. *)
Theorem knc_route_sound (asicno coreno : Z) (proc : nat) :
  knc_route chain asicno coreno = Some proc ->
  exists (pos : nat) (dev : cgpu_info),
    chain !! pos = Some dev
    /\ knccore_asicno dev = asicno
    /\ chip_start chain pos
    /\ (forall (j : nat) (d : cgpu_info),
          (j < pos)%nat -> chain !! j = Some d -> chip_start chain j ->
          knccore_asicno d <> asicno)
    /\ proc = (pos + Z.to_nat coreno)%nat
    /\ (proc < length chain)%nat.
Proof.
  unfold knc_route.
  destruct (find_asic chain (length chain) 0 asicno) as [pos|] eqn:Hfind;
    [|done].
  cbn [mbind option_bind]. destruct (decide _) as [Hlt|]; [|done].
  intros [= <-].
  apply find_asic_sound in Hfind as (_ & (dev & Hdev & Ha) & Hstart & Hfirst).
  exists pos, dev. split_and!; [done|done| | |done|done].
  - destruct Hstart as [->|Hself]; [by left|by right].
  - intros j d Hj Hd Hcs. apply (Hfirst j d); [lia|done|].
    destruct Hcs as [?|(d' & Hd' & Hself)]; [by left|right; congruence].
Qed.

(** A reply record for a chip that no processor of the chain has, or for
    a core offset as long as the chain, finds no processor. *)
Lemma knc_route_none (asicno coreno : Z) :
  (forall d, d ∈ chain -> knccore_asicno d <> asicno)
  \/ (length chain <= Z.to_nat coreno)%nat ->
  knc_route chain asicno coreno = None.
Proof.
  unfold knc_route. intros [Hno|Hlong].
  - by rewrite find_asic_none.
  - destruct (find_asic _ _ _ _) as [pos|]; [|done].
    cbn [mbind option_bind]. destruct (decide _); [lia|done].
Qed.

End RouteSound.

(** In [ex_chain] core 1 of chip 1 is processor 3, and core 2 of chip 0 is
    processor 2, which is the first core of chip 1. *)
Lemma knc_route_sound_witness :
  knc_route ex_chain 0 2 = Some 2%nat
  /\ ex_chain !! 2%nat = Some (mk_cgpu true 1)
  /\ exists (pos : nat) (dev : cgpu_info),
       ex_chain !! pos = Some dev
       /\ knccore_asicno dev = 1
       /\ chip_start ex_chain pos
       /\ 3%nat = (pos + Z.to_nat 1)%nat.
Proof.
  split; [reflexivity|]. split; [reflexivity|].
  destruct (knc_route_sound ex_chain 1 1 3 eq_refl)
    as (pos & dev & Hd & Ha & Hs & _ & Hp & _).
  exists pos, dev. split_and!; [exact Hd|exact Ha|exact Hs|exact Hp].
Defined.

(** ** Reply records the engine cannot place *)

Section Misplaced.

Variable chain : list cgpu_info.
Variable opt_debug : bool.
Variable le32toh : Z -> Z.
Variable bkt_order : list work -> Z -> nat.

(** X7. A nonce-found or work-done record whose identifier no element of
    the table has, from a processor the chain has: the table is left as it
    is, a warning is logged and one hardware error is counted for that
    processor, with the nonce for a nonce-found record and without one
    for a work-done record. No work is submitted, freed or reported
    done. *)
Theorem knc_poll_record_unknown (rx : list Z) (rxbuf : nat) (dw : list work)
    (proc : nat) :
  let rtype := Z.shiftr (byte_at rx rxbuf) 6 in
  let asicno := Z.shiftr (Z.land (byte_at rx rxbuf) 0x38) 3 in
  let i := get_u16be rx (rxbuf + 2) in
  rtype = KNC_REPLY_NONCE_FOUND \/ rtype = KNC_REPLY_WORK_DONE ->
  (forall w, w ∈ dw -> device_id w <> i) ->
  knc_route chain asicno (get_u32be rx (rxbuf + 8)) = Some proc ->
  knc_poll_record chain opt_debug le32toh bkt_order rx rxbuf dw
  = Some (dw,
          recv_log opt_debug rx rxbuf
          ++ [applog LOG_WARNING (msg_unknown_work proc rtype i);
              inc_hw_errors2 proc
                (if rtype =? KNC_REPLY_NONCE_FOUND
                 then Some (le32toh (get_u32be rx (rxbuf + 4)))
                 else None)]).
Proof.
  intros rtype asicno i Hrtype Hno Hroute.
  apply (HASH_FIND_INT_None bkt_order) in Hno.
  unfold knc_poll_record, recv_log. fold rtype. fold asicno. fold i.
  rewrite Hroute, Hno. cbn [mbind option_bind].
  by destruct Hrtype as [-> | ->].
Qed.

Lemma knc_poll_record_unroutable (rx : list Z) (rxbuf : nat)
    (dw : list work) :
  let rtype := Z.shiftr (byte_at rx rxbuf) 6 in
  let asicno := Z.shiftr (Z.land (byte_at rx rxbuf) 0x38) 3 in
  rtype = KNC_REPLY_NONCE_FOUND \/ rtype = KNC_REPLY_WORK_DONE ->
  knc_route chain asicno (get_u32be rx (rxbuf + 8)) = None ->
  knc_poll_record chain opt_debug le32toh bkt_order rx rxbuf dw = None.
Proof.
  intros rtype asicno Hrtype Hroute.
  unfold knc_poll_record. fold rtype. fold asicno. rewrite Hroute.
  by destruct Hrtype as [-> | ->].
Qed.

Lemma records_over_unroutable (rx : list Z) (off : nat) (offs : list nat) :
  forall dw : list work,
    off ∈ offs ->
    (forall dw, knc_poll_record chain opt_debug le32toh bkt_order rx off dw = None) ->
    records_over chain opt_debug le32toh bkt_order rx offs dw = None.
Proof.
  induction offs as [|o offs IH]; intros dw Hin Hnone.
  - by apply elem_of_nil in Hin.
  - simpl. apply elem_of_cons in Hin as [<-|Hin]; [by rewrite Hnone|].
    destruct (knc_poll_record _ _ _ _ rx o dw) as [[dw1 ev1]|]; [|done].
    cbn [mbind option_bind]. by rewrite IH.
Qed.

Variable stale_work : work -> bool -> bool.
Variable nop : Z.
Variable txrx : list Z -> bool * list Z.
Variable buf : list Z.

(** X8. A poll cycle does not survive a nonce-found or work-done record,
    anywhere among the 340 records of the receive buffer, that names a
    chip no processor of the chain has or a core offset as long as the
    chain: the walk over the chain runs off its end, whatever else the
    buffer and the device state hold. *)
Theorem knc_poll_unroutable_fails (thr : thr_info) (knc : knc_device)
    (rxbuf : nat) :
  let rx := poll_rx stale_work nop txrx buf knc in
  let rtype := Z.shiftr (byte_at rx rxbuf) 6 in
  let asicno := Z.shiftr (Z.land (byte_at rx rxbuf) 0x38) 3 in
  let coreno := get_u32be rx (rxbuf + 8) in
  device_data thr = Some knc ->
  rxbuf ∈ record_offsets 0 340 ->
  rtype = KNC_REPLY_NONCE_FOUND \/ rtype = KNC_REPLY_WORK_DONE ->
  (forall d, d ∈ chain -> knccore_asicno d <> asicno)
  \/ (length chain <= Z.to_nat coreno)%nat ->
  knc_poll stale_work chain opt_debug le32toh bkt_order nop txrx buf thr = None.
Proof.
  intros rx rtype asicno coreno Hk Hin Hrtype Hbad.
  rewrite (knc_poll_eq _ _ _ _ _ _ _ _ _ _ Hk), knc_poll_records_all.
  fold rx. rewrite (records_over_unroutable rx rxbuf); [done|done|].
  intros dw. apply knc_poll_record_unroutable; [done|].
  by apply knc_route_none.
Qed.

End Misplaced.

(** A nonce for identifier 9 when the table holds identifier 0 only. *)
Lemma knc_poll_record_unknown_witness :
  let rx := ex_rx 0 [0x40; 0; 0; 9; 1; 2; 3; 4; 0; 0; 0; 1] in
  knc_poll_record ex_chain false id ex_newest_first rx 12 [ex_work 1]
  = Some ([ex_work 1],
          [applog LOG_WARNING (msg_unknown_work 1 1 9);
           inc_hw_errors2 1 (Some 0x01020304)]).
Proof.
  refine (knc_poll_record_unknown ex_chain false id ex_newest_first
            (ex_rx 0 [0x40; 0; 0; 9; 1; 2; 3; 4; 0; 0; 0; 1]) 12
            [ex_work 1] 1 _ _ eq_refl).
  - left. reflexivity.
  - intros w Hw. apply list_elem_of_singleton in Hw as ->. vm_compute.
    discriminate.
Defined.

(** The second record of the buffer is a work-done record for chip 5,
    which [ex_chain] does not have. *)
Lemma knc_poll_unroutable_fails_witness :
  let rx :=
    ex_rx 0 [0; 0; 0; 0; 0; 0; 0; 0; 0; 0; 0; 0;
             0xa8; 0; 0; 0; 0; 0; 0; 0; 0; 0; 0; 0] in
  knc_poll ex_never_stale ex_chain false id ex_newest_first 0
    (ex_device true rx) ex_buf
    (mk_thr (Some ex_knc_wrap) true 0) = None.
Proof.
  refine (knc_poll_unroutable_fails ex_chain false id ex_newest_first
            ex_never_stale 0
            (ex_device true
               (ex_rx 0 [0; 0; 0; 0; 0; 0; 0; 0; 0; 0; 0; 0;
                         0xa8; 0; 0; 0; 0; 0; 0; 0; 0; 0; 0; 0]))
            ex_buf (mk_thr (Some ex_knc_wrap) true 0) ex_knc_wrap 24
            eq_refl _ _ _).
  - unfold record_offsets. apply list_elem_of_fmap.
    exists 2%nat. split; [reflexivity|]. apply elem_of_seq. lia.
  - right. reflexivity.
  - left. intros d Hd. vm_compute.
    repeat (apply elem_of_cons in Hd as [->|Hd]; [discriminate|]).
    by apply elem_of_nil in Hd.
Defined.

(** ** The frames on the wire *)

(** Reading [n] bytes of [l] backwards from index [base + n - 1]. *)
Lemma read_reversed (l : list Z) (base n : nat) :
  (base + n <= length l)%nat ->
  (fun i => nth (base + n - 1 - i) l 0) <$> seq 0 n
  = reverse (take n (drop base l)).
Proof.
  intros Hlen. apply list_eq. intros i.
  rewrite list_lookup_fmap.
  destruct (decide (i < n)%nat) as [Hi|Hi].
  - rewrite lookup_seq_lt by done. cbn [fmap option_fmap option_map].
    rewrite reverse_lookup by (rewrite length_take, length_drop; lia).
    rewrite length_take, length_drop.
    rewrite lookup_take_lt by lia. rewrite lookup_drop.
    rewrite nth_lookup.
    replace (base + n - 1 - (0 + i))%nat
      with (base + ((n `min` (length l - base)) - S i))%nat by lia.
    destruct (l !! _) eqn:E; [done|].
    apply lookup_ge_None in E. lia.
  - rewrite lookup_seq_ge by lia. symmetry. apply lookup_ge_None.
    rewrite length_reverse, length_take, length_drop. lia.
Qed.

(** X10. A submission frame is 0x30 bytes: the command byte 0x20, a zero
    byte, the identifier with the top bit of its first byte clear, and,
    for a work with its 32 bytes of midstate and at least 0x4c bytes of
    data, the midstate byte-reversed and bytes 0x40 to 0x4b of the data
    byte-reversed. Reversing those two fields of the frame gives the
    midstate and the data tail back. *)
Theorem knc_submit_frame_layout (w : work) (workid : Z) :
  length (midstate w) = 0x20%nat ->
  (0x4c <= length (data w))%nat ->
  let frame := knc_submit_frame w workid in
  length frame = 0x30%nat
  /\ take 2 frame = [0x20; 0]
  /\ 0 <= byte_at frame 2 < 0x80
  /\ get_u16be frame 2 = workid mod 2 ^ 15
  /\ reverse (take 0x20 (drop 4 frame)) = midstate w
  /\ reverse (take 0xc (drop 0x24 frame)) = take 0xc (drop 0x40 (data w)).
Proof.
  intros Hm Hd frame.
  assert (Em := read_reversed (midstate w) 0 0x20).
  assert (Ed := read_reversed (data w) 0x40 0xc).
  specialize (Em ltac:(rewrite Hm; reflexivity)).
  specialize (Ed Hd).
  cbn [Nat.add Nat.sub] in Em, Ed. rewrite drop_0 in Em.
  rewrite take_ge in Em by lia.
  assert (Hframe : frame = [0x20; 0; Z.land (Z.shiftr workid 8) 0x7f;
                            Z.land workid 0xff]
                           ++ reverse (midstate w)
                           ++ reverse (take 0xc (drop 0x40 (data w)))).
  { subst frame. unfold knc_submit_frame. by rewrite <- Em, <- Ed. }
  split.
  { subst frame. unfold knc_submit_frame.
    rewrite !length_app, !length_fmap, !length_seq. reflexivity. }
  split; [reflexivity|].
  split.
  { unfold byte_at. subst frame. unfold knc_submit_frame.
    cbn [app nth]. change 0x7f with (Z.ones 7).
    rewrite Z.land_ones by lia.
    pose proof (Z.mod_pos_bound (Z.shiftr workid 8) (2 ^ 7) ltac:(lia)).
    rewrite Z.mod_small; lia. }
  split; [apply knc_submit_frame_id|].
  split.
  - rewrite Hframe. rewrite (drop_app_length' _ _ 4) by reflexivity.
    rewrite take_app_length' by (rewrite length_reverse; lia).
    apply reverse_involutive.
  - rewrite Hframe.
    change 0x24%nat with (4 + 0x20)%nat. rewrite <- drop_drop.
    rewrite (drop_app_length' _ _ 4) by reflexivity.
    rewrite drop_app_length' by (rewrite length_reverse; lia).
    rewrite take_ge by (rewrite length_reverse, length_take, length_drop; lia).
    apply reverse_involutive.
Qed.

Lemma knc_submit_frame_layout_witness :
  let w := mk_work (seq_Z 1 32) (seq_Z 0 128) 0 in
  let frame := knc_submit_frame w 0x8123 in
  get_u16be frame 2 = 0x0123
  /\ reverse (take 0x20 (drop 4 frame)) = seq_Z 1 32
  /\ reverse (take 0xc (drop 0x24 frame)) = seq_Z 0x40 0xc.
Proof.
  destruct (knc_submit_frame_layout (mk_work (seq_Z 1 32) (seq_Z 0 128) 0)
              0x8123 eq_refl ltac:(simpl; lia))
    as (_ & _ & _ & Hid & Hm & Hd).
  split_and!; [exact Hid|exact Hm|exact Hd].
Defined.

Lemma length_knc_submit_frame (w : work) (workid : Z) :
  length (knc_submit_frame w workid) = 0x30%nat.
Proof.
  unfold knc_submit_frame.
  rewrite !length_app, !length_fmap, !length_seq. reflexivity.
Qed.

Lemma length_submit_frames (l : list work) :
  forall workid : Z,
    length (submit_frames workid l) = (0x30 * length l)%nat.
Proof.
  induction l as [|w l IH]; intros workid; [done|].
  cbn [submit_frames length]. rewrite length_app, length_knc_submit_frame, IH.
  lia.
Qed.

Lemma submit_frames_lookup (l : list work) :
  forall (workid : Z) (i : nat) (w : work) (rest : list Z),
    l !! i = Some w ->
    take 0x30 (drop (0x30 * i) (submit_frames workid l ++ rest))
    = knc_submit_frame w (next_id_after i workid).
Proof.
  induction l as [|x l IH]; intros workid i w rest; [done|].
  cbn [submit_frames]. rewrite <- app_assoc. destruct i as [|i].
  - intros [= ->]. rewrite drop_0.
    apply take_app_length'. by rewrite length_knc_submit_frame.
  - cbn [lookup list_lookup]. intros Hi.
    replace (0x30 * S i)%nat with (0x30 + 0x30 * i)%nat by lia.
    rewrite <- drop_drop.
    rewrite (drop_app_length' (knc_submit_frame x workid))
      by (by rewrite length_knc_submit_frame).
    cbn [next_id_after]. by apply IH.
Qed.

(** X11. The bytes a poll cycle sends, when a pending flush finds the
    0x30 bytes of the local array: the flush command first if a flush is
    pending, then one frame of 0x30 bytes for every pending work, in
    queue order, the i-th under [next_id] advanced i times. If all of
    that fits in 0x1000 bytes, the buffer sent is exactly 0x1000 bytes
    long and every byte behind the frames is a padding byte. *)
Theorem poll_tx_layout (stale_work : work -> bool -> bool) (nop : Z)
    (buf : list Z) (knc : knc_device) :
  (need_flush knc = true -> length buf = 0x30%nat) ->
  let tx := poll_tx stale_work nop buf knc in
  let q := pending stale_work knc in
  let off := if need_flush knc then 0x30%nat else 0%nat in
  (need_flush knc = true -> tx !! 0%nat = Some 0x30)
  /\ (forall (i : nat) (w : work),
        q !! i = Some w ->
        take 0x30 (drop (off + 0x30 * i) tx)
        = knc_submit_frame w (next_id_after i (next_id knc)))
  /\ ((off + 0x30 * length q <= 0x1000)%nat ->
      length tx = 0x1000%nat
      /\ forall j : nat,
           (off + 0x30 * length q <= j < 0x1000)%nat -> tx !! j = Some nop).
Proof.
  intros Hbuf tx q off. subst tx. unfold poll_tx.
  rewrite knc_poll_tx_eq. cbv zeta.
  cbn [need_flush next_id workqueue pruned].
  change (List.filter (not_stale stale_work) (workqueue knc)) with q.
  set (pre := if need_flush knc
              then <[0%nat := Z.shiftl KNC_REQ_FLUSH_QUEUE 4]> buf else []).
  assert (Hpre : length pre = off).
  { subst pre off. destruct (need_flush knc); [|done].
    rewrite length_insert. by apply Hbuf. }
  assert (Hlen : length (pre ++ submit_frames (next_id knc) q)
                 = (off + 0x30 * length q)%nat)
    by (by rewrite length_app, length_submit_frames, Hpre).
  split_and!.
  - intros Hnf. subst pre. rewrite Hnf. specialize (Hbuf Hnf).
    destruct buf as [|b buf']; [done|]. reflexivity.
  - intros i w Hi. rewrite <- app_assoc, <- drop_drop.
    rewrite drop_app_length' by done. by apply submit_frames_lookup.
  - intros Hfit. rewrite Hlen.
    assert (Hpad : Z.to_nat (size_t (0x1000
                     - Z.of_nat (off + 0x30 * length q)))
                   = (0x1000 - (off + 0x30 * length q))%nat).
    { unfold size_t. rewrite Z.mod_small; lia. }
    rewrite Hpad. split.
    + rewrite length_app, Hlen, length_replicate. lia.
    + intros j Hj. rewrite lookup_app_r by lia. rewrite Hlen.
      apply lookup_replicate_2. lia.
Qed.

(** Three works pending in [ex_knc_wrap] once the stale one is pruned, no
    flush: the frame of the second is at offset 0x30 under identifier 0,
    and 0x1000 bytes are sent. *)
Lemma poll_tx_layout_witness :
  let tx := poll_tx ex_stale_7 0 ex_buf ex_knc_wrap in
  take 0x30 (drop 0x30 tx) = knc_submit_frame (ex_work 2) 0x8000
  /\ length tx = 0x1000%nat.
Proof.
  destruct (poll_tx_layout ex_stale_7 0 ex_buf ex_knc_wrap
              ltac:(discriminate)) as (_ & Hframe & Hfit).
  split; [exact (Hframe 1%nat (ex_work 2) eq_refl)|].
  apply Hfit. vm_compute. lia.
Defined.

(** ** Reading the receive buffer *)

Lemma lor_high_low (c n b : Z) :
  0 <= n -> 0 <= b < 2 ^ n -> Z.lor (c * 2 ^ n) b = c * 2 ^ n + b.
Proof.
  intros Hn Hb. symmetry. apply Z.add_nocarry_lor.
  apply Z.bits_inj'. intros m Hm.
  rewrite Z.land_spec, Z.bits_0, <- Z.shiftl_mul_pow2 by lia.
  destruct (Z.ltb_spec m n).
  - rewrite Z.shiftl_spec_low by lia. reflexivity.
  - rewrite <- (Z.mod_small b (2 ^ n)) by lia.
    rewrite Z.mod_pow2_bits_high by lia. apply andb_false_r.
Qed.

Lemma byte_at_range (b : list Z) (i : nat) : 0 <= byte_at b i < 256.
Proof. unfold byte_at. apply Z.mod_pos_bound. lia. Qed.

Lemma byte_at_app (pre l : list Z) (i : nat) :
  byte_at (pre ++ l) (length pre + i) = byte_at l i.
Proof.
  unfold byte_at. rewrite !nth_lookup, lookup_app_r by lia.
  by replace (length pre + i - length pre)%nat with i by lia.
Qed.

(** The value [get_u16be] and [get_u32be] read: the bytes, most
    significant first. *)
Lemma get_be_value (b : list Z) (off : nat) :
  get_u16be b off = 2 ^ 8 * byte_at b off + byte_at b (off + 1)
  /\ get_u32be b off
     = 2 ^ 24 * byte_at b off + 2 ^ 16 * byte_at b (off + 1)
       + 2 ^ 8 * byte_at b (off + 2) + byte_at b (off + 3).
Proof.
  pose proof (byte_at_range b off) as H0.
  pose proof (byte_at_range b (off + 1)) as H1.
  pose proof (byte_at_range b (off + 2)) as H2.
  pose proof (byte_at_range b (off + 3)) as H3.
  unfold get_u16be, get_u32be, u16, u32.
  rewrite !Z.shiftl_mul_pow2 by lia. split.
  - rewrite lor_high_low by lia. rewrite Z.mod_small; lia.
  - rewrite (lor_high_low (byte_at b off) 0x18) by lia.
    replace (byte_at b off * 2 ^ 0x18 + byte_at b (off + 1) * 2 ^ 0x10)
      with ((byte_at b off * 2 ^ 8 + byte_at b (off + 1)) * 2 ^ 0x10) by lia.
    rewrite lor_high_low by lia.
    replace ((byte_at b off * 2 ^ 8 + byte_at b (off + 1)) * 2 ^ 0x10
             + byte_at b (off + 2) * 2 ^ 8)
      with (((byte_at b off * 2 ^ 8 + byte_at b (off + 1)) * 2 ^ 8
             + byte_at b (off + 2)) * 2 ^ 8) by lia.
    rewrite lor_high_low by lia. rewrite Z.mod_small; lia.
Qed.

(** X12. [get_u16be] and [get_u32be] read big-endian: wherever the bytes
    of a 16-bit or 32-bit value lie in a buffer, most significant first,
    reading at that offset gives the value. *)
Theorem get_be_roundtrip (pre post : list Z) (x : Z) :
  (0 <= x < 2 ^ 16 ->
   get_u16be (pre ++ [x / 2 ^ 8; x mod 2 ^ 8] ++ post) (length pre) = x)
  /\ (0 <= x < 2 ^ 32 ->
      get_u32be (pre ++ [x / 2 ^ 24; x / 2 ^ 16 mod 2 ^ 8;
                         x / 2 ^ 8 mod 2 ^ 8; x mod 2 ^ 8] ++ post)
        (length pre) = x).
Proof.
  split; intros Hx.
  - destruct (get_be_value (pre ++ [x / 2 ^ 8; x mod 2 ^ 8] ++ post)
                (length pre)) as [-> _].
    rewrite <- (Nat.add_0_r (length pre)) at 1.
    rewrite !byte_at_app. unfold byte_at. cbn [nth app].
    change 256 with (2 ^ 8). rewrite Z.mod_mod by lia.
    rewrite (Z.mod_small (x / 2 ^ 8)) by
      (split; [apply Z.div_pos; lia|apply Z.div_lt_upper_bound; lia]).
    pose proof (Z.div_mod x (2 ^ 8) ltac:(lia)). lia.
  - destruct (get_be_value
                (pre ++ [x / 2 ^ 24; x / 2 ^ 16 mod 2 ^ 8;
                         x / 2 ^ 8 mod 2 ^ 8; x mod 2 ^ 8] ++ post)
                (length pre)) as [_ ->].
    rewrite <- (Nat.add_0_r (length pre)) at 1.
    rewrite !byte_at_app. unfold byte_at. cbn [nth app].
    change 256 with (2 ^ 8). rewrite !Z.mod_mod by lia.
    rewrite (Z.mod_small (x / 2 ^ 24)) by
      (split; [apply Z.div_pos; lia|apply Z.div_lt_upper_bound; lia]).
    pose proof (Z.div_mod x (2 ^ 8) ltac:(lia)) as E0.
    pose proof (Z.div_mod (x / 2 ^ 8) (2 ^ 8) ltac:(lia)) as E1.
    pose proof (Z.div_mod (x / 2 ^ 8 / 2 ^ 8) (2 ^ 8) ltac:(lia)) as E2.
    rewrite !Z.div_div in * by lia.
    change (2 ^ 8 * 2 ^ 8) with (2 ^ 16) in *.
    change (2 ^ 16 * 2 ^ 8) with (2 ^ 24) in *. lia.
Qed.

Lemma get_be_roundtrip_witness :
  get_u16be ([7; 7] ++ [0xab; 0xcd] ++ [9]) 2 = 0xabcd
  /\ get_u32be ([7] ++ [0x12; 0x34; 0x56; 0x78] ++ []) 1 = 0x12345678.
Proof.
  split.
  - apply (proj1 (get_be_roundtrip [7; 7] [9] 0xabcd)). lia.
  - apply (proj2 (get_be_roundtrip [7] [] 0x12345678)). lia.
Defined.

(** X13. The loop over the receive buffer handles the 340 records at the
    offsets 12, 24, ..., 4080, in that order, and then ends, however
    many rounds more it is allowed: the 12 bytes of the header and the
    last 4 bytes of the buffer are never read as a record. *)
Theorem knc_poll_records_extent (chain : list cgpu_info) (opt_debug : bool)
    (le32toh : Z -> Z) (bkt_order : list work -> Z -> nat) (fuel : nat)
    (rx : list Z) (dw : list work) :
  (340 < fuel)%nat ->
  knc_poll_records chain opt_debug le32toh bkt_order fuel rx 0 0x1000 dw
  = records_over chain opt_debug le32toh bkt_order rx (record_offsets 0 340)
      dw
  /\ length (record_offsets 0 340) = 340%nat
  /\ forall off,
       off ∈ record_offsets 0 340 ->
       exists j, off = (0xc * j)%nat /\ (0xc <= off)%nat
                 /\ (off + 0xc <= 0x1000 - 4)%nat.
Proof.
  intros Hfuel. split_and!.
  - apply (knc_poll_records_unroll _ _ _ _ rx 340 fuel 0 0x1000 4); lia.
  - unfold record_offsets. by rewrite length_fmap, length_seq.
  - intros off Hoff. unfold record_offsets in Hoff.
    apply list_elem_of_fmap in Hoff as (j & -> & Hj).
    apply elem_of_seq in Hj. exists j. lia.
Qed.

Lemma knc_poll_records_extent_witness :
  knc_poll_records ex_chain false id ex_newest_first 400 (ex_rx 0 []) 0
    0x1000 [ex_work 1]
  = records_over ex_chain false id ex_newest_first (ex_rx 0 [])
      (record_offsets 0 340) [ex_work 1].
Proof.
  apply (proj1 (knc_poll_records_extent ex_chain false id ex_newest_first
                  400 (ex_rx 0 []) [ex_work 1] ltac:(lia))).
Defined.

(** ** Detection *)

Lemma detect_scan_spec_from (buf : list Z) (fuel : nat) :
  forall i : nat,
    (i + fuel = 0x20)%nat ->
    detect_scan buf i fuel = true
    <-> exists j : nat, (i <= j < 0x20)%nat /\ nth j buf 0 = 3.
Proof.
  induction fuel as [|fuel IH]; intros i Hi; simpl.
  - split; [done|]. intros (j & Hj & _). lia.
  - destruct (nth i buf 0 =? 3) eqn:E.
    + apply Z.eqb_eq in E. split; [|done]. intros _. exists i. split; [lia|done].
    + apply Z.eqb_neq in E. destruct (i =? 0x1f)%nat eqn:Ei.
      * apply Nat.eqb_eq in Ei. split; [done|]. intros (j & Hj & Hj3).
        assert (j = i) as -> by lia. done.
      * apply Nat.eqb_neq in Ei. rewrite IH by lia. split.
        -- intros (j & Hj & Hj3). exists j. split; [lia|done].
        -- intros (j & Hj & Hj3). exists j. split; [|done].
           destruct (decide (j = i)) as [->|]; [done|lia].
Qed.

(** The byte scan of [knc_detect_one] ends within its 0x20 rounds, with
    success exactly when one of the 0x20 bytes is 3. *)
Lemma detect_scan_spec (buf : list Z) :
  detect_scan buf 0 0x20 = true
  <-> exists j : nat, (j < 0x20)%nat /\ nth j buf 0 = 3.
Proof.
  rewrite (detect_scan_spec_from buf 0x20 0) by done. split.
  - intros (j & Hj & H3). exists j. split; [lia|done].
  - intros (j & Hj & H3). exists j. split; [lia|done].
Qed.

Section DetectFacts.

Variable devpath : Type.
Variable strtol : devpath -> Z * bool.
Variable sprintf_d : Z -> devpath.

Local Abbreviation detect_one := (knc_detect_one devpath strtol).

Lemma knc_detect_one_result (io : detect_io) (path : devpath)
    (prev : option (new_cgpu devpath)) :
  (detect_one io path prev).1.1
  = negb (strtol path).2 && detect_io_ok io.
Proof.
  unfold knc_detect_one, detect_io_ok.
  destruct (strtol path) as [slave []]; [done|]. cbn [snd negb andb].
  destruct (io_open io) as [fd|]; [|done].
  destruct (io_ioctl_fails io); [by destruct (io_read io)|].
  destruct (io_read io) as [b|]; [|done].
  cbn [negb andb]. by destruct (detect_scan b 0 0x20).
Qed.

(** What one detection call creates. *)
Lemma knc_detect_one_created (io : detect_io) (path : devpath)
    (prev : option (new_cgpu devpath)) :
  let '(rv, prev', ev) := detect_one io path prev in
  created ev = [] /\ prev' = prev /\ rv = false
  \/ exists cgpu,
       created ev = [cgpu] /\ prev' = Some cgpu
       /\ device_path cgpu = path /\ procs cgpu = 192
       /\ threads cgpu = match prev with Some _ => 0 | None => 1 end
       /\ rv = io_add_cgpu io.
Proof.
  unfold knc_detect_one.
  destruct (strtol path) as [slave leftover].
  destruct leftover; [by left|].
  destruct (io_open io) as [fd|]; [|by left].
  destruct (io_ioctl_fails io); [by left|].
  destruct (io_read io) as [b|]; [|by left].
  destruct (detect_scan b 0 0x20); [|by left].
  right. eexists. split; [reflexivity|]. by split_and!.
Qed.

(** X14. [knc_detect_one] returns true exactly when the device path is a
    number with nothing after it, the bus opens, the slave address is
    accepted, the block read succeeds with a byte 3 among the first 0x20
    bytes, and [add_cgpu_slave] accepts the device. Whenever the block
    holds such a byte the device is created with 192 processors under the
    path given, with one thread if no device was created before and none
    otherwise, and is remembered as the previous device even if
    [add_cgpu_slave] refuses it; in every other case nothing is created
    and the previous device stays. *)
Theorem knc_detect_one_spec (io : detect_io) (path : devpath)
    (prev : option (new_cgpu devpath)) :
  let '(rv, prev', ev) := detect_one io path prev in
  (rv = true <->
   (strtol path).2 = false
   /\ is_Some (io_open io)
   /\ io_ioctl_fails io = false
   /\ (exists buf (j : nat),
         io_read io = Some buf /\ (j < 0x20)%nat /\ nth j buf 0 = 3)
   /\ io_add_cgpu io = true)
  /\ (created ev = [] /\ prev' = prev
      \/ exists cgpu,
           created ev = [cgpu] /\ prev' = Some cgpu
           /\ device_path cgpu = path /\ procs cgpu = 192
           /\ threads cgpu = match prev with Some _ => 0 | None => 1 end
           /\ (rv = io_add_cgpu io)).
Proof.
  pose proof (knc_detect_one_result io path prev) as Hrv.
  pose proof (knc_detect_one_created io path prev) as Hcr.
  destruct (detect_one io path prev) as [[rv prev'] ev]. cbn [fst] in Hrv.
  split.
  - rewrite Hrv. unfold detect_io_ok. split.
    + intros H. apply andb_prop in H as [Hl Hok].
      apply negb_true_iff in Hl.
      destruct (io_open io) as [fd|]; [|done].
      destruct (io_read io) as [b|]; [|done].
      apply andb_prop in Hok as [Hok Hadd].
      apply andb_prop in Hok as [Hio Hscan].
      apply negb_true_iff in Hio.
      apply detect_scan_spec in Hscan as (j & Hj & H3).
      split_and!; try done. by exists b, j.
    + intros (-> & [fd ->] & -> & (b & j & -> & Hj & H3) & ->).
      cbn [negb andb]. rewrite andb_true_r.
      apply detect_scan_spec. by exists j.
  - destruct Hcr as [(Hc & Hp & _)|(cgpu & Hc)]; [by left|right; by exists cgpu].
Qed.

(** X15. [knc_detect_one] closes the descriptor it opened exactly once,
    on every path but one: when the device path has characters left
    over after the number, it returns without closing it. It closes
    nothing when the bus did not open. *)
Theorem knc_detect_one_closes (io : detect_io) (path : devpath)
    (prev : option (new_cgpu devpath)) :
  closed (detect_one io path prev).2
  = match io_open io with
    | Some fd => if (strtol path).2 then [] else [fd]
    | None => []
    end.
Proof.
  unfold knc_detect_one.
  destruct (strtol path) as [slave leftover]. cbn [snd].
  destruct leftover; [by destruct (io_open io)|].
  destruct (io_open io) as [fd|]; [|done].
  destruct (io_ioctl_fails io); [done|].
  destruct (io_read io) as [b|]; [|done].
  by destruct (detect_scan b 0 0x20).
Qed.

End DetectFacts.

Lemma thread_counts_app (had_prev : bool) (k1 k2 : nat) :
  thread_counts had_prev (k1 + k2)
  = thread_counts had_prev k1
    ++ thread_counts (had_prev || negb (k1 =? 0)%nat) k2.
Proof.
  unfold thread_counts. destruct had_prev; cbn [orb].
  - apply replicate_add.
  - destruct k1 as [|k1]; [done|]. cbn [Nat.add Nat.eqb negb].
    by rewrite replicate_add.
Qed.

Section DetectAuto.

Variable devpath : Type.
Variable strtol : devpath -> Z * bool.
Variable sprintf_d : Z -> devpath.

(** What [sprintf] prints with "%d", [strtol] reads back whole. *)
Hypothesis strtol_sprintf_d : forall i : Z, (strtol (sprintf_d i)).2 = false.

Lemma created_app (ev1 ev2 : list (detect_event devpath)) :
  created (ev1 ++ ev2) = created ev1 ++ created ev2.
Proof. apply omap_app. Qed.

Lemma detect_auto_loop_spec (io : Z -> detect_io) (n : nat) :
  forall (i found : Z) (prev : option (new_cgpu devpath)),
    - 2 ^ 31 <= found ->
    found + Z.of_nat n < 2 ^ 31 ->
    let '(found', prev', ev) :=
      detect_auto_loop devpath strtol sprintf_d io i n found prev in
    found'
    = found + Z.of_nat (length (List.filter (fun j => detect_io_ok (io j))
                                  (seq_Z i n)))
    /\ (found' - found <= Z.of_nat (length (created ev)) <= Z.of_nat n)
    /\ Forall (fun c => procs c = 192) (created ev)
    /\ threads <$> created ev
       = thread_counts (if prev is Some _ then true else false)
           (length (created ev)).
Proof.
  induction n as [|n IH]; intros i found prev Hlo Hhi.
  - cbn. split_and!; [lia|lia|lia|constructor|by destruct prev].
  - cbn [detect_auto_loop].
    pose proof (knc_detect_one_result devpath strtol (io i) (sprintf_d i)
                  prev) as Hrv.
    pose proof (knc_detect_one_created devpath strtol (io i) (sprintf_d i)
                  prev) as Hcr.
    destruct (knc_detect_one _ _ _ _ _) as [[rv prev1] ev1].
    cbn [fst] in Hrv. rewrite strtol_sprintf_d in Hrv. cbn [negb andb] in Hrv.
    set (found1 := if rv then int (found + 1) else found).
    assert (Hf1 : found1 = found + (if rv then 1 else 0)).
    { subst found1. destruct rv; [apply int_id|]; lia. }
    specialize (IH (i + 1) found1 prev1 ltac:(destruct rv; lia)
                  ltac:(destruct rv; lia)).
    destruct (detect_auto_loop _ _ _ _ _ _ _ _) as [[found2 prev2] ev2].
    destruct IH as (Hfound & Hlen & Hprocs & Hthreads).
    assert (Hseq : seq_Z i (S n) = i :: seq_Z (i + 1) n).
    { unfold seq_Z. cbn [seq fmap list_fmap]. f_equal; [f_equal; lia|].
      rewrite <- fmap_S_seq, <- list_fmap_compose.
      apply list_fmap_ext. intros k x _. simpl. lia. }
    rewrite Hseq. cbn [List.filter]. rewrite <- Hrv.
    rewrite created_app, length_app, fmap_app, list.Forall_app.
    destruct Hcr as [(Hc & -> & ->)|(c & Hc & -> & _ & Hp & Ht & Hadd)];
      rewrite Hc; cbn [length app fmap list_fmap Nat.add].
    + split_and!; [lia|lia|lia|constructor|done|done].
    + split_and!.
      * destruct rv; cbn [length]; lia.
      * destruct rv; lia.
      * lia.
      * by repeat constructor.
      * done.
      * rewrite Hthreads, Ht.
        change (S (length (created ev2)))
          with (1 + length (created ev2))%nat.
        rewrite thread_counts_app. by destruct prev.
Qed.

(** X16. [knc_detect_auto] tries the seven addresses 0x20 to 0x26 and
    returns how many of them the system answered well. It
    creates at most seven devices, at least as many as it counts, each
    with 192 processors; the first device ever created gets one thread
    and every other one none. *)
Theorem knc_detect_auto_spec (io : Z -> detect_io)
    (prev : option (new_cgpu devpath)) :
  let '(found, prev', ev) :=
    knc_detect_auto devpath strtol sprintf_d io prev in
  found
  = Z.of_nat (length (List.filter (fun j => detect_io_ok (io j))
                        (seq_Z 0x20 7)))
  /\ 0 <= found <= Z.of_nat (length (created ev))
  /\ (length (created ev) <= 7)%nat
  /\ Forall (fun c => procs c = 192) (created ev)
  /\ threads <$> created ev
     = thread_counts (if prev is Some _ then true else false)
         (length (created ev)).
Proof.
  unfold knc_detect_auto. cbv zeta.
  pose proof (detect_auto_loop_spec io 7 0x20 0 prev ltac:(lia) ltac:(lia))
    as H.
  change (Z.to_nat (0x26 - 0x20 + 1)) with 7%nat.
  destruct (detect_auto_loop _ _ _ _ _ _ _ _) as [[found prev'] ev].
  destruct H as (Hf & Hl & Hp & Ht).
  split_and!; [done|lia|lia|lia|done|done].
Qed.

End DetectAuto.

(** With devices at 0x21 and 0x23 two are found and created, the first
    with the one thread. *)
Lemma knc_detect_auto_spec_witness :
  let r := knc_detect_auto Z ex_strtol id ex_detect_io None in
  r.1.1 = 2
  /\ threads <$> created r.2 = [1; 0]
  /\ device_path <$> created r.2 = [0x21; 0x23].
Proof.
  pose proof (knc_detect_auto_spec Z ex_strtol id (fun _ => eq_refl)
                ex_detect_io None) as H.
  destruct (knc_detect_auto Z ex_strtol id ex_detect_io None)
    as [[found prev'] ev] eqn:E.
  destruct H as (Hf & _ & _ & _ & Ht).
  assert (Hev : ev = (knc_detect_auto Z ex_strtol id ex_detect_io None).2)
    by (by rewrite E).
  split_and!.
  - exact Hf.
  - cbn [snd]. rewrite Ht. rewrite Hev. reflexivity.
  - cbn [snd]. rewrite Hev. reflexivity.
Defined.

(** ** Looking up what was accepted *)

Section Lookup.

Variable bkt_order : list work -> Z -> nat.

(** Among elements with distinct identifiers, each is found under its
    own, whatever the order of the bucket chains. *)
Lemma HASH_FIND_INT_lookup (l : list work) (n : nat) (x : work) :
  NoDup (device_id <$> l) ->
  l !! n = Some x ->
  HASH_FIND_INT bkt_order l (device_id x) = Some (n, x).
Proof.
  intros Hnd Hn.
  destruct (HASH_FIND_INT bkt_order l (device_id x)) as [[m y]|] eqn:E.
  - apply HASH_FIND_INT_Some in E as [Hm Hid].
    assert (m = n) as ->.
    { apply (NoDup_lookup _ m n (device_id x) Hnd);
        rewrite list_lookup_fmap; [by rewrite Hm, <- Hid|by rewrite Hn]. }
    rewrite Hn in Hm. by injection Hm as ->.
  - exfalso. rewrite HASH_FIND_INT_None in E.
    apply (E x); [by eapply list_elem_of_lookup_2|done].
Qed.

(** Once the element found under an identifier is deleted from a table
    of distinct identifiers, nothing is found under it. *)
Lemma HASH_FIND_INT_deleted (dw : list work) (i : Z) (n : nat) (w : work) :
  NoDup (device_id <$> dw) ->
  HASH_FIND_INT bkt_order dw i = Some (n, w) ->
  forall bkt_order' : list work -> Z -> nat,
    HASH_FIND_INT bkt_order' (HASH_DEL dw n) i = None.
Proof.
  intros Hnd Hfind bkt_order'. apply HASH_FIND_INT_Some in Hfind as [Hn Hid].
  apply HASH_FIND_INT_None. intros v Hv E. unfold HASH_DEL in Hv.
  apply list_elem_of_lookup in Hv as [m Hm].
  rewrite list_lookup_delete in Hm.
  apply (NoDup_lookup _ n (if decide (m < n)%nat then m else S m) i) in Hnd.
  - case_decide; lia.
  - by rewrite list_lookup_fmap, Hn, <- Hid.
  - rewrite list_lookup_fmap. case_decide; rewrite Hm; cbn; by rewrite E.
Qed.

End Lookup.

Section AcceptedLookup.

Variable stale_work : work -> bool -> bool.
Variable chain : list cgpu_info.
Variable opt_debug : bool.
Variable le32toh : Z -> Z.
Variable bkt_order : list work -> Z -> nat.
Variable nop : Z.
Variable txrx : list Z -> bool * list Z.
Variable buf : list Z.

(** X17. Work accepted in a poll cycle is what its identifier finds in
    the table afterwards, as long as the identifiers of the table the
    cycle leaves are distinct: whatever the order of the bucket chains
    by then, a lookup of [(next_id + i) mod 2^15] gives the i-th accepted
    work, with its midstate and data and with that identifier stored in
    it. *)
Theorem knc_poll_accepted_found (thr thr' : thr_info) (knc knc' : knc_device)
    (ev : list event) (i : nat) (w : work)
    (bkt_order' : list work -> Z -> nat) :
  device_data thr = Some knc ->
  knc_poll stale_work chain opt_debug le32toh bkt_order nop txrx buf thr
  = Some (thr', ev) ->
  device_data thr' = Some knc' ->
  NoDup (device_id <$> devicework knc') ->
  let q := pending stale_work knc in
  let k := Z.to_nat (poll_workaccept stale_work nop txrx buf knc) in
  let id := (next_id knc + Z.of_nat i) mod 2 ^ 15 in
  take k q !! i = Some w ->
  exists (n : nat) (w' : work),
    HASH_FIND_INT bkt_order' (devicework knc') id = Some (n, w')
    /\ device_id w' = id
    /\ midstate w' = midstate w
    /\ data w' = data w.
Proof.
  intros Hk Hp Hk' Hnd q k id Hi.
  rewrite (knc_poll_eq _ _ _ _ _ _ _ _ _ _ Hk) in Hp.
  destruct (knc_poll_records _ _ _ _ _ _ _ _ _) as [[base ev_rec]|]; [|done].
  cbn [mbind option_bind] in Hp. injection Hp as <- <-.
  cbn [device_data] in Hk'. injection Hk' as <-.
  cbn [devicework poll_device] in Hnd |- *.
  change (workqueue (pruned stale_work knc)) with q in Hnd |- *.
  fold k in Hnd |- *.
  set (B := if need_flush knc then [] else base) in *.
  set (w' := {| midstate := midstate w; data := data w; device_id := id |}).
  assert (Hx : (B ++ assign_ids (next_id knc) (take k q))
                 !! (length B + i)%nat = Some w').
  { rewrite lookup_app_r by lia.
    replace (length B + i - length B)%nat with i by lia.
    rewrite assign_ids_imap, list_lookup_imap, Hi. reflexivity. }
  exists (length B + i)%nat, w'. split; [|done].
  change id with (device_id w'). by apply HASH_FIND_INT_lookup.
Qed.

(** X19. After a poll cycle on a device of capacity at least 1, the
    capacity is the larger of the capacity before and the accepted
    count, [need_flush] is clear, and [next_id] has advanced, modulo
    2^15, by the number of works that moved to the table, so the
    identifiers of the next cycle continue those of this one. *)
Theorem knc_poll_capacity_and_ids (thr thr' : thr_info) (knc : knc_device)
    (ev : list event) :
  device_data thr = Some knc ->
  1 <= workqueue_max knc ->
  knc_poll stale_work chain opt_debug le32toh bkt_order nop txrx buf thr
  = Some (thr', ev) ->
  let workaccept := poll_workaccept stale_work nop txrx buf knc in
  let moved :=
    (Z.to_nat workaccept `min` length (pending stale_work knc))%nat in
  exists knc',
    device_data thr' = Some knc'
    /\ workqueue_max knc' = Z.max (workqueue_max knc) workaccept
    /\ need_flush knc' = false
    /\ next_id knc' mod 2 ^ 15 = (next_id knc + Z.of_nat moved) mod 2 ^ 15
    /\ length (workqueue knc') = (length (pending stale_work knc) - moved)%nat.
Proof.
  intros Hk Hmax Hp workaccept moved.
  rewrite (knc_poll_eq _ _ _ _ _ _ _ _ _ _ Hk) in Hp.
  destruct (knc_poll_records _ _ _ _ _ _ _ _ _) as [[base ev_rec]|]; [|done].
  cbn [mbind option_bind] in Hp. injection Hp as <- <-.
  eexists. split; [reflexivity|].
  cbn [workqueue_max need_flush next_id workqueue poll_device].
  split_and!.
  - unfold reaches_capacity.
    destruct (_ =? 0) eqn:Hz; cbn [negb andb];
      [apply Z.eqb_eq in Hz; lia|].
    destruct (workqueue_max knc <=? _) eqn:Hm;
      [apply Z.leb_le in Hm|apply Z.leb_gt in Hm]; lia.
  - reflexivity.
  - apply next_id_after_mod.
  - rewrite length_drop. subst moved workaccept. unfold pending, pruned.
    cbn [workqueue]. lia.
Qed.

End AcceptedLookup.

(** The second of the two works accepted in [ex_knc_wrap] is found under
    identifier 0, the counter having wrapped from 0x7fff; the work that
    was in the table is done in the same cycle. The lookup is made with
    the bucket chains turned around. *)
Lemma knc_poll_accepted_found_witness :
  let r := ex_poll ex_stale_7 ex_rx_done_5 ex_knc_wrap in
  device_id <$> default [] (devicework <$> device_data (ex_thr_of r))
  = [0x7fff; 0]
  /\ exists (n : nat) (w' : work),
       HASH_FIND_INT ex_oldest_first
         (default [] (devicework <$> device_data (ex_thr_of r))) 0
       = Some (n, w')
       /\ device_id w' = 0
       /\ midstate w' = midstate (ex_work 2)
       /\ data w' = data (ex_work 2).
Proof.
  assert (Hrun : ex_poll ex_stale_7 ex_rx_done_5 ex_knc_wrap
                 = Some (ex_thr_of (ex_poll ex_stale_7 ex_rx_done_5
                                      ex_knc_wrap),
                         ex_ev_of (ex_poll ex_stale_7 ex_rx_done_5
                                     ex_knc_wrap)))
    by (vm_compute; reflexivity).
  assert (Hdev : device_data (ex_thr_of (ex_poll ex_stale_7 ex_rx_done_5
                                           ex_knc_wrap))
                 = Some (mk_knc false [ex_work 3] 1 4 0x8001
                           [mk_work (replicate 32 1) (replicate 128 1) 0x7fff;
                            mk_work (replicate 32 2) (replicate 128 2) 0]))
    by (vm_compute; reflexivity).
  split; [vm_compute; reflexivity|].
  rewrite Hdev.
  refine (knc_poll_accepted_found ex_stale_7 ex_chain false id
            ex_newest_first 0 (ex_device true ex_rx_done_5) ex_buf
            (mk_thr (Some ex_knc_wrap) true 0) _ ex_knc_wrap _ _ 1
            (ex_work 2) ex_oldest_first eq_refl Hrun Hdev _ eq_refl).
  apply (bool_decide_unpack _). vm_compute. exact I.
Defined.

(** The device reports 3 works accepted when the capacity is 1 and one
    work is pending. *)
Lemma knc_poll_capacity_and_ids_witness :
  let knc := mk_knc false [ex_work 1] 1 1 0x7fff [] in
  let r := ex_poll ex_never_stale (ex_rx 3 []) knc in
  exists knc',
    device_data (ex_thr_of r) = Some knc'
    /\ workqueue_max knc' = 3
    /\ need_flush knc' = false
    /\ next_id knc' mod 2 ^ 15 = 0
    /\ length (workqueue knc') = 0%nat.
Proof.
  assert (Hrun : ex_poll ex_never_stale (ex_rx 3 [])
                   (mk_knc false [ex_work 1] 1 1 0x7fff [])
                 = Some (ex_thr_of (ex_poll ex_never_stale (ex_rx 3 [])
                                      (mk_knc false [ex_work 1] 1 1 0x7fff [])),
                         ex_ev_of (ex_poll ex_never_stale (ex_rx 3 [])
                                     (mk_knc false [ex_work 1] 1 1 0x7fff []))))
    by (vm_compute; reflexivity).
  exact (knc_poll_capacity_and_ids ex_never_stale ex_chain false id
           ex_newest_first 0 (ex_device true (ex_rx 3 [])) ex_buf
           (mk_thr (Some (mk_knc false [ex_work 1] 1 1 0x7fff [])) true 0) _
           (mk_knc false [ex_work 1] 1 1 0x7fff []) _ eq_refl
           ltac:(simpl; lia) Hrun).
Defined.

Section DoneTwice.

Variable chain : list cgpu_info.
Variable opt_debug : bool.
Variable le32toh : Z -> Z.
Variable bkt_order : list work -> Z -> nat.

(** X18. A work-done record seen twice frees its work once: when the
    identifiers of the table are distinct, the first record removes the
    work, frees it and reports 2^32 hashes, and the same record on the
    table that is left is unknown work (a warning and one hardware error
    without a nonce), with nothing freed and the table unchanged. *)
Theorem knc_poll_record_done_twice (rx : list Z) (rxbuf : nat)
    (dw : list work) (proc n : nat) (w : work) :
  let rtype := Z.shiftr (byte_at rx rxbuf) 6 in
  let asicno := Z.shiftr (Z.land (byte_at rx rxbuf) 0x38) 3 in
  let i := get_u16be rx (rxbuf + 2) in
  rtype = KNC_REPLY_WORK_DONE ->
  NoDup (device_id <$> dw) ->
  knc_route chain asicno (get_u32be rx (rxbuf + 8)) = Some proc ->
  HASH_FIND_INT bkt_order dw i = Some (n, w) ->
  knc_poll_record chain opt_debug le32toh bkt_order rx rxbuf dw
  = Some (HASH_DEL dw n,
          recv_log opt_debug rx rxbuf
          ++ [free_work w; hashes_done2 proc 0x100000000])
  /\ knc_poll_record chain opt_debug le32toh bkt_order rx rxbuf (HASH_DEL dw n)
     = Some (HASH_DEL dw n,
             recv_log opt_debug rx rxbuf
             ++ [applog LOG_WARNING (msg_unknown_work proc rtype i);
                 inc_hw_errors2 proc None]).
Proof.
  intros rtype asicno i Hrtype Hnd Hroute Hfind.
  pose proof (HASH_FIND_INT_deleted _ _ _ _ _ Hnd Hfind bkt_order) as Hgone.
  unfold knc_poll_record, recv_log. fold rtype. fold asicno. fold i.
  rewrite Hroute, Hfind, Hgone, Hrtype. cbn [mbind option_bind].
  split; reflexivity.
Qed.

End DoneTwice.

(** Two work-done records for identifier 5 on a table that holds it
    once. *)
Lemma knc_poll_record_done_twice_witness :
  let rx := ex_rx_done_5 in
  let dw := [set_device_id (ex_work 1) 5; set_device_id (ex_work 2) 6] in
  knc_poll_record ex_chain false id ex_newest_first rx 12 dw
  = Some ([set_device_id (ex_work 2) 6],
          [free_work (set_device_id (ex_work 1) 5);
           hashes_done2 0 0x100000000])
  /\ knc_poll_record ex_chain false id ex_newest_first rx 12
       [set_device_id (ex_work 2) 6]
     = Some ([set_device_id (ex_work 2) 6],
             [applog LOG_WARNING (msg_unknown_work 0 KNC_REPLY_WORK_DONE 5);
              inc_hw_errors2 0 None]).
Proof.
  refine (knc_poll_record_done_twice ex_chain false id ex_newest_first
            ex_rx_done_5 12
            [set_device_id (ex_work 1) 5; set_device_id (ex_work 2) 6]
            0 0 (set_device_id (ex_work 1) 5) eq_refl _ eq_refl eq_refl).
  apply (bool_decide_unpack _). vm_compute. exact I.
Defined.
